(** * copilot-instructions-templates: the template loader, the validator and
      the two maintenance scripts, embedded and verified.

    Source files covered:
    - the loader, imported by the commands as [utils/template-loader]
      ([src/unnamed/part_004]: frontmatter extraction, structure check,
      record construction, filtering)                    -> [Module Loader]
    - the validator, imported as [utils/validator]
      ([src/unnamed/part_005]: schema and structure validation)
                                                          -> [Module Validator]
    - the stand-alone section check (the script at the end of
      [src/unnamed/part_001])                             -> [Module CheckSections]
    - [src/scripts/validate-yaml.js] (stand-alone frontmatter check with its
      line-by-line fallback parser)                       -> [Module ValidateYaml]
    - [src/src/types/template.ts]                         -> [Module Types]

    JavaScript strings are sequences of UTF-16 code units; they are modelled as
    lists of code units so that [\s], [trim] and [split] keep their exact
    meaning on every input text.  The two library functions the code calls,
    [yaml.load] of js-yaml and [path.basename] of Node, are parameters. *)

From Stdlib Require Import List NArith ZArith Bool String Ascii Lia Permutation.
From Stdlib Require Import Numbers.DecimalString.
Import ListNotations.

Set Warnings "-register-all".

(* ------------------------------------------------------------------------ *)
(** ** JavaScript strings and values                                         *)
(* ------------------------------------------------------------------------ *)

Module JS.

(** A UTF-16 code unit. *)
Definition char := N.

(** A JavaScript string. *)
Definition str := list char.

(** A source-code string literal (ASCII) as a JavaScript string. *)
Definition lit (s : string) : str := map N_of_ascii (list_ascii_of_string s).

Definition char_eqb (a b : char) : bool := N.eqb a b.

Fixpoint str_eqb (a b : str) : bool :=
  match a, b with
  | [], [] => true
  | x :: a', y :: b' => char_eqb x y && str_eqb a' b'
  | _, _ => false
  end.

(** Code units used by the program. *)
Definition LF : char := 10%N.          (* '\n' *)
Definition DASH : char := 45%N.        (* '-'  *)
Definition COLON : char := 58%N.       (* ':'  *)
Definition COMMA : char := 44%N.       (* ','  *)
Definition LBRACKET : char := 91%N.    (* '['  *)
Definition SQUOTE : char := 39%N.      (* the single quote *)
Definition DQUOTE : char := 34%N.      (* the double quote *)

(** ECMAScript [\s] (WhiteSpace and LineTerminator); [String.prototype.trim]
    strips exactly the same code units. *)
Definition is_space (c : char) : bool :=
  (N.eqb c 9 || N.eqb c 10 || N.eqb c 11 || N.eqb c 12 || N.eqb c 13
   || N.eqb c 32 || N.eqb c 160 || N.eqb c 5760
   || (N.leb 8192 c && N.leb c 8202)
   || N.eqb c 8232 || N.eqb c 8233 || N.eqb c 8239 || N.eqb c 8287
   || N.eqb c 12288 || N.eqb c 65279)%bool.

Fixpoint dropWhile {A : Type} (p : A -> bool) (l : list A) : list A :=
  match l with
  | [] => []
  | x :: r => if p x then dropWhile p r else l
  end.

Definition trimStart (s : str) : str := dropWhile is_space s.
Definition trimEnd (s : str) : str := rev (dropWhile is_space (rev s)).

(** [s.trim()] *)
Definition trim (s : str) : str := trimEnd (trimStart s).

(** [s.split(sep)] for a one-character separator: never the empty list. *)
Fixpoint split (sep : char) (s : str) : list str :=
  match s with
  | [] => [[]]
  | c :: r =>
      if char_eqb c sep then [] :: split sep r
      else match split sep r with
           | l :: ls => (c :: l) :: ls
           | [] => [[c]]
           end
  end.

(** [parts.join(sep)] *)
Fixpoint join (sep : str) (parts : list str) : str :=
  match parts with
  | [] => []
  | [p] => p
  | p :: ps => p ++ sep ++ join sep ps
  end.

(** [s.indexOf(c)], with [None] for [-1]. *)
Fixpoint indexOf (c : char) (s : str) : option nat :=
  match s with
  | [] => None
  | x :: r => if char_eqb x c then Some 0 else option_map S (indexOf c r)
  end.

(** [s.startsWith(p)] *)
Fixpoint startsWith (p s : str) : bool :=
  match p, s with
  | [], _ => true
  | x :: p', y :: s' => char_eqb x y && startsWith p' s'
  | _ :: _, [] => false
  end.

(** [hay.includes(needle)] on strings: substring test. *)
Fixpoint str_includes (hay needle : str) : bool :=
  startsWith needle hay
  || match hay with
     | [] => false
     | _ :: r => str_includes r needle
     end.

(** [s.replace(pat, rep)] with a string pattern: only the first occurrence
    is replaced. *)
Fixpoint replaceFirst (pat rep s : str) : str :=
  if startsWith pat s then rep ++ skipn (List.length pat) s
  else match s with
       | [] => []
       | c :: r => c :: replaceFirst pat rep r
       end.

(** [s.slice(1, -1)] *)
Definition slice_1_m1 (s : str) : str := removelast (tl s).

(** [s.replace(q, '')] where [q] is the global regular expression whose
    character class holds the single and the double quote: every quote
    character is removed. *)
Definition is_quote (c : char) : bool := char_eqb c SQUOTE || char_eqb c DQUOTE.
Definition strip_quotes (s : str) : str := filter (fun c => negb (is_quote c)) s.

(** Canonicalisation of a code unit under the [i] flag.  Only ASCII letters are
    folded: a code unit above 127 is never canonicalised to an ASCII one, and
    every pattern of this program is ASCII, so the other foldings cannot be
    observed. *)
Definition canonicalize (c : char) : char :=
  if (N.leb 97 c && N.leb c 122)%bool then (c - 32)%N else c.

Definition ci_eqb (a b : char) : bool := char_eqb (canonicalize a) (canonicalize b).

(** Values as [yaml.load] and the fallback parser produce them.  Numbers are
    the integer-valued ones. *)
Inductive JsValue : Type :=
| JUndefined
| JNull
| JBool (b : bool)
| JNum (n : Z)
| JStr (s : str)
| JArr (items : list JsValue)
| JObj (fields : list (str * JsValue)).

(** ToBoolean *)
Definition truthy (v : JsValue) : bool :=
  match v with
  | JUndefined | JNull => false
  | JBool b => b
  | JNum n => negb (Z.eqb n 0)
  | JStr s => match s with [] => false | _ => true end
  | JArr _ | JObj _ => true
  end.

(** Own-property lookup in a property list. *)
Fixpoint lookup (k : str) (fields : list (str * JsValue)) : option JsValue :=
  match fields with
  | [] => None
  | (k', v) :: r => if str_eqb k' k then Some v else lookup k r
  end.

(** [v.k] for a value [v] that is neither [undefined] nor [null], and a
    property name [k] that no prototype defines (the six metadata field names
    read by this program): the own property, or [undefined]. *)
Definition get (v : JsValue) (k : string) : JsValue :=
  match v with
  | JObj fields => match lookup (lit k) fields with Some x => x | None => JUndefined end
  | _ => JUndefined
  end.

(** [v === s] for a string [s]. *)
Definition is_string (v : JsValue) (s : str) : bool :=
  match v with
  | JStr s' => str_eqb s' s
  | _ => false
  end.

(** [Array.isArray(v)] *)
Definition isArray (v : JsValue) : bool :=
  match v with JArr _ => true | _ => false end.

(** [arr.includes(v)] for an array [arr] of string literals. *)
Definition literals_include (arr : list string) (v : JsValue) : bool :=
  existsb (fun s => is_string v (lit s)) arr.

Definition Z_to_str (n : Z) : str := lit (NilZero.string_of_int (Z.to_int n)).

(** ToString, as a template literal applies it.  Objects are plain data and
    are rendered by [Object.prototype.toString]. *)
Fixpoint toString (v : JsValue) : str :=
  match v with
  | JUndefined => lit "undefined"
  | JNull => lit "null"
  | JBool true => lit "true"
  | JBool false => lit "false"
  | JNum n => Z_to_str n
  | JStr s => s
  | JArr items =>
      (fix joined (l : list JsValue) : str :=
         match l with
         | [] => []
         | x :: r =>
             let e := match x with
                      | JUndefined | JNull => []
                      | _ => toString x
                      end in
             match r with
             | [] => e
             | _ :: _ => e ++ lit "," ++ joined r
             end
         end) items
  | JObj _ => lit "[object Object]"
  end.

(** Exceptions a call can raise. *)
Inductive Exn : Type := TypeError | YAMLException.

Inductive result (A : Type) : Type :=
| Ok (a : A)
| Throw (e : Exn).
Arguments Ok {A} a.
Arguments Throw {A} e.

Definition bind {A B : Type} (m : result A) (k : A -> result B) : result B :=
  match m with
  | Ok a => k a
  | Throw e => Throw e
  end.

(** Where ToString throws a TypeError instead of answering: on an object
    with an own property [toString] (no value read from YAML can be called,
    and [Object.prototype.valueOf] answers with the object itself), and on
    an array with such an item, which [Array.prototype.join] converts. *)
Fixpoint toString_throws (v : JsValue) : bool :=
  match v with
  | JObj fields =>
      match lookup (lit "toString") fields with Some _ => true | None => false end
  | JArr items =>
      (fix some (l : list JsValue) : bool :=
         match l with
         | [] => false
         | x :: r => toString_throws x || some r
         end) items
  | _ => false
  end.

End JS.

Notation "x <- m ;; k" := (JS.bind m (fun x => k))
  (at level 61, m at next level, right associativity).

(* ------------------------------------------------------------------------ *)
(** ** The types (src/types/template.ts)                                     *)
(* ------------------------------------------------------------------------ *)

Module Types.
Import JS.

(** [interface Template].  The optional [frontmatter] holds whatever
    [yaml.load] returned ([JUndefined] when the file has no frontmatter,
    [JNull] when parsing failed): the validator inspects it dynamically. *)
Record Template : Type := {
  path : str;
  filename : str;
  id : str;
  frontmatter : JsValue;
  content : str;
  hasValidStructure : bool
}.

(** [interface ValidationResult] *)
Record ValidationResult : Type := {
  valid : bool;
  errors : list str;
  warnings : list str
}.

End Types.

(* ------------------------------------------------------------------------ *)
(** ** The loader (utils/template-loader)                                    *)
(* ------------------------------------------------------------------------ *)

Module Loader.
Import JS.

(** The fragment of regular expressions used for the section headings: all
    five are anchored at the start of the tested string and carry the [i]
    flag. *)
Inductive atom : Type :=
| Lit (w : string)   (* literal text *)
| Spaces1            (* \s+ *)
| Spaces0.           (* \s* *)

Definition pattern := list atom.

Definition REQUIRED_SECTIONS : list pattern := [
  [Lit "##"; Spaces1; Lit "Role"; Spaces0; Lit "/"; Spaces0; Lit "Identity"];
  [Lit "##"; Spaces1; Lit "Context"; Spaces0; Lit "&"; Spaces0; Lit "Tech"; Spaces1; Lit "Stack"];
  [Lit "##"; Spaces1; Lit "Project"; Spaces1; Lit "Layout"];
  [Lit "##"; Spaces1; Lit "Coding"; Spaces1; Lit "Standards"];
  [Lit "##"; Spaces1; Lit "Workflow"; Spaces0; Lit "&"; Spaces0; Lit "Commands"]
].

(** Consume the literal [w] from the front of [s], comparing under [i]. *)
Fixpoint eat (w s : str) : option str :=
  match w, s with
  | [], _ => Some s
  | x :: w', y :: s' => if ci_eqb x y then eat w' s' else None
  | _ :: _, [] => None
  end.

(** A greedy run of white space followed by the continuation [k]: the
    longest run is tried first and given back on failure, as a backtracking
    matcher does. *)
Fixpoint spaces (k : str -> bool) (s : str) : bool :=
  match s with
  | c :: r => (is_space c && spaces k r) || k s
  | [] => k s
  end.

(** [pattern.test(s)] for an anchored pattern: is some prefix of [s] matched? *)
Fixpoint test (p : pattern) : str -> bool :=
  match p with
  | [] => fun _ => true
  | Lit w :: p' =>
      fun s => match eat (lit w) s with
               | Some r => test p' r
               | None => false
               end
  | Spaces0 :: p' => spaces (test p')
  | Spaces1 :: p' =>
      fun s => match s with
               | c :: r => is_space c && spaces (test p') r
               | [] => false
               end
  end.

(** The remainders after a match of [\s*\n], in the order a backtracking
    matcher tries them: the longest run of white space first. *)
Fixpoint after_spaces_newline (s : str) : list str :=
  match s with
  | [] => []
  | c :: r =>
      (if is_space c then after_spaces_newline r else [])
      ++ (if char_eqb c LF then [r] else [])
  end.

(** Does [\n---\s*\n] match at the front of [s]? *)
Definition closing_here (s : str) : bool :=
  match s with
  | c0 :: c1 :: c2 :: c3 :: r =>
      char_eqb c0 LF && char_eqb c1 DASH && char_eqb c2 DASH && char_eqb c3 DASH
      && match after_spaces_newline r with [] => false | _ :: _ => true end
  | _ => false
  end.

(** The lazy group [([\s\S]*?)] followed by the closing delimiter: the
    shortest prefix of [s] after which the closing delimiter matches. *)
Fixpoint lazy_body (s : str) : option str :=
  if closing_here s then Some []
  else match s with
       | [] => None
       | c :: r => option_map (cons c) (lazy_body r)
       end.

Fixpoint first_some {A B : Type} (f : A -> option B) (l : list A) : option B :=
  match l with
  | [] => None
  | x :: r => match f x with Some y => Some y | None => first_some f r end
  end.

(** [extractFrontmatter]: [content.match(/^---\s*\n([\s\S]*?)\n---\s*\n/)],
    returning the captured group or [null] ([None]). *)
Definition extractFrontmatter (content : str) : option str :=
  match content with
  | c0 :: c1 :: c2 :: r =>
      if char_eqb c0 DASH && char_eqb c1 DASH && char_eqb c2 DASH
      then first_some lazy_body (after_spaces_newline r)
      else None
  | _ => None
  end.

(** [foundSections[index] = true] *)
Fixpoint set_index (index : nat) (l : list bool) : list bool :=
  match l, index with
  | [], _ => []
  | _ :: r, O => true :: r
  | b :: r, S i => b :: set_index i r
  end.

(** [REQUIRED_SECTIONS.forEach((pattern, index) => { if
    (pattern.test(line.trim())) foundSections[index] = true })], started at
    [index]. *)
Fixpoint forEach_pattern (patterns : list pattern) (index : nat) (line : str)
    (foundSections : list bool) : list bool :=
  match patterns with
  | [] => foundSections
  | p :: ps =>
      forEach_pattern ps (S index) line
        (if test p (trim line) then set_index index foundSections
         else foundSections)
  end.

(** The per-heading flags after the loop over the lines. *)
Definition foundSections (patterns : list pattern) (content : str) : list bool :=
  fold_left (fun found line => forEach_pattern patterns 0 line found)
            (split LF content)
            (map (fun _ => false) patterns).

(** [hasValidStructure] *)
Definition hasValidStructure (content : str) : bool :=
  forallb (fun found => found) (foundSections REQUIRED_SECTIONS content).

Section WithLibraries.

(** [yaml.load] of js-yaml: the parsed value, or a thrown [YAMLException]. *)
Variable yaml_load : str -> result JsValue.

(** [path.basename] of Node. *)
Variable basename : str -> str.

(** [parseFrontmatter]: the value [yaml.load] returns; [null] when it
    throws (the error is logged). *)
Definition parseFrontmatter (yamlString : str) : JsValue :=
  match yaml_load yamlString with
  | Ok v => v
  | Throw _ => JNull
  end.

(** [loadTemplate], as a function of the path and of the text read from it. *)
Definition loadTemplate (filePath content : str) : Types.Template :=
  let filename := basename filePath in
  let id := replaceFirst (lit ".md") [] filename in
  let frontmatterString := extractFrontmatter content in
  let frontmatter :=
    match frontmatterString with
    | Some (c :: s) => parseFrontmatter (c :: s)
    | Some [] | None => JUndefined
    end in
  {| Types.path := filePath;
     Types.filename := filename;
     Types.id := id;
     Types.frontmatter := frontmatter;
     Types.content := content;
     Types.hasValidStructure := hasValidStructure content |}.

End WithLibraries.

(** The [filters] argument of [filterTemplates]. *)
Record Filters : Type := {
  category : option str;
  tag : option str;
  difficulty : option str
}.

(** [filters.x && ...]: the criterion is present and not the empty string. *)
Definition supplied (criterion : option str) : option str :=
  match criterion with
  | Some (c :: s) => Some (c :: s)
  | Some [] | None => None
  end.

(** [tags.includes(tag)]: [Array.prototype.includes] on an array,
    [String.prototype.includes] on a string; on anything else the property
    read or the call throws a [TypeError]. *)
Definition includes (tags : JsValue) (tag : str) : result bool :=
  match tags with
  | JArr items => Ok (existsb (fun v => is_string v tag) items)
  | JStr s => Ok (str_includes s tag)
  | _ => Throw TypeError
  end.

(** The callback passed to [templates.filter]. *)
Definition keeps (filters : Filters) (template : Types.Template) : result bool :=
  let fm := Types.frontmatter template in
  if negb (truthy fm) then Ok false
  else if match supplied (category filters) with
          | Some c => negb (is_string (get fm "category") c)
          | None => false
          end
  then Ok false
  else
    rejected <- match supplied (tag filters) with
                | Some g => found <- includes (get fm "tags") g ;; Ok (negb found)
                | None => Ok false
                end ;;
    if (rejected : bool) then Ok false
    else if match supplied (difficulty filters) with
            | Some d => negb (is_string (get fm "difficulty") d)
            | None => false
            end
    then Ok false
    else Ok true.

(** [Array.prototype.filter] with a callback that may throw. *)
Fixpoint filter_with {A : Type} (f : A -> result bool) (l : list A) : result (list A) :=
  match l with
  | [] => Ok []
  | x :: r =>
      keep <- f x ;;
      rest <- filter_with f r ;;
      Ok (if (keep : bool) then x :: rest else rest)
  end.

(** [filterTemplates] *)
Definition filterTemplates (templates : list Types.Template) (filters : Filters)
  : result (list Types.Template) :=
  filter_with (keeps filters) templates.

End Loader.

(* ------------------------------------------------------------------------ *)
(** ** The validator (utils/validator)                                       *)
(* ------------------------------------------------------------------------ *)

Module Validator.
Import JS.

Definition VALID_CATEGORIES : list string := ["language"; "framework"; "role"]%string.
Definition VALID_DIFFICULTIES : list string :=
  ["beginner"; "intermediate"; "advanced"]%string.

(** A field name between double quotes, as the messages print it. *)
Definition quoted (name : string) : str := DQUOTE :: lit name ++ [DQUOTE].

(** [arr.join(', ')] for an array of string literals. *)
Definition join_literals (arr : list string) : str := join (lit ", ") (map lit arr).

(** [array.push(message)] when [condition] holds. *)
Definition push_if (condition : bool) (message : str) (array : list str) : list str :=
  if condition then array ++ [message] else array.

(** [validateFrontmatter] *)
Definition validateFrontmatter (frontmatter : JsValue) : Types.ValidationResult :=
  let errors : list str := [] in
  let warnings : list str := [] in
  if negb (truthy frontmatter) then
    let warnings := warnings ++ [lit "No frontmatter found (will be added in Phase 4)"] in
    {| Types.valid := true; Types.errors := errors; Types.warnings := warnings |}
  else
    (* Required fields *)
    let errors :=
      push_if (negb (truthy (get frontmatter "title")))
              (lit "Missing required field: title") errors in
    let errors :=
      if negb (truthy (get frontmatter "category")) then
        errors ++ [lit "Missing required field: category"]
      else if negb (literals_include VALID_CATEGORIES (get frontmatter "category")) then
        errors ++ [lit "Invalid category: " ++ toString (get frontmatter "category")
                   ++ lit ". Must be one of: " ++ join_literals VALID_CATEGORIES]
      else errors in
    let '(errors, warnings) :=
      if negb (truthy (get frontmatter "tags")) then
        (errors ++ [lit "Missing required field: tags"], warnings)
      else if negb (isArray (get frontmatter "tags")) then
        (errors ++ [lit "Field " ++ quoted "tags" ++ lit " must be an array"], warnings)
      else match get frontmatter "tags" with
           | JArr [] => (errors, warnings ++ [lit "Field " ++ quoted "tags" ++ lit " is empty"])
           | _ => (errors, warnings)
           end in
    let errors :=
      if negb (truthy (get frontmatter "difficulty")) then
        errors ++ [lit "Missing required field: difficulty"]
      else if negb (literals_include VALID_DIFFICULTIES (get frontmatter "difficulty")) then
        errors ++ [lit "Invalid difficulty: " ++ toString (get frontmatter "difficulty")
                   ++ lit ". Must be one of: " ++ join_literals VALID_DIFFICULTIES]
      else errors in
    (* Optional field validation *)
    let warnings :=
      push_if (truthy (get frontmatter "requires")
               && negb (isArray (get frontmatter "requires")))
              (lit "Field " ++ quoted "requires" ++ lit " should be an array") warnings in
    let warnings :=
      push_if (truthy (get frontmatter "combinableWith")
               && negb (isArray (get frontmatter "combinableWith")))
              (lit "Field " ++ quoted "combinableWith" ++ lit " should be an array") warnings in
    {| Types.valid := match errors with [] => true | _ :: _ => false end;
       Types.errors := errors;
       Types.warnings := warnings |}.

(** [validateStructure] *)
Definition validateStructure (template : Types.Template) : Types.ValidationResult :=
  let errors : list str := [] in
  let warnings : list str := [] in
  let '(errors, warnings) :=
    if negb (Types.hasValidStructure template) then
      (errors ++ [lit "Missing one or more required sections"],
       warnings ++ [lit "Required sections: Role/Identity, Context & Tech Stack, Project Layout, Coding Standards, Workflow & Commands"])
    else (errors, warnings) in
  {| Types.valid := match errors with [] => true | _ :: _ => false end;
     Types.errors := errors;
     Types.warnings := warnings |}.

(** [validateTemplate] *)
Definition validateTemplate (template : Types.Template) (strict : bool)
  : Types.ValidationResult :=
  let frontmatterResult := validateFrontmatter (Types.frontmatter template) in
  let structureResult := validateStructure template in
  let errors := Types.errors frontmatterResult ++ Types.errors structureResult in
  let warnings := Types.warnings frontmatterResult ++ Types.warnings structureResult in
  (* In strict mode, warnings are treated as errors *)
  let '(errors, warnings) :=
    if strict then (errors ++ warnings, []) else (errors, warnings) in
  {| Types.valid := match errors with [] => true | _ :: _ => false end;
     Types.errors := errors;
     Types.warnings := warnings |}.

End Validator.

(* ------------------------------------------------------------------------ *)
(** ** The section-check script                                              *)
(* ------------------------------------------------------------------------ *)

Module CheckSections.
Import JS.

Definition REQUIRED_SECTIONS : list string := [
  "## Role / Identity";
  "## Context & Tech Stack";
  "## Project Layout";
  "## Coding Standards";
  "## Workflow & Commands"
]%string.

(** Alternative heading formats: the same five expressions as the loader's. *)
Definition SECTION_PATTERNS : list Loader.pattern := [
  [Loader.Lit "##"; Loader.Spaces1; Loader.Lit "Role"; Loader.Spaces0;
   Loader.Lit "/"; Loader.Spaces0; Loader.Lit "Identity"];
  [Loader.Lit "##"; Loader.Spaces1; Loader.Lit "Context"; Loader.Spaces0;
   Loader.Lit "&"; Loader.Spaces0; Loader.Lit "Tech"; Loader.Spaces1; Loader.Lit "Stack"];
  [Loader.Lit "##"; Loader.Spaces1; Loader.Lit "Project"; Loader.Spaces1; Loader.Lit "Layout"];
  [Loader.Lit "##"; Loader.Spaces1; Loader.Lit "Coding"; Loader.Spaces1; Loader.Lit "Standards"];
  [Loader.Lit "##"; Loader.Spaces1; Loader.Lit "Workflow"; Loader.Spaces0;
   Loader.Lit "&"; Loader.Spaces0; Loader.Lit "Commands"]
].

(** The object [validateTemplate] returns. *)
Record Report : Type := {
  valid : bool;
  missingSections : list str
}.

(** [foundSections.forEach((found, index) => { if (!found)
    missingSections.push(REQUIRED_SECTIONS[index]) })], started at [index]. *)
Fixpoint forEach_found (foundSections : list bool) (index : nat)
    (missingSections : list str) : list str :=
  match foundSections with
  | [] => missingSections
  | found :: rest =>
      forEach_found rest (S index)
        (if negb found
         then missingSections ++ [lit (nth index REQUIRED_SECTIONS "undefined"%string)]
         else missingSections)
  end.

(** [validateTemplate], as a function of the text read from the file: the
    loop over the lines is the loader's, run on [SECTION_PATTERNS]. *)
Definition validateTemplate (content : str) : Report :=
  let foundSections := Loader.foundSections SECTION_PATTERNS content in
  let missingSections := forEach_found foundSections 0 [] in
  {| valid := match missingSections with [] => true | _ :: _ => false end;
     missingSections := missingSections |}.

End CheckSections.

(* ------------------------------------------------------------------------ *)
(** ** What a command does, as far as the process shows it                   *)
(* ------------------------------------------------------------------------ *)

Module Node.
Import JS.

(** How a call of [glob] or of a function of [fs] settles: fulfilled with a
    value, or rejected with an error of the file system. *)
Inductive Settled (E A : Type) : Type :=
| Fulfilled (a : A)
| Rejected (e : E).
Arguments Fulfilled {E A} a.
Arguments Rejected {E A} e.

(** How a call ends: [process.exit(code)], or a plain [return]. *)
Inductive Exit : Type := Returned | Exited (code : Z).

(** What a call does: the arguments of its [console.log] calls, of its
    [console.error] calls, and how it ends. *)
Record Run : Type := {
  stdout : list str;
  stderr : list str;
  exit : Exit
}.

(** A number in a template literal. *)
Definition number (n : nat) : str := Z_to_str (Z.of_nat n).

End Node.

(* ------------------------------------------------------------------------ *)
(** ** The frontmatter-check script (scripts/validate-yaml.js)               *)
(* ------------------------------------------------------------------------ *)

Module ValidateYaml.
Import JS.

(** [extractFrontmatter]: the same regular expression as the loader's. *)
Definition extractFrontmatter (content : str) : option str :=
  Loader.extractFrontmatter content.

(** [data[key] = value] on the object literal [data], as a list of own
    properties.  The key [__proto__] reaches the accessor of
    [Object.prototype] and never creates an own property (a string value is
    ignored; an array value becomes the prototype, which defines none of the
    properties this program reads). *)
Fixpoint assign (key : str) (value : JsValue) (data : list (str * JsValue))
  : list (str * JsValue) :=
  match data with
  | [] => [(key, value)]
  | (k, v) :: r =>
      if str_eqb k key then (k, value) :: r else (k, v) :: assign key value r
  end.

Definition set_property (key : str) (value : JsValue) (data : list (str * JsValue))
  : list (str * JsValue) :=
  if str_eqb key (lit "__proto__") then data else assign key value data.

(** The value stored for the text right of the colon. *)
Definition parse_value (value : str) : JsValue :=
  (* Basic array detection *)
  if startsWith [LBRACKET] value then
    JArr (map (fun s => JStr (strip_quotes (trim s))) (split COMMA (slice_1_m1 value)))
  else
    JStr (strip_quotes value).

(** One iteration of [for (const line of lines)]. *)
Definition parse_line (data : list (str * JsValue)) (line : str)
  : list (str * JsValue) :=
  match indexOf COLON line with
  | None => data
  | Some colonIndex =>
      let key := trim (firstn colonIndex line) in
      let value := trim (skipn (colonIndex + 1) line) in
      set_property key (parse_value value) data
  end.

(** The [catch] branch of [parseFrontmatter]: basic parsing. *)
Definition basic_parse (yamlString : str) : JsValue :=
  JObj (fold_left parse_line (split LF yamlString) []).

Section WithJsYaml.

(** [require('js-yaml')] followed by [yaml.load]: the parsed value, or an
    exception (the module is not installed, or the text is not YAML). *)
Variable yaml_load : str -> result JsValue.

(** [parseFrontmatter] *)
Definition parseFrontmatter (yamlString : str) : JsValue :=
  match yaml_load yamlString with
  | Ok v => v
  | Throw _ => basic_parse yamlString
  end.

End WithJsYaml.

Definition VALID_CATEGORIES : list string := ["language"; "framework"; "role"]%string.
Definition VALID_DIFFICULTIES : list string :=
  ["beginner"; "intermediate"; "advanced"]%string.

(** The object the script's [validateFrontmatter] returns. *)
Record Findings : Type := {
  errors : list str;
  warnings : list str
}.

(** The script's [validateFrontmatter].  It has no guard for absent
    metadata: reading a property of [undefined] or [null] throws a
    [TypeError].  The [filePath] argument is not used. *)
Definition validateFrontmatter (filePath : str) (frontmatter : JsValue) : result Findings :=
  match frontmatter with
  | JUndefined | JNull => Throw TypeError
  | _ =>
    let errors : list str := [] in
    let warnings : list str := [] in
    (* Check required fields *)
    let errors :=
      Validator.push_if (negb (truthy (get frontmatter "title")))
                        (lit "Missing required field: title") errors in
    let errors :=
      if negb (truthy (get frontmatter "category")) then
        errors ++ [lit "Missing required field: category"]
      else if negb (literals_include VALID_CATEGORIES (get frontmatter "category")) then
        errors ++ [lit "Invalid category: " ++ toString (get frontmatter "category")
                   ++ lit ". Must be one of: " ++ Validator.join_literals VALID_CATEGORIES]
      else errors in
    let '(errors, warnings) :=
      if negb (truthy (get frontmatter "tags")) then
        (errors ++ [lit "Missing required field: tags"], warnings)
      else if negb (isArray (get frontmatter "tags")) then
        (errors ++ [lit "Field " ++ Validator.quoted "tags" ++ lit " must be an array"],
         warnings)
      else match get frontmatter "tags" with
           | JArr [] =>
               (errors,
                warnings ++ [lit "Field " ++ Validator.quoted "tags" ++ lit " is empty"])
           | _ => (errors, warnings)
           end in
    let errors :=
      if negb (truthy (get frontmatter "difficulty")) then
        errors ++ [lit "Missing required field: difficulty"]
      else if negb (literals_include VALID_DIFFICULTIES (get frontmatter "difficulty")) then
        errors ++ [lit "Invalid difficulty: " ++ toString (get frontmatter "difficulty")
                   ++ lit ". Must be one of: " ++ Validator.join_literals VALID_DIFFICULTIES]
      else errors in
    (* Optional field validation *)
    let warnings :=
      Validator.push_if (truthy (get frontmatter "requires")
                         && negb (isArray (get frontmatter "requires")))
                        (lit "Field " ++ Validator.quoted "requires" ++ lit " should be an array")
                        warnings in
    let warnings :=
      Validator.push_if (truthy (get frontmatter "combinableWith")
                         && negb (isArray (get frontmatter "combinableWith")))
                        (lit "Field " ++ Validator.quoted "combinableWith"
                         ++ lit " should be an array")
                        warnings in
    Ok {| errors := errors; warnings := warnings |}
  end.

(** The characters of the script's messages that are not ASCII, as code
    units. *)
Definition MAGNIFIER : str := [55357%N; 56589%N].      (* U+1F50D *)
Definition WARNING_SIGN : str := [9888%N; 65039%N].    (* U+26A0 U+FE0F *)
Definition NEXT_TRACK : str := [9197%N; 65039%N].      (* U+23ED U+FE0F *)
Definition CROSS_MARK : str := [10060%N].              (* U+274C *)
Definition CHECK_MARK : str := [9989%N].               (* U+2705 *)
Definition BAR_CHART : str := [55357%N; 56522%N].      (* U+1F4CA *)

(** What the handler passed to [main().catch] receives: an error of the file
    system, or an exception of the script's own code. *)
Inductive Failure (FsError : Type) : Type :=
| OfFs (e : FsError)
| OfJs (e : Exn).
Arguments OfFs {FsError} e.
Arguments OfJs {FsError} e.

(** The variables of the loop of [main], and what it has printed. *)
Record MainState : Type := {
  hasErrors : bool;
  filesWithFrontmatter : nat;
  filesWithoutFrontmatter : nat;
  printed : list str
}.

Section WithEnvironment.

Variable FsError : Type.

(** The files [glob] finds for [templates/**/*.md], or the error it rejects
    with. *)
Variable glob : Node.Settled FsError (list str).

(** [fs.readFileSync(file, 'utf-8')]: the text, or the error it throws. *)
Variable readFileSync : str -> Node.Settled FsError str.

Variable yaml_load : str -> result JsValue.

(** How [console.error] prints what was caught. *)
Variable inspect : Failure FsError -> str.

(** The body of the loop for a file that is not skipped and whose text has
    been read. *)
Definition check (st : MainState) (file content : str) : result MainState :=
  match extractFrontmatter content with
  | None | Some [] =>
      Ok {| hasErrors := hasErrors st;
            filesWithFrontmatter := filesWithFrontmatter st;
            filesWithoutFrontmatter := filesWithoutFrontmatter st + 1;
            printed := printed st
                       ++ [WARNING_SIGN ++ lit "  " ++ file
                           ++ lit " - No frontmatter found (will be added in Phase 4)"] |}
  | Some frontmatterString =>
      let frontmatter := parseFrontmatter yaml_load frontmatterString in
      validation <- validateFrontmatter file frontmatter ;;
      Ok (match errors validation, warnings validation with
          | _ :: _, _ =>
              {| hasErrors := true;
                 filesWithFrontmatter := filesWithFrontmatter st + 1;
                 filesWithoutFrontmatter := filesWithoutFrontmatter st;
                 printed := printed st
                            ++ [CROSS_MARK ++ lit " " ++ file]
                            ++ map (fun error => lit "   Error: " ++ error)
                                   (errors validation) |}
          | [], _ :: _ =>
              {| hasErrors := hasErrors st;
                 filesWithFrontmatter := filesWithFrontmatter st + 1;
                 filesWithoutFrontmatter := filesWithoutFrontmatter st;
                 printed := printed st
                            ++ [WARNING_SIGN ++ lit "  " ++ file]
                            ++ map (fun warning => lit "   Warning: " ++ warning)
                                   (warnings validation) |}
          | [], [] =>
              {| hasErrors := hasErrors st;
                 filesWithFrontmatter := filesWithFrontmatter st + 1;
                 filesWithoutFrontmatter := filesWithoutFrontmatter st;
                 printed := printed st ++ [CHECK_MARK ++ lit " " ++ file] |}
          end)
  end.

(** [for (const file of templateFiles)]: the state when the loop ends, and
    what ended it, if anything. *)
Fixpoint loop (st : MainState) (templateFiles : list str)
  : MainState * option (Failure FsError) :=
  match templateFiles with
  | [] => (st, None)
  | file :: rest =>
      (* Skip base template *)
      if str_includes file (lit "_base-template.md") then
        loop {| hasErrors := hasErrors st;
                filesWithFrontmatter := filesWithFrontmatter st;
                filesWithoutFrontmatter := filesWithoutFrontmatter st;
                printed := printed st
                           ++ [NEXT_TRACK ++ lit "  Skipping: " ++ file
                               ++ lit " (base template)"] |}
             rest
      else
        match readFileSync file with
        | Node.Rejected e => (st, Some (OfFs e))
        | Node.Fulfilled content =>
            match check st file content with
            | Throw e => (st, Some (OfJs e))
            | Ok st' => loop st' rest
            end
        end
  end.

Definition initial : MainState :=
  {| hasErrors := false; filesWithFrontmatter := 0; filesWithoutFrontmatter := 0;
     printed := [] |}.

Definition header : str := MAGNIFIER ++ lit " Validating YAML frontmatter..." ++ [LF].

(** The handler passed to [main().catch]. *)
Definition failed (printed : list str) (e : Failure FsError) : Node.Run :=
  {| Node.stdout := header :: printed;
     Node.stderr := [lit "Error: " ++ inspect e];
     Node.exit := Node.Exited 1 |}.

(** [main()] with its [catch] handler. *)
Definition main : Node.Run :=
  match glob with
  | Node.Rejected e => failed [] (OfFs e)
  | Node.Fulfilled [] =>
      {| Node.stdout := [header; WARNING_SIGN ++ lit "  No template files found"];
         Node.stderr := [];
         Node.exit := Node.Exited 0 |}
  | Node.Fulfilled templateFiles =>
      match loop initial templateFiles with
      | (st, Some e) => failed (printed st) e
      | (st, None) =>
          let summary :=
            [ [LF] ++ BAR_CHART ++ lit " Summary:";
              lit "   Files with frontmatter: "
                ++ Node.number (filesWithFrontmatter st);
              lit "   Files without frontmatter: "
                ++ Node.number (filesWithoutFrontmatter st) ] in
          if hasErrors st then
            {| Node.stdout := header :: printed st ++ summary
                              ++ [[LF] ++ CROSS_MARK
                                  ++ lit " Some frontmatter validations failed"];
               Node.stderr := [];
               Node.exit := Node.Exited 1 |}
          else
            {| Node.stdout := header :: printed st ++ summary
                              ++ [[LF] ++ CHECK_MARK ++ lit " All frontmatter is valid"];
               Node.stderr := [];
               Node.exit := Node.Exited 0 |}
      end
  end.

End WithEnvironment.

End ValidateYaml.

(* ------------------------------------------------------------------------ *)
(** ** The validate command (src/commands/validate.ts)                       *)
(* ------------------------------------------------------------------------ *)

Module ValidateCommand.
Import JS Node.

(** The characters of the messages that are not ASCII, as code units. *)
Definition CHECK_MARK : str := [9989%N].              (* U+2705 *)
Definition CROSS_MARK : str := [10060%N].             (* U+274C *)
Definition MAGNIFIER : str := [55357%N; 56589%N].     (* U+1F50D *)
Definition BAR_CHART : str := [55357%N; 56522%N].     (* U+1F4CA *)
Definition RULE : char := 9472%N.                     (* U+2500 *)

(** What a [catch] clause receives: an error of the file system, or an
    exception of the program's own code. *)
Inductive Caught (FsError : Type) : Type :=
| OfFs (e : FsError)
| OfJs (e : Exn).
Arguments OfFs {FsError} e.
Arguments OfJs {FsError} e.

(** The variables of the loop, what it has printed with [console.log], and
    what [loadTemplate] has printed with [console.error]. *)
Record LoopState : Type := {
  hasErrors : bool;
  validCount : nat;
  warningCount : nat;
  printed : list str;
  logged : list str
}.

(** The template literals of [validateFrontmatter] apply ToString to a
    category, or to a difficulty, that is present and not among the allowed
    values: the call throws where ToString does. *)
Definition message_throws (frontmatter : JsValue) : bool :=
  truthy frontmatter
  && ((truthy (get frontmatter "category")
       && negb (literals_include Validator.VALID_CATEGORIES (get frontmatter "category"))
       && toString_throws (get frontmatter "category"))
      || (truthy (get frontmatter "difficulty")
          && negb (literals_include Validator.VALID_DIFFICULTIES
                                    (get frontmatter "difficulty"))
          && toString_throws (get frontmatter "difficulty"))).

(** [validateTemplate(template, options.strict)], as the command calls it. *)
Definition validateTemplate (template : Types.Template) (strict : bool)
  : result Types.ValidationResult :=
  if message_throws (Types.frontmatter template) then Throw TypeError
  else Ok (Validator.validateTemplate template strict).

Section WithEnvironment.

(** The errors of the file system. *)
Variable FsError : Type.

(** The files [glob] finds for [templates/**/*.md] (base template and
    ignored directories left out), or the error it rejects with. *)
Variable glob : Settled FsError (list str).

(** [fs.readFile(path, 'utf-8')]: the text, or the error it rejects with. *)
Variable readFile : str -> Settled FsError str.

Variable yaml_load : str -> result JsValue.
Variable basename : str -> str.

(** The styles of chalk. *)
Variables blue_bold green red yellow gray : str -> str.

(** How [console.error] prints what was caught. *)
Variable inspect : Caught FsError -> str.

(** What [loadTemplate] prints with [console.error]: the line of the catch
    clause of [parseFrontmatter], when js-yaml rejects the block. *)
Definition load_log (content : str) : list str :=
  match Loader.extractFrontmatter content with
  | Some (c :: s) =>
      match yaml_load (c :: s) with
      | Throw e => [lit "Error parsing frontmatter: " ++ inspect (OfJs e)]
      | Ok _ => []
      end
  | Some [] | None => []
  end.

(** The body of the loop after the call of [validateTemplate]. *)
Definition report (st : LoopState) (file : str) (result : Types.ValidationResult)
  : LoopState :=
  let st :=
    if Types.valid result then
      {| hasErrors := hasErrors st;
         validCount := validCount st + 1;
         warningCount := warningCount st;
         printed := printed st ++ [green (CHECK_MARK ++ lit " " ++ file)];
         logged := logged st |}
    else
      {| hasErrors := true;
         validCount := validCount st;
         warningCount := warningCount st;
         printed := printed st ++ [red (CROSS_MARK ++ lit " " ++ file)];
         logged := logged st |} in
  let st :=
    match Types.errors result with
    | [] => st
    | _ :: _ =>
        {| hasErrors := hasErrors st;
           validCount := validCount st;
           warningCount := warningCount st;
           printed := printed st
                      ++ map (fun error => red (lit "   Error: " ++ error))
                             (Types.errors result);
           logged := logged st |}
    end in
  match Types.warnings result with
  | [] => st
  | _ :: _ =>
      {| hasErrors := hasErrors st;
         validCount := validCount st;
         warningCount := warningCount st + 1;
         printed := printed st
                    ++ map (fun warning => yellow (lit "   Warning: " ++ warning))
                           (Types.warnings result);
         logged := logged st |}
  end.

(** [for (const file of filesToValidate)]: the state when the loop ends, and
    what ended it, if anything. *)
Fixpoint loop (strict : bool) (st : LoopState) (files : list str)
  : LoopState * option (Caught FsError) :=
  match files with
  | [] => (st, None)
  | file :: rest =>
      match readFile file with
      | Rejected e => (st, Some (OfFs e))
      | Fulfilled content =>
          let template := Loader.loadTemplate yaml_load basename file content in
          let st := {| hasErrors := hasErrors st;
                       validCount := validCount st;
                       warningCount := warningCount st;
                       printed := printed st;
                       logged := logged st ++ load_log content |} in
          match validateTemplate template strict with
          | Throw e => (st, Some (OfJs e))
          | Ok result => loop strict (report st file result) rest
          end
      end
  end.

Definition initial : LoopState :=
  {| hasErrors := false; validCount := 0; warningCount := 0; printed := [];
     logged := [] |}.

Definition header : str :=
  blue_bold ([LF] ++ MAGNIFIER ++ lit " Validating Templates" ++ [LF]).

(** The [catch] clause. *)
Definition failed (st : LoopState) (e : Caught FsError) : Run :=
  {| stdout := header :: printed st;
     stderr := logged st
               ++ [red (lit "Error during validation:") ++ lit " " ++ inspect e];
     exit := Exited 1 |}.

(** The lines of the summary. *)
Definition summary (total : nat) (st : LoopState) : list str :=
  [ blue_bold ([LF] ++ BAR_CHART ++ lit " Validation Results");
    gray (repeat RULE 50);
    lit "  Total files: " ++ number total;
    green (lit "  Valid: " ++ number (validCount st));
    red (lit "  Invalid: " ++ number (total - validCount st)) ]
  ++ (if Nat.ltb 0 (warningCount st)
      then [yellow (lit "  With warnings: " ++ number (warningCount st))]
      else []).

(** [validateCommand(files, options)], with [strict] for [options.strict]. *)
Definition validateCommand (files : list str) (strict : bool) : Run :=
  match (match files with
         | _ :: _ => Fulfilled files
         | [] => glob                       (* Validate all templates *)
         end) with
  | Rejected e => failed initial (OfFs e)
  | Fulfilled [] =>
      {| stdout := [header; yellow (lit "No templates found to validate.")];
         stderr := [];
         exit := Returned |}
  | Fulfilled filesToValidate =>
      match loop strict initial filesToValidate with
      | (st, Some e) => failed st e
      | (st, None) =>
          if hasErrors st then
            {| stdout := header :: printed st
                         ++ summary (List.length filesToValidate) st
                         ++ [red ([LF] ++ CROSS_MARK ++ lit " Validation failed" ++ [LF])];
               stderr := logged st;
               exit := Exited 1 |}
          else
            {| stdout := header :: printed st
                         ++ summary (List.length filesToValidate) st
                         ++ [green ([LF] ++ CHECK_MARK
                                    ++ lit " All templates are valid" ++ [LF])];
               stderr := logged st;
               exit := Exited 0 |}
      end
  end.

End WithEnvironment.

End ValidateCommand.

(* ------------------------------------------------------------------------ *)
(** ** The list command (commands/list): grouping and the tags line          *)
(* ------------------------------------------------------------------------ *)

Module ListCommand.
Import JS.

(** [v?.k] *)
Definition optional_get (v : JsValue) (k : string) : JsValue :=
  match v with
  | JUndefined | JNull => JUndefined
  | _ => get v k
  end.

(** [a || b] *)
Definition or_else (a b : JsValue) : JsValue := if truthy a then a else b.

(** ToString, with the TypeError it throws. *)
Definition ToString (v : JsValue) : result str :=
  if toString_throws v then Throw TypeError else Ok (toString v).

(** The names [Object.prototype] defines: on the object literal [{}] each
    of them reads as a function (or, for [__proto__], as the prototype),
    none of which has a [push] method. *)
Definition INHERITED : list string :=
  ["constructor"; "__defineGetter__"; "__defineSetter__"; "hasOwnProperty";
   "__lookupGetter__"; "__lookupSetter__"; "isPrototypeOf";
   "propertyIsEnumerable"; "toString"; "valueOf"; "__proto__";
   "toLocaleString"]%string.

Definition inherited (key : str) : bool :=
  existsb (fun name => str_eqb (lit name) key) INHERITED.

(** [template.frontmatter?.category || 'unknown'] *)
Definition category_of (template : Types.Template) : JsValue :=
  or_else (optional_get (Types.frontmatter template) "category")
          (JStr (lit "unknown")).

(** The property key [acc[category]] converts the category to. *)
Definition category_key (template : Types.Template) : result str :=
  ToString (category_of template).

(** The own properties of the accumulator: each an array of records. *)
Definition Groups : Type := list (str * list Types.Template).

Fixpoint group_of (key : str) (acc : Groups) : option (list Types.Template) :=
  match acc with
  | [] => None
  | (k, g) :: r => if str_eqb k key then Some g else group_of key r
  end.

(** [acc[category].push(template)] on an own property. *)
Fixpoint push_to (key : str) (template : Types.Template) (acc : Groups) : Groups :=
  match acc with
  | [] => []
  | (k, g) :: r =>
      if str_eqb k key then (k, g ++ [template]) :: r
      else (k, g) :: push_to key template r
  end.

(** The reducer: [if (!acc[category]) acc[category] = [];
    acc[category].push(template)]. *)
Definition group_step (acc : Groups) (template : Types.Template) : result Groups :=
  category <- category_key template ;;
  match group_of category acc with
  | Some _ => Ok (push_to category template acc)
  | None =>
      if inherited category then Throw TypeError
      else Ok (acc ++ [(category, [template])])
  end.

(** [filtered.reduce(reducer, {})] *)
Fixpoint reduce_from (acc : Groups) (filtered : list Types.Template) : result Groups :=
  match filtered with
  | [] => Ok acc
  | template :: rest =>
      acc' <- group_step acc template ;;
      reduce_from acc' rest
  end.

Definition grouped (filtered : list Types.Template) : result Groups :=
  reduce_from [] filtered.



End ListCommand.

(* ------------------------------------------------------------------------ *)
(** ** Notions used to state the properties                                  *)
(* ------------------------------------------------------------------------ *)

Module Spec.
Import JS.

(** The three-way classification of a validation result: [valid] (no errors,
    no warnings), [valid-with-warnings] (no errors, at least one warning),
    [invalid] (at least one error). *)
Inductive Classification : Type := Valid | ValidWithWarnings | Invalid.

Definition classify (r : Types.ValidationResult) : Classification :=
  match Types.errors r, Types.warnings r with
  | _ :: _, _ => Invalid
  | [], [] => Valid
  | [], _ :: _ => ValidWithWarnings
  end.

(** How valid a classification is: [invalid] < [valid-with-warnings] < [valid]. *)
Definition rank (c : Classification) : nat :=
  match c with
  | Invalid => 0
  | ValidWithWarnings => 1
  | Valid => 2
  end.

(** The lines of a document, and the document made of given lines. *)
Definition lines (content : str) : list str := split LF content.
Definition unlines (ls : list str) : str := join [LF] ls.

Definition all_spaces (ws : str) : Prop := Forall (fun c => is_space c = true) ws.

(** What a heading expression denotes: [spells p body] when [body] is the
    text of [p] written with some choice of letter case and of white space. *)
Inductive spells : Loader.pattern -> str -> Prop :=
| spells_nil : spells [] []
| spells_lit (w : string) (p : Loader.pattern) (x s : str) :
    Forall2 (fun a b => ci_eqb a b = true) (lit w) x ->
    spells p s ->
    spells (Loader.Lit w :: p) (x ++ s)
| spells_spaces1 (p : Loader.pattern) (c : char) (ws s : str) :
    is_space c = true -> all_spaces ws ->
    spells p s ->
    spells (Loader.Spaces1 :: p) (c :: ws ++ s)
| spells_spaces0 (p : Loader.pattern) (ws s : str) :
    all_spaces ws ->
    spells p s ->
    spells (Loader.Spaces0 :: p) (ws ++ s).

(** A line is a case/spacing variant of the heading [p] when, once leading
    and trailing white space is stripped, it starts with a spelling of [p]. *)
Definition heading_variant (p : Loader.pattern) (line : str) : Prop :=
  exists body rest, trim line = body ++ rest /\ spells p body.

(** The same, decided. *)
Definition is_heading (p : Loader.pattern) (line : str) : bool :=
  Loader.test p (trim line).

(** The document with every line that is a variant of the heading [p]
    removed. *)
Definition remove_heading (p : Loader.pattern) (content : str) : str :=
  unlines (filter (fun line => negb (is_heading p line)) (lines content)).

(** A delimiter line: three dashes, possibly followed by white space. *)
Definition delimiter_line (l : str) : Prop :=
  exists ws, l = lit "---" ++ ws /\ all_spaces ws.

(** The document begins with a delimiter line and has a later delimiter
    line. *)
Definition begins_with_delimiter_pair (content : str) : Prop :=
  exists first between closing after,
    lines content = first :: between ++ closing :: after
    /\ delimiter_line first /\ delimiter_line closing.

(** The exact shape the regular expression of [extractFrontmatter] accepts,
    with the captured [body]. *)
Definition frontmatter_shape (content body : str) : Prop :=
  exists ws1 ws2 rest,
    content = lit "---" ++ ws1 ++ [LF] ++ body ++ [LF] ++ lit "---" ++ ws2 ++ [LF] ++ rest
    /\ all_spaces ws1 /\ all_spaces ws2.

(** The record has metadata. *)
Definition has_metadata (t : Types.Template) : Prop :=
  truthy (Types.frontmatter t) = true.

(** The record satisfies every supplied criterion of [f]. *)
Definition meets (f : Loader.Filters) (t : Types.Template) : Prop :=
  has_metadata t
  /\ (forall c, Loader.supplied (Loader.category f) = Some c ->
        get (Types.frontmatter t) "category" = JStr c)
  /\ (forall g, Loader.supplied (Loader.tag f) = Some g ->
        exists items, get (Types.frontmatter t) "tags" = JArr items /\ In (JStr g) items)
  /\ (forall d, Loader.supplied (Loader.difficulty f) = Some d ->
        get (Types.frontmatter t) "difficulty" = JStr d).

(** The same, decided (for a record whose tags, if any, are a list). *)
Definition selects (f : Loader.Filters) (t : Types.Template) : bool :=
  let fm := Types.frontmatter t in
  truthy fm
  && match Loader.supplied (Loader.category f) with
     | Some c => is_string (get fm "category") c
     | None => true
     end
  && match Loader.supplied (Loader.tag f) with
     | Some g => match get fm "tags" with
                 | JArr items => existsb (fun v => is_string v g) items
                 | _ => false
                 end
     | None => true
     end
  && match Loader.supplied (Loader.difficulty f) with
     | Some d => is_string (get fm "difficulty") d
     | None => true
     end.

(** Metadata as [interface TemplateFrontmatter] declares it, as far as
    [filterTemplates] depends on it: [tags] is an array. *)
Definition tags_are_lists (ts : list Types.Template) : Prop :=
  Forall (fun t => has_metadata t ->
                   isArray (get (Types.frontmatter t) "tags") = true) ts.

(** No criterion is supplied. *)
Definition no_criteria (f : Loader.Filters) : Prop :=
  Loader.supplied (Loader.category f) = None
  /\ Loader.supplied (Loader.tag f) = None
  /\ Loader.supplied (Loader.difficulty f) = None.

(** [f'] has every criterion of [f], and possibly more. *)
Definition extends (f f' : Loader.Filters) : Prop :=
  (forall c, Loader.supplied (Loader.category f) = Some c ->
             Loader.supplied (Loader.category f') = Some c)
  /\ (forall g, Loader.supplied (Loader.tag f) = Some g ->
                Loader.supplied (Loader.tag f') = Some g)
  /\ (forall d, Loader.supplied (Loader.difficulty f) = Some d ->
                Loader.supplied (Loader.difficulty f') = Some d).

(** [l1] is [l2] with some elements left out, the others in their order. *)
Inductive sublist {A : Type} : list A -> list A -> Prop :=
| sublist_nil : sublist [] []
| sublist_keep (x : A) (l1 l2 : list A) : sublist l1 l2 -> sublist (x :: l1) (x :: l2)
| sublist_skip (x : A) (l1 l2 : list A) : sublist l1 l2 -> sublist l1 (x :: l2).

(** The file name with a trailing [.md] removed. *)
Definition strip_md_extension (filename : str) : str :=
  let n := List.length filename in
  if str_eqb (skipn (n - 3) filename) (lit ".md") then firstn (n - 3) filename
  else filename.

(** The line declares the key [k] with the value [v]: it has a colon, [k] is
    the trimmed text left of its first colon, and [v] is the value read from
    the trimmed text right of it. *)
Definition declares (line k : str) (v : JsValue) : Prop :=
  exists left right,
    line = left ++ COLON :: right /\ ~ In COLON left
    /\ k = trim left /\ v = ValidateYaml.parse_value (trim right).

(** [v] is the value declared for [k] by the last line of [ls] that declares
    [k]. *)
Definition last_declaration (ls : list str) (k : str) (v : JsValue) : Prop :=
  exists before line after,
    ls = before ++ line :: after /\ declares line k v
    /\ Forall (fun l => forall v', ~ declares l k v') after.

(** The text starts with a closing delimiter: a line break, three dashes,
    white space, a line break. *)
Definition closing_delimiter (s : str) : Prop :=
  exists ws rest, s = [LF] ++ lit "---" ++ ws ++ [LF] ++ rest /\ all_spaces ws.

(** Metadata that passes [validateFrontmatter]: the four required fields are
    present and well-formed. *)
Definition required_fields_ok (fm : JsValue) : bool :=
  truthy (get fm "title")
  && literals_include Validator.VALID_CATEGORIES (get fm "category")
  && isArray (get fm "tags")
  && literals_include Validator.VALID_DIFFICULTIES (get fm "difficulty").

(** Metadata about which [validateFrontmatter] has no warning either: the
    tag list is not empty and the optional lists, when given, are lists. *)
Definition no_warning_fields (fm : JsValue) : bool :=
  match get fm "tags" with JArr [] => false | _ => true end
  && (negb (truthy (get fm "requires")) || isArray (get fm "requires"))
  && (negb (truthy (get fm "combinableWith")) || isArray (get fm "combinableWith")).

(** [needle] occurs in [hay]. *)
Definition substring (needle hay : str) : Prop :=
  exists before after, hay = before ++ needle ++ after.

(** The code unit of the full stop. *)
Definition DOT : char := 46%N.

(** A value as the fallback parser stores it: a string without quote
    characters, or a non-empty list of such strings. *)
Definition quote_free (s : str) : Prop := ~ In SQUOTE s /\ ~ In DQUOTE s.

Definition fallback_value (v : JsValue) : Prop :=
  (exists s, v = JStr s /\ quote_free s)
  \/ (exists first rest, v = JArr (map JStr (first :: rest))
                          /\ Forall quote_free (first :: rest)).

(** A value written between double quotes, and a list of such values written
    between brackets with a comma and a space between the items, as the
    templates write them. *)
Definition in_quotes (s : str) : str := DQUOTE :: s ++ [DQUOTE].

Definition bracketed (items : list str) : str :=
  LBRACKET :: join (lit ", ") (map in_quotes items) ++ lit "]".

(** What [validateTemplate] answers for a file with the text [content]. *)
Definition verdict (yaml_load : str -> result JsValue) (basename : str -> str)
    (strict : bool) (file content : str) : Types.ValidationResult :=
  Validator.validateTemplate (Loader.loadTemplate yaml_load basename file content) strict.

(** The validate command can read the file, and validating it throws
    nothing. *)
Definition validates (FsError : Type) (readFile : str -> Node.Settled FsError str)
    (yaml_load : str -> result JsValue) (basename : str -> str)
    (contents : str -> str) (file : str) : Prop :=
  readFile file = Node.Fulfilled (contents file)
  /\ ValidateCommand.message_throws
       (Types.frontmatter (Loader.loadTemplate yaml_load basename file (contents file)))
     = false.

Definition has_warnings (r : Types.ValidationResult) : bool :=
  match Types.warnings r with [] => false | _ :: _ => true end.





(** How the frontmatter-check script judges a file with the text [content]:
    nothing when it finds no metadata block, or only an empty one. *)
Definition script_findings (yaml_load : str -> result JsValue) (file content : str)
  : option (result ValidateYaml.Findings) :=
  match ValidateYaml.extractFrontmatter content with
  | None | Some [] => None
  | Some block =>
      Some (ValidateYaml.validateFrontmatter file
              (ValidateYaml.parseFrontmatter yaml_load block))
  end.

(** The script looks at the file. *)
Definition examined (file : str) : bool :=
  negb (str_includes file (lit "_base-template.md")).

(** The script finds metadata in the file, and finds errors in it. *)
Definition script_has_metadata (yaml_load : str -> result JsValue) (file content : str)
  : bool :=
  match script_findings yaml_load file content with Some _ => true | None => false end.

Definition script_has_errors (yaml_load : str -> result JsValue) (file content : str)
  : bool :=
  match script_findings yaml_load file content with
  | Some (Ok findings) =>
      match ValidateYaml.errors findings with [] => false | _ :: _ => true end
  | _ => false
  end.

(** The script can read the file and judge it, if it looks at it. *)
Definition manageable (FsError : Type) (readFileSync : str -> Node.Settled FsError str)
    (yaml_load : str -> result JsValue) (contents : str -> str) (file : str) : Prop :=
  examined file = true ->
  readFileSync file = Node.Fulfilled (contents file)
  /\ forall e, script_findings yaml_load file (contents file) <> Some (Throw e).

End Spec.

(* ------------------------------------------------------------------------ *)
(** ** Concrete documents and records                                        *)
(* ------------------------------------------------------------------------ *)

Module Examples.
Import JS.

(** A document given by its lines. *)
Definition doc (ls : list string) : str := Spec.unlines (map lit ls).

(** [path.basename] on POSIX paths without a trailing slash: the text after
    the last slash. *)
Definition basename_posix (p : str) : str := last (split 47%N p) [].

(** A [yaml.load] that throws: js-yaml on text that is not YAML, or js-yaml
    not installed. *)
Definition yaml_throws (s : str) : result JsValue := Throw YAMLException.

Definition five_headings : str := doc [
  "# Example - GitHub Copilot Instructions";
  "Instructions for the example project.";
  "## Role / Identity";
  "You are a senior engineer.";
  "## Context & Tech Stack";
  "## Project Layout";
  "## Coding Standards";
  "## Workflow & Commands"
]%string.

Definition five_headings_variants : str := doc [
  "##   Coding Standards  ";
  "## role/identity";
  "  ## WORKFLOW  &commands and more";
  "## Project   layout";
  "## context&tech  stack"
]%string.

Definition project_layout : Loader.pattern := nth 2 Loader.REQUIRED_SECTIONS [].
Definition coding_standards : Loader.pattern := nth 3 Loader.REQUIRED_SECTIONS [].

Definition metadata (tags : list JsValue) : JsValue :=
  JObj [ (lit "title", JStr (lit "React - GitHub Copilot Instructions"));
         (lit "category", JStr (lit "framework"));
         (lit "tags", JArr tags);
         (lit "difficulty", JStr (lit "intermediate")) ].

Definition template (name : string) (fm : JsValue) (content : str) : Types.Template :=
  {| Types.path := lit "templates/" ++ lit name ++ lit ".md";
     Types.filename := lit name ++ lit ".md";
     Types.id := lit name;
     Types.frontmatter := fm;
     Types.content := content;
     Types.hasValidStructure := Loader.hasValidStructure content |}.

Definition react : Types.Template :=
  template "react" (metadata [JStr (lit "frontend"); JStr (lit "react")]) five_headings.

Definition untagged : Types.Template :=
  template "untagged" (metadata []) five_headings.

Definition no_frontmatter : Types.Template :=
  template "plain" JUndefined five_headings.

Definition no_filters : Loader.Filters :=
  {| Loader.category := None; Loader.tag := None; Loader.difficulty := None |}.

Definition by_category (c : string) : Loader.Filters :=
  {| Loader.category := Some (lit c); Loader.tag := None; Loader.difficulty := None |}.

Definition by_category_and_tag (c g : string) : Loader.Filters :=
  {| Loader.category := Some (lit c); Loader.tag := Some (lit g);
     Loader.difficulty := None |}.

(** A file system in which [missing.md] does not exist, [notes.md] holds a
    line of text, and every other file holds the five headings and no
    metadata. *)
Inductive FsError : Type := ENOENT (path : str).

Definition readFile_five (p : str) : Node.Settled FsError str :=
  if str_eqb p (lit "missing.md") then Node.Rejected (ENOENT p)
  else if str_eqb p (lit "notes.md") then Node.Fulfilled (lit "Some notes.")
  else Node.Fulfilled five_headings.

Definition inspect_path (e : FsError) : str :=
  match e with ENOENT p => lit "ENOENT: " ++ p end.

(** A terminal without colours. *)
Definition no_style (s : str) : str := s.

Definition inspect_caught (e : ValidateCommand.Caught FsError) : str :=
  match e with
  | ValidateCommand.OfFs e => inspect_path e
  | ValidateCommand.OfJs TypeError => lit "TypeError"
  | ValidateCommand.OfJs YAMLException => lit "YAMLException"
  end.

(** A file whose metadata block holds a comment only, and a [yaml.load]
    that answers as js-yaml does for such a block. *)
Definition comment_only : str := doc [
  "---";
  "# metadata to be written";
  "---";
  "# Example - GitHub Copilot Instructions"
]%string.

Definition yaml_undefined (s : str) : result JsValue := Ok JUndefined.

Definition readFileSync_comment (p : str) : Node.Settled FsError str :=
  if str_eqb p (lit "templates/todo.md") then Node.Fulfilled comment_only
  else readFile_five p.

(** The validate command in that file system, where [glob] finds nothing. *)
Definition validate_with (yaml_load : str -> result JsValue) (files : list string)
    (strict : bool) : Node.Run :=
  ValidateCommand.validateCommand FsError (Node.Fulfilled [])
    readFileSync_comment yaml_load basename_posix
    no_style no_style no_style no_style no_style inspect_caught
    (map lit files) strict.

(** The same, with a js-yaml that rejects every block. *)
Definition validate (files : list string) (strict : bool) : Node.Run :=
  validate_with yaml_throws files strict.

Definition inspect_failure (e : ValidateYaml.Failure FsError) : str :=
  match e with
  | ValidateYaml.OfFs e => inspect_path e
  | ValidateYaml.OfJs TypeError => lit "TypeError"
  | ValidateYaml.OfJs YAMLException => lit "YAMLException"
  end.

(** The frontmatter-check script on the files [glob] finds. *)
Definition script (files : list string) : Node.Run :=
  ValidateYaml.main FsError (Node.Fulfilled (map lit files))
    readFileSync_comment yaml_undefined inspect_failure.

Definition contents_comment (p : str) : str :=
  if str_eqb p (lit "templates/todo.md") then comment_only else five_headings.

(** A [yaml.load] that reads every block as metadata whose category is a
    mapping with a key [toString]. *)
Definition yaml_odd_category (s : str) : result JsValue :=
  Ok (JObj [ (lit "title", JStr (lit "Odd"));
             (lit "category", JObj [(lit "toString", JNum 1)]) ]).


End Examples.

(* ------------------------------------------------------------------------ *)
(** ** Strings: equality, splitting and joining                              *)
(* ------------------------------------------------------------------------ *)

Section StringFacts.
Import JS.

Lemma char_eqb_eq (a b : char) : char_eqb a b = true <-> a = b.
Proof. unfold char_eqb. apply N.eqb_eq. Qed.

Lemma char_eqb_refl (a : char) : char_eqb a a = true.
Proof. apply char_eqb_eq. reflexivity. Qed.

Lemma str_eqb_eq (a b : str) : str_eqb a b = true <-> a = b.
Proof.
  revert b. induction a as [|x a IH]; intros [|y b]; simpl; split; intro H;
    try reflexivity; try discriminate.
  - apply andb_true_iff in H. destruct H as [H1 H2].
    apply char_eqb_eq in H1. apply IH in H2. congruence.
  - injection H as -> ->. rewrite char_eqb_refl. apply IH. reflexivity.
Qed.

Lemma str_eqb_refl (a : str) : str_eqb a a = true.
Proof. apply str_eqb_eq. reflexivity. Qed.

Lemma str_eqb_neq (a b : str) : str_eqb a b = false <-> a <> b.
Proof.
  split.
  - intros H E. apply str_eqb_eq in E. congruence.
  - intro H. destruct (str_eqb a b) eqn:E; [|reflexivity].
    apply str_eqb_eq in E. contradiction.
Qed.

Lemma split_not_nil (sep : char) (s : str) : split sep s <> [].
Proof.
  destruct s as [|c r]; simpl; [discriminate|].
  destruct (char_eqb c sep); [discriminate|].
  destruct (split sep r); discriminate.
Qed.

Lemma split_cons_other (sep c : char) (r : str) :
  char_eqb c sep = false ->
  exists l ls, split sep r = l :: ls /\ split sep (c :: r) = (c :: l) :: ls.
Proof.
  intro H. simpl. rewrite H.
  destruct (split sep r) as [|l ls] eqn:E.
  - exfalso. revert E. apply split_not_nil.
  - exists l, ls. split; reflexivity.
Qed.

(** No line of a split text holds the separator. *)
Lemma split_separator_free (sep : char) (s : str) :
  Forall (fun l => ~ In sep l) (split sep s).
Proof.
  induction s as [|c r IH].
  - simpl. constructor; [intros []|constructor].
  - destruct (char_eqb c sep) eqn:E.
    + simpl. rewrite E. constructor; [intros []|exact IH].
    + destruct (split_cons_other sep c r E) as (l & ls & Hr & Hc).
      rewrite Hc. rewrite Hr in IH. inversion IH as [|? ? Hl Hls]; subst.
      constructor; [|exact Hls].
      intros [Hin|Hin]; [|exact (Hl Hin)].
      subst c. rewrite char_eqb_refl in E. discriminate.
Qed.

(** Splitting a line that holds no separator gives the line. *)
Lemma split_line (sep : char) (l : str) : ~ In sep l -> split sep l = [l].
Proof.
  induction l as [|c r IH]; intro H; [reflexivity|].
  simpl. destruct (char_eqb c sep) eqn:E.
  - apply char_eqb_eq in E. subst c. exfalso. apply H. left. reflexivity.
  - rewrite IH; [reflexivity|]. intro Hin. apply H. right. exact Hin.
Qed.

(** Splitting at a separator: the lines before it, then the lines after. *)
Lemma split_app_sep (sep : char) (a b : str) :
  split sep (a ++ sep :: b) = split sep a ++ split sep b.
Proof.
  induction a as [|c r IH].
  - simpl. rewrite char_eqb_refl. reflexivity.
  - cbn [app]. destruct (char_eqb c sep) eqn:E.
    + simpl. rewrite E. cbn [app]. f_equal. exact IH.
    + destruct (split_cons_other sep c r E) as (l & ls & Hr & Hc).
      rewrite Hc.
      destruct (split_cons_other sep c (r ++ sep :: b) E) as (l' & ls' & Hr' & Hc').
      rewrite Hc'. rewrite IH, Hr in Hr'. cbn [app] in Hr'.
      injection Hr' as <- <-. reflexivity.
Qed.

(** A text made of separator-free lines splits back into them. *)
Lemma split_join (sep : char) (ls : list str) :
  ls <> [] -> Forall (fun l => ~ In sep l) ls ->
  split sep (join [sep] ls) = ls.
Proof.
  induction ls as [|l ls IH]; intros Hne Hfree; [contradiction|].
  inversion Hfree as [|? ? Hl Hls]; subst.
  destruct ls as [|l' ls'].
  - simpl. apply split_line. exact Hl.
  - change (join [sep] (l :: l' :: ls')) with (l ++ sep :: join [sep] (l' :: ls')).
    rewrite split_app_sep, split_line by exact Hl.
    rewrite IH; [reflexivity|discriminate|exact Hls].
Qed.

Lemma lines_unlines (ls : list str) :
  ls <> [] -> Forall (fun l => ~ In LF l) ls ->
  Spec.lines (Spec.unlines ls) = ls.
Proof. apply split_join. Qed.

End StringFacts.

(* ------------------------------------------------------------------------ *)
(** ** The structure check as a search over the lines                        *)
(* ------------------------------------------------------------------------ *)

Section StructureCheck.
Import JS.

Lemma set_index_app (pre cur : list bool) (b : bool) :
  Loader.set_index (List.length pre) (pre ++ b :: cur) = pre ++ true :: cur.
Proof.
  induction pre as [|x pre IH]; simpl; [reflexivity|]. rewrite IH. reflexivity.
Qed.

(** One pass of [forEach] ors each flag with the test of its pattern. *)
Lemma forEach_pattern_spec (line : str) (ps : list Loader.pattern) :
  forall (pre cur : list bool),
    List.length cur = List.length ps ->
    Loader.forEach_pattern ps (List.length pre) line (pre ++ cur)
    = pre ++ map (fun pb => Spec.is_heading (fst pb) line || snd pb) (combine ps cur).
Proof.
  induction ps as [|p ps IH]; intros pre cur Hlen.
  - destruct cur; [|discriminate]. reflexivity.
  - destruct cur as [|b cur]; [discriminate|].
    injection Hlen as Hlen.
    cbn [Loader.forEach_pattern combine map fst snd].
    unfold Spec.is_heading at 1.
    destruct (Loader.test p (trim line)).
    + rewrite set_index_app.
      replace (pre ++ true :: cur) with ((pre ++ [true]) ++ cur)
        by (rewrite <- app_assoc; reflexivity).
      replace (S (List.length pre)) with (List.length (pre ++ [true]))
        by (rewrite length_app; simpl; lia).
      rewrite IH by exact Hlen. rewrite <- app_assoc. reflexivity.
    + replace (pre ++ b :: cur) with ((pre ++ [b]) ++ cur)
        by (rewrite <- app_assoc; reflexivity).
      replace (S (List.length pre)) with (List.length (pre ++ [b]))
        by (rewrite length_app; simpl; lia).
      rewrite IH by exact Hlen. rewrite <- app_assoc. reflexivity.
Qed.

Lemma combine_map_combine (A B C : Type) (g : A * B -> B) (h : A * B -> C) (ps : list A) :
  forall cur : list B,
    map h (combine ps (map g (combine ps cur)))
    = map (fun pb => h (fst pb, g pb)) (combine ps cur).
Proof.
  induction ps as [|p ps IH]; intros [|b cur]; simpl; try reflexivity.
  rewrite IH. reflexivity.
Qed.

Lemma fold_forEach_spec (ps : list Loader.pattern) (ls : list str) :
  forall cur : list bool,
    List.length cur = List.length ps ->
    fold_left (fun found line => Loader.forEach_pattern ps 0 line found) ls cur
    = map (fun pb => existsb (Spec.is_heading (fst pb)) ls || snd pb) (combine ps cur).
Proof.
  induction ls as [|l ls IH]; intros cur Hlen.
  - simpl. revert cur Hlen. induction ps as [|p ps IHp]; intros [|b cur] Hlen;
      try discriminate; [reflexivity|].
    injection Hlen as Hlen. simpl. f_equal. apply IHp. exact Hlen.
  - cbn [fold_left].
    pose proof (forEach_pattern_spec l ps [] cur Hlen) as Hstep.
    cbn [app List.length] in Hstep. rewrite Hstep.
    rewrite IH.
    + rewrite combine_map_combine. apply map_ext. intros [p b].
      cbn [fst snd existsb]. rewrite orb_assoc.
      f_equal. apply orb_comm.
    + rewrite length_map, length_combine. lia.
Qed.

(** Each flag says whether some line is a variant of its heading. *)
Lemma foundSections_spec (ps : list Loader.pattern) (content : str) :
  Loader.foundSections ps content
  = map (fun p => existsb (Spec.is_heading p) (Spec.lines content)) ps.
Proof.
  unfold Loader.foundSections.
  rewrite fold_forEach_spec by apply length_map.
  unfold Spec.lines. generalize (split LF content). intro ls.
  induction ps as [|p ps IH]; simpl; [reflexivity|].
  rewrite orb_false_r. f_equal. exact IH.
Qed.

Lemma hasValidStructure_spec (content : str) :
  Loader.hasValidStructure content
  = forallb (fun p => existsb (Spec.is_heading p) (Spec.lines content))
            Loader.REQUIRED_SECTIONS.
Proof.
  unfold Loader.hasValidStructure. rewrite foundSections_spec.
  generalize Loader.REQUIRED_SECTIONS. intro ps.
  induction ps as [|p ps IH]; simpl; [reflexivity|]. rewrite IH. reflexivity.
Qed.

Lemma existsb_Permutation (A : Type) (f : A -> bool) (l l' : list A) :
  Permutation l l' -> existsb f l = existsb f l'.
Proof.
  induction 1; simpl.
  - reflexivity.
  - rewrite IHPermutation. reflexivity.
  - destruct (f x), (f y); reflexivity.
  - congruence.
Qed.

Lemma forallb_pointwise (A : Type) (f g : A -> bool) (l : list A) :
  (forall x, f x = g x) -> forallb f l = forallb g l.
Proof.
  intro H. induction l as [|x l IH]; simpl; [reflexivity|].
  rewrite H, IH. reflexivity.
Qed.

Lemma lines_not_nil (content : str) : Spec.lines content <> [].
Proof. apply split_not_nil. Qed.

Lemma lines_LF_free (content : str) :
  Forall (fun l => ~ In LF l) (Spec.lines content).
Proof. apply split_separator_free. Qed.

End StructureCheck.

(** C9.  The structure check is insensitive to line order and duplication:
    the document made of any permutation of a document's lines gets the same
    result, and so does the document in which any one line (a required
    heading or not) is written twice; in particular a result of found never
    becomes not found. *)
Theorem hasValidStructure_order_and_duplication (content : JS.str) :
  (forall ls' : list JS.str,
      Permutation (Spec.lines content) ls' ->
      Spec.lines (Spec.unlines ls') = ls'
      /\ Loader.hasValidStructure (Spec.unlines ls') = Loader.hasValidStructure content)
  /\ (forall (before after : list JS.str) (line : JS.str),
         Spec.lines content = before ++ line :: after ->
         Spec.lines (Spec.unlines (before ++ line :: line :: after))
         = before ++ line :: line :: after
         /\ Loader.hasValidStructure (Spec.unlines (before ++ line :: line :: after))
            = Loader.hasValidStructure content
         /\ (Loader.hasValidStructure content = true ->
             Loader.hasValidStructure (Spec.unlines (before ++ line :: line :: after))
             = true)).
Proof.
  split.
  - intros ls' Hperm.
    assert (Hl : Spec.lines (Spec.unlines ls') = ls').
    { apply lines_unlines.
      - intro E. subst ls'. apply Permutation_sym, Permutation_nil in Hperm.
        exact (lines_not_nil content Hperm).
      - eapply Permutation_Forall; [exact Hperm|apply lines_LF_free]. }
    split; [exact Hl|].
    rewrite !hasValidStructure_spec, Hl.
    apply forallb_pointwise. intros p.
    apply existsb_Permutation, Permutation_sym, Hperm.
  - intros before after line Hsplit.
    assert (Hl : Spec.lines (Spec.unlines (before ++ line :: line :: after))
                 = before ++ line :: line :: after).
    { apply lines_unlines.
      - destruct before; discriminate.
      - pose proof (lines_LF_free content) as Hfree. rewrite Hsplit in Hfree.
        apply Forall_app in Hfree. destruct Hfree as [Hb Ha].
        apply Forall_app. split; [exact Hb|].
        inversion Ha; subst. constructor; assumption. }
    assert (He : Loader.hasValidStructure (Spec.unlines (before ++ line :: line :: after))
                 = Loader.hasValidStructure content).
    { rewrite !hasValidStructure_spec, Hl, Hsplit.
      apply forallb_pointwise. intros p.
      rewrite !existsb_app. cbn [existsb].
      destruct (Spec.is_heading p line); reflexivity. }
    split; [exact Hl|]. split; [exact He|]. intro H. rewrite He. exact H.
Qed.

(* ------------------------------------------------------------------------ *)
(** ** The heading expressions: what [test] accepts                          *)
(* ------------------------------------------------------------------------ *)

Section HeadingExpressions.
Import JS.

Ltac space_cases :=
  unfold is_space;
  repeat match goal with
         | |- context [N.eqb ?a ?b] => destruct (N.eqb_spec a b); [lia|]
         | |- context [N.leb ?a ?b] => destruct (N.leb_spec0 a b); try lia
         end; reflexivity.

Lemma letters_are_not_spaces (c : char) :
  (65 <= c <= 122)%N -> is_space c = false.
Proof. intro H. space_cases. Qed.

Lemma ci_eqb_space (x y : char) :
  ci_eqb x y = true -> is_space x = false -> is_space y = false.
Proof.
  unfold ci_eqb, canonicalize. intros H Hx. apply char_eqb_eq in H.
  destruct (N.leb_spec0 97 y); destruct (N.leb_spec0 y 122); simpl in H;
    try (apply letters_are_not_spaces; lia);
    destruct (N.leb_spec0 97 x); destruct (N.leb_spec0 x 122); simpl in H;
    try (subst y; exact Hx); apply letters_are_not_spaces; lia.
Qed.

Lemma ci_eqb_trans_l (a b c : char) :
  ci_eqb a c = true -> ci_eqb b c = true -> ci_eqb a b = true.
Proof.
  unfold ci_eqb. intros H1 H2. apply char_eqb_eq in H1, H2.
  apply char_eqb_eq. congruence.
Qed.

Lemma eat_complete (w x s : str) :
  Forall2 (fun a b => ci_eqb a b = true) w x -> Loader.eat w (x ++ s) = Some s.
Proof.
  induction 1 as [|a b w x Hab _ IH]; simpl; [destruct s; reflexivity|].
  rewrite Hab. exact IH.
Qed.

Lemma eat_sound (w : str) :
  forall s r, Loader.eat w s = Some r ->
              exists x, s = x ++ r /\ Forall2 (fun a b => ci_eqb a b = true) w x.
Proof.
  induction w as [|a w IH]; intros s r H.
  - exists []. destruct s; simpl in H; injection H as <-; split; constructor.
  - destruct s as [|b s]; simpl in H; [discriminate|].
    destruct (ci_eqb a b) eqn:E; [|discriminate].
    destruct (IH s r H) as (x & -> & Hx).
    exists (b :: x). split; [reflexivity|]. constructor; assumption.
Qed.

Lemma eat_cons_inv (a : char) (w s r : str) :
  Loader.eat (a :: w) s = Some r ->
  exists b s', s = b :: s' /\ ci_eqb a b = true /\ Loader.eat w s' = Some r.
Proof.
  destruct s as [|b s']; simpl; [discriminate|].
  destruct (ci_eqb a b) eqn:E; [|discriminate].
  intro H. exists b, s'. repeat split; assumption.
Qed.

Lemma spaces_complete (k : str -> bool) (ws r : str) :
  Spec.all_spaces ws -> k r = true -> Loader.spaces k (ws ++ r) = true.
Proof.
  intros Hws Hk. induction Hws as [|c ws Hc _ IH]; cbn [app].
  - destruct r; simpl; rewrite Hk; [reflexivity|apply orb_true_r].
  - simpl. rewrite Hc, IH. reflexivity.
Qed.

Lemma spaces_sound (k : str -> bool) :
  forall s, Loader.spaces k s = true ->
            exists ws r, s = ws ++ r /\ Spec.all_spaces ws /\ k r = true.
Proof.
  induction s as [|c s IH]; simpl; intro H.
  - exists [], []. repeat split; [constructor|exact H].
  - apply orb_true_iff in H. destruct H as [H|H].
    + apply andb_true_iff in H. destruct H as [Hc Hs].
      destruct (IH Hs) as (ws & r & -> & Hws & Hk).
      exists (c :: ws), r. repeat split; [constructor; assumption|exact Hk].
    + exists [], (c :: s). repeat split; [constructor|exact H].
Qed.

(** [test] accepts every text that starts with a spelling of the pattern. *)
Lemma test_complete (p : Loader.pattern) (body : str) :
  Spec.spells p body -> forall rest, Loader.test p (body ++ rest) = true.
Proof.
  induction 1 as [|w p x s Hx _ IH|p c ws s Hc Hws _ IH|p ws s Hws _ IH]; intro rest.
  - reflexivity.
  - cbn [Loader.test]. rewrite <- app_assoc, (eat_complete _ _ _ Hx). apply IH.
  - cbn [Loader.test app]. rewrite Hc. cbn [andb].
    rewrite <- app_assoc. apply spaces_complete; [exact Hws|apply IH].
  - cbn [Loader.test]. rewrite <- app_assoc.
    apply spaces_complete; [exact Hws|apply IH].
Qed.

(** [test] accepts only such texts. *)
Lemma test_sound (p : Loader.pattern) :
  forall s, Loader.test p s = true ->
            exists body rest, s = body ++ rest /\ Spec.spells p body.
Proof.
  induction p as [|a p IH]; intros s H.
  - exists [], s. split; [reflexivity|constructor].
  - destruct a as [w| |]; cbn [Loader.test] in H.
    + destruct (Loader.eat (lit w) s) as [r|] eqn:E; [|discriminate].
      destruct (eat_sound _ _ _ E) as (x & -> & Hx).
      destruct (IH r H) as (body & rest & -> & Hb).
      exists (x ++ body), rest. split; [apply app_assoc|].
      constructor; assumption.
    + destruct s as [|c r]; [discriminate|].
      apply andb_true_iff in H. destruct H as [Hc H].
      destruct (spaces_sound _ _ H) as (ws & r' & -> & Hws & Hk).
      destruct (IH r' Hk) as (body & rest & -> & Hb).
      exists (c :: ws ++ body), rest. split.
      * cbn [app]. rewrite <- app_assoc. reflexivity.
      * constructor; assumption.
    + destruct (spaces_sound _ _ H) as (ws & r' & -> & Hws & Hk).
      destruct (IH r' Hk) as (body & rest & -> & Hb).
      exists (ws ++ body), rest. split; [apply app_assoc|].
      constructor; assumption.
Qed.

(** The decided notion of heading line is the declared one. *)
Lemma is_heading_iff (p : Loader.pattern) (line : str) :
  Spec.is_heading p line = true <-> Spec.heading_variant p line.
Proof.
  unfold Spec.is_heading, Spec.heading_variant. split.
  - apply test_sound.
  - intros (body & rest & -> & Hb). apply test_complete. exact Hb.
Qed.

Lemma dropWhile_spaces_app (ws r : str) :
  Spec.all_spaces ws ->
  match r with [] => True | c :: _ => is_space c = false end ->
  dropWhile is_space (ws ++ r) = r.
Proof.
  intros Hws Hr. induction Hws as [|c ws Hc _ IH]; cbn [app].
  - destruct r as [|c r]; [reflexivity|]. simpl. rewrite Hr. reflexivity.
  - simpl. rewrite Hc. exact IH.
Qed.

(** A text accepted by a heading expression has, after the marker and the
    white space, the first word of the heading. *)
Lemma test_first_word (a : char) (w : str) (word : string) (q : Loader.pattern) (s : str) :
  lit word = a :: w -> is_space a = false ->
  Loader.test (Loader.Lit "##" :: Loader.Spaces1 :: Loader.Lit word :: q) s = true ->
  exists r, Loader.eat (a :: w) (dropWhile is_space (skipn 2 s)) = Some r.
Proof.
  intros Hword Ha H. cbn [Loader.test] in H.
  destruct (Loader.eat (lit "##") s) as [s1|] eqn:E; [|discriminate].
  change (lit "##") with [35%N; 35%N] in E.
  destruct (eat_cons_inv _ _ _ _ E) as (b1 & s' & -> & _ & E').
  destruct (eat_cons_inv _ _ _ _ E') as (b2 & s'' & -> & _ & E'').
  simpl in E''. assert (s'' = s1) by (destruct s''; congruence). subst s''.
  cbn [skipn].
  destruct s1 as [|c r0]; [discriminate|].
  apply andb_true_iff in H. destruct H as [Hc H].
  destruct (spaces_sound _ _ H) as (ws & r1 & -> & Hws & Hk).
  destruct (Loader.eat (lit word) r1) as [r2|] eqn:E1; [|discriminate].
  rewrite Hword in E1. exists r2.
  change (c :: ws ++ r1) with ((c :: ws) ++ r1).
  rewrite dropWhile_spaces_app; [exact E1|constructor; assumption|].
  destruct (eat_cons_inv _ _ _ _ E1) as (b & t & -> & Hab & _).
  apply (ci_eqb_space _ _ Hab Ha).
Qed.

Lemma eat_disagree (a1 a2 : char) (w1 w2 t r1 r2 : str) :
  ci_eqb a1 a2 = false ->
  Loader.eat (a1 :: w1) t = Some r1 -> Loader.eat (a2 :: w2) t = Some r2 -> False.
Proof.
  intros Hne H1 H2.
  destruct (eat_cons_inv _ _ _ _ H1) as (b & t' & -> & Hb1 & _).
  destruct (eat_cons_inv _ _ _ _ H2) as (b' & t'' & E & Hb2 & _).
  injection E as <- <-.
  rewrite (ci_eqb_trans_l _ _ _ Hb1 Hb2) in Hne. discriminate.
Qed.

Lemma eat_agree (a1 a2 : char) (w1 w2 t r1 r2 : str) :
  Loader.eat (a1 :: w1) t = Some r1 -> Loader.eat (a2 :: w2) t = Some r2 ->
  exists t', Loader.eat w1 t' = Some r1 /\ Loader.eat w2 t' = Some r2.
Proof.
  intros H1 H2.
  destruct (eat_cons_inv _ _ _ _ H1) as (b & t' & -> & _ & E1).
  destruct (eat_cons_inv _ _ _ _ H2) as (b' & t'' & E & _ & E2).
  injection E as <- <-. exists t'. split; assumption.
Qed.

Ltac words_differ H1 H2 :=
  first
    [ solve [ eapply eat_disagree; [ | exact H1 | exact H2 ]; reflexivity ]
    | let t := fresh "t" in
      let G1 := fresh "G" in
      let G2 := fresh "G" in
      destruct (eat_agree _ _ _ _ _ _ _ H1 H2) as (t & G1 & G2);
      words_differ G1 G2 ].

Lemma required_cases (i : nat) (p : Loader.pattern) :
  nth_error Loader.REQUIRED_SECTIONS i = Some p ->
  (i = 0 /\ p = nth 0 Loader.REQUIRED_SECTIONS [])
  \/ (i = 1 /\ p = nth 1 Loader.REQUIRED_SECTIONS [])
  \/ (i = 2 /\ p = nth 2 Loader.REQUIRED_SECTIONS [])
  \/ (i = 3 /\ p = nth 3 Loader.REQUIRED_SECTIONS [])
  \/ (i = 4 /\ p = nth 4 Loader.REQUIRED_SECTIONS []).
Proof.
  destruct i as [|[|[|[|[|i]]]]]; simpl; intro H;
    try (injection H as <-; auto 10).
  destruct i; discriminate.
Qed.

(** No text is accepted by two of the five heading expressions. *)
Lemma headings_disjoint (i j : nat) (p q : Loader.pattern) (s : str) :
  nth_error Loader.REQUIRED_SECTIONS i = Some p ->
  nth_error Loader.REQUIRED_SECTIONS j = Some q ->
  i <> j ->
  Loader.test p s = true -> Loader.test q s = false.
Proof.
  intros Hi Hj Hne Hp.
  destruct (Loader.test q s) eqn:Hq; [exfalso|reflexivity].
  apply required_cases in Hi, Hj.
  repeat match goal with H : _ \/ _ |- _ => destruct H as [H|H] end;
    destruct Hi as [-> ->]; destruct Hj as [-> ->];
    try (apply Hne; reflexivity);
    cbv [nth Loader.REQUIRED_SECTIONS] in Hp, Hq;
    match type of Hp with
    | Loader.test (_ :: _ :: Loader.Lit ?w1 :: _) _ = true =>
        let v1 := eval vm_compute in (lit w1) in
        match v1 with
        | ?a1 :: ?r1 =>
            destruct (test_first_word a1 r1 w1 _ s eq_refl eq_refl Hp) as (x1 & H1)
        end
    end;
    match type of Hq with
    | Loader.test (_ :: _ :: Loader.Lit ?w2 :: _) _ = true =>
        let v2 := eval vm_compute in (lit w2) in
        match v2 with
        | ?a2 :: ?r2 =>
            destruct (test_first_word a2 r2 w2 _ s eq_refl eq_refl Hq) as (x2 & H2)
        end
    end;
    words_differ H1 H2.
Qed.

End HeadingExpressions.

(* ------------------------------------------------------------------------ *)
(** ** Removing a heading                                                    *)
(* ------------------------------------------------------------------------ *)

Section RemovingAHeading.
Import JS.

Lemma existsb_filter_self (A : Type) (f : A -> bool) (l : list A) :
  existsb f (filter (fun x => negb (f x)) l) = false.
Proof.
  induction l as [|x l IH]; simpl; [reflexivity|].
  destruct (f x) eqn:E; simpl; [exact IH|]. rewrite E, IH. reflexivity.
Qed.

Lemma existsb_filter_other (A : Type) (f g : A -> bool) (l : list A) :
  (forall x, g x = true -> f x = false) ->
  existsb g (filter (fun x => negb (f x)) l) = existsb g l.
Proof.
  intro H. induction l as [|x l IH]; simpl; [reflexivity|].
  destruct (f x) eqn:E; simpl.
  - destruct (g x) eqn:G; [|exact IH]. rewrite (H x G) in E. discriminate.
  - rewrite IH. reflexivity.
Qed.

Lemma all_found (content : str) :
  (forall p, In p Loader.REQUIRED_SECTIONS ->
             exists line, In line (Spec.lines content) /\ Spec.heading_variant p line) ->
  forall p, In p Loader.REQUIRED_SECTIONS ->
            existsb (Spec.is_heading p) (Spec.lines content) = true.
Proof.
  intros H p Hp. destruct (H p Hp) as (line & Hin & Hv).
  apply existsb_exists. exists line. split; [exact Hin|].
  apply is_heading_iff. exact Hv.
Qed.

(** The lines of the document without the heading [p] are the other lines. *)
Lemma lines_remove_heading (content : str) (i : nat) (p : Loader.pattern) :
  (forall q, In q Loader.REQUIRED_SECTIONS ->
             existsb (Spec.is_heading q) (Spec.lines content) = true) ->
  nth_error Loader.REQUIRED_SECTIONS i = Some p ->
  Spec.lines (Spec.remove_heading p content)
  = filter (fun line => negb (Spec.is_heading p line)) (Spec.lines content).
Proof.
  intros Hall Hi. unfold Spec.remove_heading. apply lines_unlines.
  - (* some other heading survives *)
    set (j := match i with 0 => 1 | _ => 0 end).
    assert (Hne : j <> i) by (subst j; destruct i; discriminate).
    destruct (nth_error Loader.REQUIRED_SECTIONS j) as [q|] eqn:Hj;
      [|subst j; destruct i; discriminate].
    assert (Hq : existsb (Spec.is_heading q) (Spec.lines content) = true).
    { apply Hall. eapply nth_error_In. exact Hj. }
    apply existsb_exists in Hq. destruct Hq as (line & Hin & Hline).
    intro E.
    assert (Hin' : In line (filter (fun l => negb (Spec.is_heading p l)) (Spec.lines content))).
    { apply filter_In. split; [exact Hin|].
      unfold Spec.is_heading in *.
      rewrite (headings_disjoint j i q p (trim line) Hj Hi Hne Hline). reflexivity. }
    rewrite E in Hin'. exact Hin'.
  - apply Forall_forall. intros l Hl. apply filter_In in Hl. destruct Hl as [Hl _].
    revert l Hl. apply Forall_forall. apply lines_LF_free.
Qed.

(** After the removal only the flag of the removed heading is down. *)
Lemma found_after_removal (content : str) (i : nat) (p : Loader.pattern) :
  (forall q, In q Loader.REQUIRED_SECTIONS ->
             existsb (Spec.is_heading q) (Spec.lines content) = true) ->
  nth_error Loader.REQUIRED_SECTIONS i = Some p ->
  Loader.foundSections Loader.REQUIRED_SECTIONS (Spec.remove_heading p content)
  = map (fun j => negb (Nat.eqb j i)) [0; 1; 2; 3; 4].
Proof.
  intros Hall Hi.
  rewrite foundSections_spec, (lines_remove_heading content i p Hall Hi).
  assert (Hat : forall j q, nth_error Loader.REQUIRED_SECTIONS j = Some q ->
                existsb (Spec.is_heading q)
                  (filter (fun line => negb (Spec.is_heading p line)) (Spec.lines content))
                = negb (Nat.eqb j i)).
  { intros j q Hj. destruct (Nat.eqb_spec j i) as [->|Hne].
    - rewrite Hi in Hj. injection Hj as <-. apply existsb_filter_self.
    - rewrite existsb_filter_other.
      + apply Hall. eapply nth_error_In. exact Hj.
      + intros line Hline. exact (headings_disjoint j i q p (trim line) Hj Hi Hne Hline). }
  change Loader.REQUIRED_SECTIONS with
    [nth 0 Loader.REQUIRED_SECTIONS []; nth 1 Loader.REQUIRED_SECTIONS [];
     nth 2 Loader.REQUIRED_SECTIONS []; nth 3 Loader.REQUIRED_SECTIONS [];
     nth 4 Loader.REQUIRED_SECTIONS []] at 1.
  cbn [map].
  rewrite (Hat 0 (nth 0 Loader.REQUIRED_SECTIONS []) eq_refl),
          (Hat 1 (nth 1 Loader.REQUIRED_SECTIONS []) eq_refl),
          (Hat 2 (nth 2 Loader.REQUIRED_SECTIONS []) eq_refl),
          (Hat 3 (nth 3 Loader.REQUIRED_SECTIONS []) eq_refl),
          (Hat 4 (nth 4 Loader.REQUIRED_SECTIONS []) eq_refl).
  reflexivity.
Qed.

End RemovingAHeading.

(** C3 (as amended).  A document holding, in any order, a case/spacing
    variant of each of the five required headings passes the structure check
    of the loader and of the section-check script.  Removing the lines of any
    one heading makes both checks fail; the script then reports exactly that
    heading as missing, while [validateStructure] reports the generic error
    and the warning that lists all five sections, whichever heading is
    missing. *)
Theorem structure_check_headings (content : JS.str) :
  (forall p, In p Loader.REQUIRED_SECTIONS ->
             exists line, In line (Spec.lines content) /\ Spec.heading_variant p line) ->
  Loader.hasValidStructure content = true
  /\ CheckSections.validateTemplate content
     = {| CheckSections.valid := true; CheckSections.missingSections := [] |}
  /\ forall (i : nat) (p : Loader.pattern),
       nth_error Loader.REQUIRED_SECTIONS i = Some p ->
       Spec.lines (Spec.remove_heading p content)
       = filter (fun line => negb (Spec.is_heading p line)) (Spec.lines content)
       /\ Loader.hasValidStructure (Spec.remove_heading p content) = false
       /\ CheckSections.validateTemplate (Spec.remove_heading p content)
          = {| CheckSections.valid := false;
               CheckSections.missingSections :=
                 [JS.lit (nth i CheckSections.REQUIRED_SECTIONS EmptyString)] |}
       /\ forall (yaml_load : JS.str -> JS.result JS.JsValue)
                 (basename : JS.str -> JS.str) (filePath : JS.str),
            Validator.validateStructure
              (Loader.loadTemplate yaml_load basename filePath
                                   (Spec.remove_heading p content))
            = {| Types.valid := false;
                 Types.errors := [JS.lit "Missing one or more required sections"];
                 Types.warnings := [JS.lit "Required sections: Role/Identity, Context & Tech Stack, Project Layout, Coding Standards, Workflow & Commands"] |}.
Proof.
  intro Hvar. pose proof (all_found content Hvar) as Hall.
  assert (Hflags : Loader.foundSections Loader.REQUIRED_SECTIONS content
                   = [true; true; true; true; true]).
  { rewrite foundSections_spec.
    change Loader.REQUIRED_SECTIONS with
      [nth 0 Loader.REQUIRED_SECTIONS []; nth 1 Loader.REQUIRED_SECTIONS [];
       nth 2 Loader.REQUIRED_SECTIONS []; nth 3 Loader.REQUIRED_SECTIONS [];
       nth 4 Loader.REQUIRED_SECTIONS []] at 1.
    cbn [map].
    rewrite !Hall by (apply nth_In; simpl; lia). reflexivity. }
  split; [|split].
  - unfold Loader.hasValidStructure. rewrite Hflags. reflexivity.
  - unfold CheckSections.validateTemplate.
    change CheckSections.SECTION_PATTERNS with Loader.REQUIRED_SECTIONS.
    rewrite Hflags. reflexivity.
  - intros i p Hi.
    pose proof (found_after_removal content i p Hall Hi) as Hrem.
    assert (Hvalid : Loader.hasValidStructure (Spec.remove_heading p content) = false).
    { unfold Loader.hasValidStructure. rewrite Hrem.
      destruct i as [|[|[|[|[|i]]]]]; try reflexivity.
      destruct i; discriminate. }
    split; [exact (lines_remove_heading content i p Hall Hi)|].
    split; [exact Hvalid|]. split.
    + unfold CheckSections.validateTemplate.
      change CheckSections.SECTION_PATTERNS with Loader.REQUIRED_SECTIONS.
      rewrite Hrem.
      destruct i as [|[|[|[|[|i]]]]]; try reflexivity.
      destruct i; discriminate.
    + intros yaml_load basename filePath.
      unfold Validator.validateStructure, Loader.loadTemplate.
      cbn [Types.hasValidStructure]. rewrite Hvalid. reflexivity.
Qed.

(** C3, at a document whose five headings are written in another order, in
    other letter cases and with other spacing. *)
Lemma structure_check_headings_witness :
  Loader.hasValidStructure Examples.five_headings_variants = true
  /\ CheckSections.missingSections
       (CheckSections.validateTemplate
          (Spec.remove_heading Examples.project_layout Examples.five_headings_variants))
     = [JS.lit "## Project Layout"].
Proof.
  assert (H : forall p, In p Loader.REQUIRED_SECTIONS ->
                exists line, In line (Spec.lines Examples.five_headings_variants)
                             /\ Spec.heading_variant p line).
  { intros p Hp.
    assert (Hex : existsb (Spec.is_heading p) (Spec.lines Examples.five_headings_variants)
                  = true).
    { repeat (destruct Hp as [<-|Hp]; [vm_compute; reflexivity|]). destruct Hp. }
    apply existsb_exists in Hex. destruct Hex as (line & Hin & Hl).
    exists line. split; [exact Hin|]. apply is_heading_iff. exact Hl. }
  destruct (structure_check_headings Examples.five_headings_variants H) as (Hv & _ & Hrem).
  split; [exact Hv|].
  destruct (Hrem 2 Examples.project_layout eq_refl) as (_ & _ & Hmissing & _).
  rewrite Hmissing. reflexivity.
Defined.

(** C3, counterexample to the unamended statement: for a document without
    its Project Layout heading and for one without its Coding Standards
    heading the script names the missing heading, but [validateStructure]
    (and [validateTemplate] of the validator) returns the same output for
    both, so that output does not name the heading. *)
Lemma validateStructure_does_not_name_the_heading :
  let without_layout :=
    Loader.loadTemplate Examples.yaml_throws Examples.basename_posix
      (JS.lit "templates/example.md")
      (Spec.remove_heading Examples.project_layout Examples.five_headings) in
  let without_standards :=
    Loader.loadTemplate Examples.yaml_throws Examples.basename_posix
      (JS.lit "templates/example.md")
      (Spec.remove_heading Examples.coding_standards Examples.five_headings) in
  CheckSections.missingSections (CheckSections.validateTemplate (Types.content without_layout))
  = [JS.lit "## Project Layout"]
  /\ CheckSections.missingSections
       (CheckSections.validateTemplate (Types.content without_standards))
     = [JS.lit "## Coding Standards"]
  /\ Validator.validateStructure without_layout
     = Validator.validateStructure without_standards
  /\ Validator.validateTemplate without_layout false
     = Validator.validateTemplate without_standards false
  /\ Types.errors (Validator.validateTemplate without_layout false)
     = [JS.lit "Missing one or more required sections"].
Proof. vm_compute. repeat split; reflexivity. Qed.

(* ------------------------------------------------------------------------ *)
(** ** Frontmatter extraction                                                *)
(* ------------------------------------------------------------------------ *)

Section Extraction.
Import JS.

Lemma after_spaces_newline_sound (s r : str) :
  In r (Loader.after_spaces_newline s) ->
  exists ws, s = ws ++ LF :: r /\ Spec.all_spaces ws.
Proof.
  revert r. induction s as [|c s IH]; intros r H; [destruct H|].
  simpl in H. apply in_app_or in H. destruct H as [H|H].
  - destruct (is_space c) eqn:Hc; [|destruct H].
    destruct (IH r H) as (ws & -> & Hws).
    exists (c :: ws). split; [reflexivity|constructor; assumption].
  - destruct (char_eqb c LF) eqn:E; [|destruct H].
    destruct H as [<-|[]]. apply char_eqb_eq in E. subst c.
    exists []. split; [reflexivity|constructor].
Qed.

Lemma after_spaces_newline_complete (ws r : str) :
  Spec.all_spaces ws -> In r (Loader.after_spaces_newline (ws ++ LF :: r)).
Proof.
  induction 1 as [|c ws Hc _ IH]; cbn [app].
  - cbn [Loader.after_spaces_newline]. apply in_or_app. right.
    rewrite char_eqb_refl. left. reflexivity.
  - cbn [Loader.after_spaces_newline]. rewrite Hc. apply in_or_app. left. exact IH.
Qed.

Lemma closing_here_sound (s : str) :
  Loader.closing_here s = true ->
  exists ws rest, s = [LF] ++ lit "---" ++ ws ++ [LF] ++ rest /\ Spec.all_spaces ws.
Proof.
  destruct s as [|c0 [|c1 [|c2 [|c3 r]]]]; try discriminate.
  unfold Loader.closing_here. intro H.
  repeat (apply andb_true_iff in H; destruct H as [H ?]).
  repeat match goal with E : char_eqb _ _ = true |- _ => apply char_eqb_eq in E end.
  subst.
  destruct (Loader.after_spaces_newline r) as [|x xs] eqn:E; [discriminate|].
  destruct (after_spaces_newline_sound r x) as (ws & -> & Hws).
  { rewrite E. left. reflexivity. }
  exists ws, x. split; [reflexivity|exact Hws].
Qed.

Lemma closing_here_complete (ws rest : str) :
  Spec.all_spaces ws ->
  Loader.closing_here ([LF] ++ lit "---" ++ ws ++ [LF] ++ rest) = true.
Proof.
  intro Hws. change (lit "---") with [DASH; DASH; DASH]. cbn [app].
  unfold Loader.closing_here. rewrite !char_eqb_refl. cbn [andb].
  pose proof (after_spaces_newline_complete ws rest Hws) as Hin.
  destruct (Loader.after_spaces_newline (ws ++ LF :: rest)); [destruct Hin|reflexivity].
Qed.

Lemma lazy_body_sound (s : str) :
  forall body, Loader.lazy_body s = Some body ->
               exists tail, s = body ++ tail /\ Loader.closing_here tail = true.
Proof.
  induction s as [|c s IH]; intros body H.
  - simpl in H. discriminate.
  - cbn [Loader.lazy_body] in H.
    destruct (Loader.closing_here (c :: s)) eqn:E.
    + injection H as <-. exists (c :: s). split; [reflexivity|exact E].
    + destruct (Loader.lazy_body s) as [b|] eqn:Eb; [|discriminate].
      injection H as <-. destruct (IH b eq_refl) as (tail & -> & Ht).
      exists tail. split; [reflexivity|exact Ht].
Qed.

Lemma lazy_body_complete (body tail : str) :
  Loader.closing_here tail = true -> Loader.lazy_body (body ++ tail) <> None.
Proof.
  intro Ht. induction body as [|c body IH]; cbn [app].
  - destruct tail as [|c t]; [discriminate Ht|].
    cbn [Loader.lazy_body]. rewrite Ht. discriminate.
  - cbn [Loader.lazy_body].
    destruct (Loader.closing_here (c :: body ++ tail)); [discriminate|].
    destruct (Loader.lazy_body (body ++ tail)); [discriminate|contradiction].
Qed.

Lemma first_some_sound (A B : Type) (f : A -> option B) (l : list A) (y : B) :
  Loader.first_some f l = Some y -> exists x, In x l /\ f x = Some y.
Proof.
  induction l as [|x l IH]; simpl; [discriminate|].
  destruct (f x) as [y'|] eqn:E.
  - intro H. injection H as <-. exists x. split; [left; reflexivity|exact E].
  - intro H. destruct (IH H) as (x' & Hin & Hx'). exists x'. split; [right|]; assumption.
Qed.

Lemma first_some_complete (A B : Type) (f : A -> option B) (l : list A) (x : A) :
  In x l -> f x <> None -> Loader.first_some f l <> None.
Proof.
  induction l as [|x' l IH]; simpl; [intros []|].
  intros [->|Hin] Hx.
  - destruct (f x); [discriminate|contradiction].
  - destruct (f x'); [discriminate|]. apply IH; assumption.
Qed.

(** A captured body comes with the two delimiters around it. *)
Lemma extractFrontmatter_sound (content body : str) :
  Loader.extractFrontmatter content = Some body -> Spec.frontmatter_shape content body.
Proof.
  unfold Loader.extractFrontmatter.
  destruct content as [|c0 [|c1 [|c2 r]]]; try discriminate.
  destruct (char_eqb c0 DASH && char_eqb c1 DASH && char_eqb c2 DASH) eqn:E;
    [|discriminate].
  repeat (apply andb_true_iff in E; destruct E as [E ?]).
  repeat match goal with E : char_eqb _ _ = true |- _ => apply char_eqb_eq in E end.
  subst. intro H.
  destruct (first_some_sound _ _ _ _ _ H) as (x & Hin & Hx).
  destruct (after_spaces_newline_sound _ _ Hin) as (ws1 & -> & Hws1).
  destruct (lazy_body_sound _ _ Hx) as (tail & -> & Ht).
  destruct (closing_here_sound _ Ht) as (ws2 & rest & -> & Hws2).
  exists ws1, ws2, rest. split; [reflexivity|]. split; assumption.
Qed.

(** Text of that shape is matched. *)
Lemma extractFrontmatter_complete (content body : str) :
  Spec.frontmatter_shape content body -> Loader.extractFrontmatter content <> None.
Proof.
  intros (ws1 & ws2 & rest & -> & Hws1 & Hws2).
  change (lit "---") with [DASH; DASH; DASH] at 1. cbn [app].
  unfold Loader.extractFrontmatter. rewrite !char_eqb_refl. cbn [andb].
  eapply first_some_complete.
  - apply after_spaces_newline_complete. exact Hws1.
  - apply lazy_body_complete.
    apply (closing_here_complete ws2 rest Hws2).
Qed.

Lemma split_Forall (P : char -> Prop) (sep : char) (s : str) :
  Forall P s -> Forall (Forall P) (split sep s).
Proof.
  induction 1 as [|c s Hc _ IH].
  - simpl. repeat constructor.
  - simpl. destruct (char_eqb c sep).
    + constructor; [constructor|exact IH].
    + destruct (split sep s) as [|l ls]; [repeat constructor; exact Hc|].
      inversion IH; subst. constructor; [constructor; assumption|assumption].
Qed.

Lemma split_prefix_line (sep : char) (d w : str) :
  ~ In sep d ->
  exists h tl, split sep w = h :: tl /\ split sep (d ++ w) = (d ++ h) :: tl.
Proof.
  intro Hd. induction d as [|c d IH]; cbn [app].
  - destruct (split sep w) as [|h tl] eqn:E; [exfalso; revert E; apply split_not_nil|].
    exists h, tl. split; reflexivity.
  - destruct IH as (h & tl & Hw & Hdw); [intro; apply Hd; right; assumption|].
    exists h, tl. split; [exact Hw|].
    simpl. destruct (char_eqb c sep) eqn:E.
    + apply char_eqb_eq in E. subst c. exfalso. apply Hd. left. reflexivity.
    + rewrite Hdw. reflexivity.
Qed.

Lemma delimiter_then_spaces (ws : str) :
  Spec.all_spaces ws ->
  exists h tl, split LF (lit "---" ++ ws) = h :: tl /\ Spec.delimiter_line h.
Proof.
  intro Hws.
  destruct (split_prefix_line LF (lit "---") ws) as (h & tl & Hw & Hdw).
  { vm_compute. intros [H|[H|[H|[]]]]; discriminate. }
  exists (lit "---" ++ h), tl. split; [exact Hdw|].
  exists h. split; [reflexivity|].
  pose proof (split_Forall _ LF ws Hws) as HF. rewrite Hw in HF.
  inversion HF; assumption.
Qed.

(** Text of that shape begins with a delimiter line and has a later one. *)
Lemma shape_has_delimiter_pair (content body : str) :
  Spec.frontmatter_shape content body -> Spec.begins_with_delimiter_pair content.
Proof.
  intros (ws1 & ws2 & rest & -> & Hws1 & Hws2).
  destruct (delimiter_then_spaces ws1 Hws1) as (h1 & tl1 & E1 & Hd1).
  destruct (delimiter_then_spaces ws2 Hws2) as (h2 & tl2 & E2 & Hd2).
  exists h1, (tl1 ++ split LF body), h2, (tl2 ++ split LF rest).
  split; [|split; assumption].
  unfold Spec.lines.
  replace (lit "---" ++ ws1 ++ [LF] ++ body ++ [LF] ++ lit "---" ++ ws2 ++ [LF] ++ rest)
    with ((lit "---" ++ ws1) ++ LF :: (body ++ LF :: ((lit "---" ++ ws2) ++ LF :: rest))).
  - rewrite !split_app_sep, E1, E2. cbn [app]. rewrite <- !app_assoc. reflexivity.
  - rewrite <- !app_assoc. reflexivity.
Qed.

End Extraction.

(** C7.  A document that does not begin with a line holding only [---]
    (trailing white space aside) followed later by another such line has no
    frontmatter: [extractFrontmatter], in the loader and in the script,
    returns [null] for it.  The function is total: it raises nothing. *)
Theorem extractFrontmatter_absent (content : JS.str) :
  ~ Spec.begins_with_delimiter_pair content ->
  Loader.extractFrontmatter content = None
  /\ ValidateYaml.extractFrontmatter content = None.
Proof.
  intro Hno.
  assert (H : Loader.extractFrontmatter content = None).
  { destruct (Loader.extractFrontmatter content) as [body|] eqn:E; [|reflexivity].
    exfalso. apply Hno. apply (shape_has_delimiter_pair content body).
    apply extractFrontmatter_sound. exact E. }
  split; exact H.
Qed.

(** C7, at a document whose opening delimiter is never closed. *)
Lemma extractFrontmatter_absent_witness :
  Loader.extractFrontmatter
    (Examples.doc ["---"; "title: Example"; "## Role / Identity"]%string) = None
  /\ ValidateYaml.extractFrontmatter
       (Examples.doc ["---"; "title: Example"; "## Role / Identity"]%string) = None.
Proof.
  apply extractFrontmatter_absent.
  intros (first & between & closing & after & Hl & _ & (ws & Hc & _)).
  vm_compute in Hl. injection Hl as _ Hl.
  destruct between as [|b1 [|b2 [|b3 between]]]; cbn [app] in Hl.
  - injection Hl as <- _. vm_compute in Hc. discriminate.
  - injection Hl as _ <- _. vm_compute in Hc. discriminate.
  - injection Hl as _ _ Hl. discriminate.
  - injection Hl as _ _ Hl. discriminate.
Defined.

(** C7: a delimiter line may end in white space.  In this document no line
    holds only [---], and yet [extractFrontmatter] returns the text between
    the two lines that start with it. *)
Lemma extractFrontmatter_accepts_trailing_white_space :
  forallb (fun line => negb (JS.str_eqb line (JS.lit "---")))
          (Spec.lines (Examples.doc ["--- "; "title: x"; "--- "; "body"]%string))
  = true
  /\ Loader.extractFrontmatter
       (Examples.doc ["--- "; "title: x"; "--- "; "body"]%string)
     = Some (JS.lit "title: x")
  /\ ValidateYaml.extractFrontmatter
       (Examples.doc ["--- "; "title: x"; "--- "; "body"]%string)
     = Some (JS.lit "title: x").
Proof. repeat split; reflexivity. Qed.

(* ------------------------------------------------------------------------ *)
(** ** Filtering                                                             *)
(* ------------------------------------------------------------------------ *)

Section Filtering.
Import JS.

Lemma is_string_iff (v : JsValue) (s : str) : is_string v s = true <-> v = JStr s.
Proof.
  destruct v; simpl; split; intro H; try discriminate.
  - apply str_eqb_eq in H. congruence.
  - injection H as ->. apply str_eqb_refl.
Qed.

Lemma existsb_is_string (items : list JsValue) (g : str) :
  existsb (fun v => is_string v g) items = true <-> In (JStr g) items.
Proof.
  rewrite existsb_exists. split.
  - intros (v & Hin & Hv). apply is_string_iff in Hv. subst v. exact Hin.
  - intro Hin. exists (JStr g). split; [exact Hin|]. apply is_string_iff. reflexivity.
Qed.

(** The decided selection is the declared one. *)
Lemma selects_iff_meets (f : Loader.Filters) (t : Types.Template) :
  Spec.selects f t = true <-> Spec.meets f t.
Proof.
  unfold Spec.selects, Spec.meets, Spec.has_metadata.
  rewrite !andb_true_iff.
  split.
  - intros [[[Hm Hc] Hg] Hd]. split; [exact Hm|]. split; [|split].
    + intros c Hs. rewrite Hs in Hc. apply is_string_iff. exact Hc.
    + intros g Hs. rewrite Hs in Hg.
      destruct (get (Types.frontmatter t) "tags") as [| | | | |items|]; try discriminate.
      exists items. split; [reflexivity|]. apply existsb_is_string. exact Hg.
    + intros d Hs. rewrite Hs in Hd. apply is_string_iff. exact Hd.
  - intros (Hm & Hc & Hg & Hd). repeat split.
    + exact Hm.
    + destruct (Loader.supplied (Loader.category f)) as [c|]; [|reflexivity].
      apply is_string_iff. apply Hc. reflexivity.
    + destruct (Loader.supplied (Loader.tag f)) as [g|]; [|reflexivity].
      destruct (Hg g eq_refl) as (items & -> & Hin).
      apply existsb_is_string. exact Hin.
    + destruct (Loader.supplied (Loader.difficulty f)) as [d|]; [|reflexivity].
      apply is_string_iff. apply Hd. reflexivity.
Qed.

(** On a record whose tags are a list the callback does not throw, and
    answers as [selects]. *)
Lemma keeps_selects (f : Loader.Filters) (t : Types.Template) :
  (Spec.has_metadata t -> isArray (get (Types.frontmatter t) "tags") = true) ->
  Loader.keeps f t = Ok (Spec.selects f t).
Proof.
  unfold Spec.has_metadata, Loader.keeps, Spec.selects. intro Hshape.
  destruct (truthy (Types.frontmatter t)); [|reflexivity].
  specialize (Hshape eq_refl). cbn [negb andb].
  destruct (Loader.supplied (Loader.category f)) as [c|];
    [destruct (is_string (get (Types.frontmatter t) "category") c); [|reflexivity]|];
    cbn [negb andb];
    (destruct (get (Types.frontmatter t) "tags") as [| | | | |items|]; try discriminate);
    (destruct (Loader.supplied (Loader.tag f)) as [g|];
     [cbn [Loader.includes bind];
      destruct (existsb (fun v => is_string v g) items); [|reflexivity]|]);
    cbn [negb andb bind];
    (destruct (Loader.supplied (Loader.difficulty f)) as [d|];
     [destruct (is_string (get (Types.frontmatter t) "difficulty") d)|]);
    reflexivity.
Qed.

(** When the callback says [true], every supplied criterion holds. *)
Lemma keeps_true_iff (f : Loader.Filters) (t : Types.Template) :
  Loader.keeps f t = Ok true
  <-> truthy (Types.frontmatter t) = true
      /\ (forall c, Loader.supplied (Loader.category f) = Some c ->
                    is_string (get (Types.frontmatter t) "category") c = true)
      /\ (forall g, Loader.supplied (Loader.tag f) = Some g ->
                    Loader.includes (get (Types.frontmatter t) "tags") g = Ok true)
      /\ (forall d, Loader.supplied (Loader.difficulty f) = Some d ->
                    is_string (get (Types.frontmatter t) "difficulty") d = true).
Proof.
  unfold Loader.keeps.
  destruct (truthy (Types.frontmatter t)) eqn:Em;
    destruct (Loader.supplied (Loader.category f)) as [c|];
    try destruct (is_string (get (Types.frontmatter t) "category") c) eqn:Ec;
    destruct (Loader.supplied (Loader.tag f)) as [g|];
    try destruct (Loader.includes (get (Types.frontmatter t) "tags") g) as [[|]|e] eqn:Eg;
    destruct (Loader.supplied (Loader.difficulty f)) as [d|];
    try destruct (is_string (get (Types.frontmatter t) "difficulty") d) eqn:Ed;
    cbn [negb bind];
    (split;
     [ intro H; try discriminate H;
       repeat split; try reflexivity;
       intros ? E; try discriminate E; injection E as <-; assumption
     | intros (H1 & H2 & H3 & H4); try reflexivity;
       try discriminate H1;
       try (specialize (H2 _ eq_refl); congruence);
       try (specialize (H3 _ eq_refl); congruence);
       try (specialize (H4 _ eq_refl); congruence) ]).
Qed.

(** A record kept under more criteria is kept under fewer. *)
Lemma keeps_extends (f f' : Loader.Filters) (t : Types.Template) :
  Spec.extends f f' -> Loader.keeps f' t = Ok true -> Loader.keeps f t = Ok true.
Proof.
  intros (Ec & Eg & Ed) H. apply keeps_true_iff in H.
  destruct H as (Hm & Hc & Hg & Hd). apply keeps_true_iff.
  split; [exact Hm|]. split; [|split].
  - intros c Hs. apply Hc, Ec, Hs.
  - intros g Hs. apply Hg, Eg, Hs.
  - intros d Hs. apply Hd, Ed, Hs.
Qed.

Lemma sublist_In (A : Type) (l1 l2 : list A) (x : A) :
  Spec.sublist l1 l2 -> In x l1 -> In x l2.
Proof.
  induction 1 as [|y l1 l2 _ IH|y l1 l2 _ IH]; simpl; intro H.
  - exact H.
  - destruct H as [H|H]; [left; exact H|right; exact (IH H)].
  - right. exact (IH H).
Qed.

Lemma sublist_filter (A : Type) (g : A -> bool) (l : list A) :
  Spec.sublist (filter g l) l.
Proof.
  induction l as [|x l IH]; simpl; [constructor|].
  destruct (g x); constructor; exact IH.
Qed.

Lemma filter_with_total (A : Type) (f : A -> result bool) (g : A -> bool) (l : list A) :
  Forall (fun x => f x = Ok (g x)) l -> Loader.filter_with f l = Ok (filter g l).
Proof.
  induction 1 as [|x l Hx _ IH]; simpl; [reflexivity|].
  rewrite Hx, IH. simpl. reflexivity.
Qed.

Lemma filter_with_narrows (A : Type) (f f' : A -> result bool) (l : list A) :
  (forall x, f' x = Ok true -> f x = Ok true) ->
  forall r r', Loader.filter_with f l = Ok r -> Loader.filter_with f' l = Ok r' ->
               Spec.sublist r' r.
Proof.
  intro Hff. induction l as [|x l IH]; intros r r' H H'.
  - simpl in H, H'. injection H as <-. injection H' as <-. constructor.
  - simpl in H, H'.
    destruct (f' x) as [b'|] eqn:E'; [|discriminate].
    destruct (f x) as [b|] eqn:E; [|discriminate].
    cbn [bind] in H, H'.
    destruct (Loader.filter_with f l) as [rest|]; [|discriminate].
    destruct (Loader.filter_with f' l) as [rest'|]; [|discriminate].
    cbn [bind] in H, H'. injection H as <-. injection H' as <-.
    specialize (IH rest rest' eq_refl eq_refl).
    destruct b'.
    + rewrite (Hff x E') in E. injection E as <-. constructor. exact IH.
    + destruct b; [constructor|]; exact IH.
Qed.

Lemma filterTemplates_total (templates : list Types.Template) (filters : Loader.Filters) :
  Spec.tags_are_lists templates ->
  exists r, Loader.filterTemplates templates filters = Ok r.
Proof.
  intro Hshape. exists (filter (Spec.selects filters) templates).
  unfold Loader.filterTemplates. apply filter_with_total.
  eapply Forall_impl; [|exact Hshape].
  intros t Ht. apply keeps_selects. exact Ht.
Qed.

End Filtering.

(** C1 (as amended).  On records whose tags, when they have metadata, are a
    list (as [TemplateFrontmatter] declares), [filterTemplates] returns, in
    input order, exactly the records that have metadata and satisfy every
    supplied criterion; a criterion given as the empty string counts as not
    supplied.  A record without metadata is never returned: with no criterion
    supplied the result is the records that have metadata. *)
Theorem filterTemplates_selects (templates : list Types.Template) (filters : Loader.Filters) :
  Spec.tags_are_lists templates ->
  Loader.filterTemplates templates filters
  = JS.Ok (filter (Spec.selects filters) templates)
  /\ Spec.sublist (filter (Spec.selects filters) templates) templates
  /\ (forall t, In t (filter (Spec.selects filters) templates)
                <-> In t templates /\ Spec.meets filters t)
  /\ (forall t, In t (filter (Spec.selects filters) templates) -> Spec.has_metadata t)
  /\ (Spec.no_criteria filters ->
      forall t, In t (filter (Spec.selects filters) templates)
                <-> In t templates /\ Spec.has_metadata t).
Proof.
  intro Hshape.
  assert (Hmem : forall t, In t (filter (Spec.selects filters) templates)
                           <-> In t templates /\ Spec.meets filters t).
  { intro t. rewrite filter_In, selects_iff_meets. reflexivity. }
  split; [|split; [|split; [|split]]].
  - unfold Loader.filterTemplates. apply filter_with_total.
    eapply Forall_impl; [|exact Hshape].
    intros t Ht. apply keeps_selects. exact Ht.
  - apply sublist_filter.
  - exact Hmem.
  - intros t Ht. apply Hmem in Ht. destruct Ht as [_ [Hm _]]. exact Hm.
  - intros (Hc & Hg & Hd) t. rewrite Hmem. unfold Spec.meets.
    rewrite Hc, Hg, Hd. split.
    + intros [Hin [Hm _]]. split; assumption.
    + intros [Hin Hm]. split; [exact Hin|].
      split; [exact Hm|]. repeat split; intros ? E; discriminate.
Qed.

(** C1, at a catalog of three records, one of them without metadata. *)
Lemma filterTemplates_selects_witness :
  Loader.filterTemplates
    [Examples.react; Examples.no_frontmatter; Examples.untagged]
    (Examples.by_category_and_tag "framework" "frontend")
  = JS.Ok [Examples.react].
Proof.
  assert (Hshape : Spec.tags_are_lists
                     [Examples.react; Examples.no_frontmatter; Examples.untagged]).
  { repeat constructor; intro H; try reflexivity; discriminate H. }
  destruct (filterTemplates_selects
              [Examples.react; Examples.no_frontmatter; Examples.untagged]
              (Examples.by_category_and_tag "framework" "frontend") Hshape) as [H _].
  rewrite H. reflexivity.
Defined.

(** C1, counterexample to the unamended statement: with no criterion
    supplied the record without metadata is not returned. *)
Lemma filterTemplates_drops_records_without_metadata :
  Types.frontmatter Examples.no_frontmatter = JS.JUndefined
  /\ Loader.filterTemplates [Examples.no_frontmatter; Examples.react] Examples.no_filters
     = JS.Ok [Examples.react]
  /\ Loader.filterTemplates [Examples.no_frontmatter] Examples.no_filters = JS.Ok [].
Proof. repeat split; reflexivity. Qed.

(** C6.  Filtering is an intersection: when [filters'] has every criterion
    of [filters] and possibly more, whatever [filterTemplates] returns for
    [filters'] is a sublist (same records, same order, some left out) of what
    it returns for [filters]; and on records whose tags are lists both calls
    do return. *)
Theorem filterTemplates_more_criteria_fewer_records
    (templates : list Types.Template) (filters filters' : Loader.Filters) :
  Spec.extends filters filters' ->
  (forall r r',
      Loader.filterTemplates templates filters = JS.Ok r ->
      Loader.filterTemplates templates filters' = JS.Ok r' ->
      Spec.sublist r' r /\ (forall t, In t r' -> In t r))
  /\ (Spec.tags_are_lists templates ->
      exists r r',
        Loader.filterTemplates templates filters = JS.Ok r
        /\ Loader.filterTemplates templates filters' = JS.Ok r'
        /\ Spec.sublist r' r).
Proof.
  intro Hext.
  assert (Hsub : forall r r',
             Loader.filterTemplates templates filters = JS.Ok r ->
             Loader.filterTemplates templates filters' = JS.Ok r' ->
             Spec.sublist r' r).
  { intros r r' H H'.
    apply (filter_with_narrows _ (Loader.keeps filters) (Loader.keeps filters') templates);
      [|exact H|exact H'].
    intros t Ht. exact (keeps_extends filters filters' t Hext Ht). }
  split.
  - intros r r' H H'. split; [exact (Hsub r r' H H')|].
    intros t. apply sublist_In. exact (Hsub r r' H H').
  - intro Hshape.
    destruct (filterTemplates_total templates filters Hshape) as [r H].
    destruct (filterTemplates_total templates filters' Hshape) as [r' H'].
    exists r, r'. split; [exact H|]. split; [exact H'|]. exact (Hsub r r' H H').
Qed.

(** C6, at the filters of the specification: by category, then also by tag. *)
Lemma filterTemplates_more_criteria_fewer_records_witness :
  exists r r',
    Loader.filterTemplates [Examples.react; Examples.no_frontmatter; Examples.untagged]
                           (Examples.by_category "framework") = JS.Ok r
    /\ Loader.filterTemplates [Examples.react; Examples.no_frontmatter; Examples.untagged]
                              (Examples.by_category_and_tag "framework" "frontend")
       = JS.Ok r'
    /\ Spec.sublist r' r.
Proof.
  assert (Hext : Spec.extends (Examples.by_category "framework")
                              (Examples.by_category_and_tag "framework" "frontend")).
  { repeat split; intros ? E; try discriminate E; exact E. }
  destruct (filterTemplates_more_criteria_fewer_records
              [Examples.react; Examples.no_frontmatter; Examples.untagged]
              (Examples.by_category "framework")
              (Examples.by_category_and_tag "framework" "frontend") Hext) as [_ H].
  apply H. repeat constructor; intro E; try reflexivity; discriminate E.
Defined.

(* ------------------------------------------------------------------------ *)
(** ** The validator: strict mode                                            *)
(* ------------------------------------------------------------------------ *)

Section ValidatorFacts.
Import JS.

Lemma validateTemplate_valid_flag (t : Types.Template) (strict : bool) :
  Types.valid (Validator.validateTemplate t strict) = true
  <-> Types.errors (Validator.validateTemplate t strict) = [].
Proof.
  unfold Validator.validateTemplate.
  destruct strict; cbn [Types.valid Types.errors];
    match goal with |- context [match ?l with [] => true | _ :: _ => false end] =>
      destruct l end; split; intro H; congruence.
Qed.

Lemma validateTemplate_strict_errors (t : Types.Template) :
  Types.errors (Validator.validateTemplate t true)
  = Types.errors (Validator.validateTemplate t false)
    ++ Types.warnings (Validator.validateTemplate t false).
Proof. reflexivity. Qed.

Lemma validateTemplate_strict_warnings (t : Types.Template) :
  Types.warnings (Validator.validateTemplate t true) = [].
Proof. reflexivity. Qed.

End ValidatorFacts.

(** C4.  Classification is monotonic under strict mode: a record that
    [validateTemplate] classifies invalid with [strict = false] is classified
    invalid with [strict = true] (both by the three-way classification and by
    the [valid] flag), and the strict classification is never more valid than
    the non-strict one. *)
Theorem validateTemplate_strict_monotone (t : Types.Template) :
  (Spec.classify (Validator.validateTemplate t false) = Spec.Invalid ->
   Spec.classify (Validator.validateTemplate t true) = Spec.Invalid)
  /\ (Types.valid (Validator.validateTemplate t false) = false ->
      Types.valid (Validator.validateTemplate t true) = false)
  /\ Spec.rank (Spec.classify (Validator.validateTemplate t true))
     <= Spec.rank (Spec.classify (Validator.validateTemplate t false)).
Proof.
  pose proof (validateTemplate_strict_errors t) as He.
  pose proof (validateTemplate_strict_warnings t) as Hw.
  pose proof (validateTemplate_valid_flag t false) as Hf.
  pose proof (validateTemplate_valid_flag t true) as Ht.
  unfold Spec.classify.
  rewrite He, Hw in *. clear He Hw.
  destruct (Types.errors (Validator.validateTemplate t false)) as [|e es];
    destruct (Types.warnings (Validator.validateTemplate t false)) as [|w ws];
    cbn [app Spec.rank]; repeat split; try congruence; try lia; intro Hv.
  - destruct Hf as [_ Hf]. rewrite Hf in Hv by reflexivity. discriminate.
  - destruct Hf as [_ Hf]. rewrite Hf in Hv by reflexivity. discriminate.
  - destruct (Types.valid (Validator.validateTemplate t true)); [|reflexivity].
    destruct Ht as [Ht _]. specialize (Ht eq_refl). discriminate.
  - destruct (Types.valid (Validator.validateTemplate t true)); [|reflexivity].
    destruct Ht as [Ht _]. specialize (Ht eq_refl). discriminate.
Qed.

(** C10.  With [strict = true] the result of [validateTemplate] has an empty
    warnings list, its errors are the non-strict errors followed by the
    non-strict warnings, and its classification is valid (with no warning) or
    invalid, never valid-with-warnings. *)
Theorem validateTemplate_strict_has_no_warnings (t : Types.Template) :
  Types.warnings (Validator.validateTemplate t true) = []
  /\ Types.errors (Validator.validateTemplate t true)
     = Types.errors (Validator.validateTemplate t false)
       ++ Types.warnings (Validator.validateTemplate t false)
  /\ Spec.classify (Validator.validateTemplate t true) <> Spec.ValidWithWarnings
  /\ (Spec.classify (Validator.validateTemplate t true) = Spec.Valid
      \/ Spec.classify (Validator.validateTemplate t true) = Spec.Invalid).
Proof.
  split; [reflexivity|]. split; [reflexivity|].
  unfold Spec.classify. rewrite validateTemplate_strict_warnings.
  destruct (Types.errors (Validator.validateTemplate t true)); split;
    try congruence; auto.
Qed.

(* ------------------------------------------------------------------------ *)
(** ** The validator: an empty tag list                                      *)
(* ------------------------------------------------------------------------ *)

Section EmptyTags.
Import JS.

Lemma literals_include_truthy (arr : list string) (v : JsValue) :
  forallb (fun s => match lit s with [] => false | _ :: _ => true end) arr = true ->
  literals_include arr v = true -> truthy v = true.
Proof.
  unfold literals_include. intros Harr H.
  apply existsb_exists in H. destruct H as (s & Hin & Hs).
  apply is_string_iff in Hs. subst v.
  rewrite forallb_forall in Harr. specialize (Harr s Hin).
  simpl. destruct (lit s); [discriminate|reflexivity].
Qed.

(** What [validateFrontmatter] returns for metadata whose required fields
    are right except that [tags] is the empty list: no error, and the
    warning about [tags] first. *)
Lemma validateFrontmatter_empty_tags (fm : JsValue) :
  truthy fm = true ->
  truthy (get fm "title") = true ->
  literals_include Validator.VALID_CATEGORIES (get fm "category") = true ->
  get fm "tags" = JArr [] ->
  literals_include Validator.VALID_DIFFICULTIES (get fm "difficulty") = true ->
  Types.errors (Validator.validateFrontmatter fm) = []
  /\ exists more,
       Types.warnings (Validator.validateFrontmatter fm)
       = (lit "Field " ++ Validator.quoted "tags" ++ lit " is empty") :: more.
Proof.
  intros Hfm Htitle Hcat Htags Hdiff.
  pose proof (literals_include_truthy Validator.VALID_CATEGORIES _ eq_refl Hcat) as Hcat'.
  pose proof (literals_include_truthy Validator.VALID_DIFFICULTIES _ eq_refl Hdiff) as Hdiff'.
  unfold Validator.validateFrontmatter.
  rewrite Hfm, Htitle, Hcat, Hcat', Htags, Hdiff, Hdiff'.
  cbn [negb truthy isArray Validator.push_if app Types.errors Types.warnings].
  split; [reflexivity|].
  unfold Validator.push_if.
  destruct (truthy (get fm "requires") && negb (isArray (get fm "requires")));
    destruct (truthy (get fm "combinableWith") && negb (isArray (get fm "combinableWith")));
    cbn [app]; eexists; reflexivity.
Qed.

End EmptyTags.

(** C5.  A record whose metadata is present with a title, a valid category,
    a valid difficulty and the empty list as [tags], and whose five headings
    are all present, is classified valid with at least one warning (the one
    about [tags]) when [strict = false], and invalid when [strict = true]. *)
Theorem validateTemplate_empty_tags (t : Types.Template) :
  JS.truthy (Types.frontmatter t) = true ->
  JS.truthy (JS.get (Types.frontmatter t) "title") = true ->
  JS.literals_include Validator.VALID_CATEGORIES
    (JS.get (Types.frontmatter t) "category") = true ->
  JS.get (Types.frontmatter t) "tags" = JS.JArr [] ->
  JS.literals_include Validator.VALID_DIFFICULTIES
    (JS.get (Types.frontmatter t) "difficulty") = true ->
  Types.hasValidStructure t = true ->
  (Types.valid (Validator.validateTemplate t false) = true
   /\ Types.errors (Validator.validateTemplate t false) = []
   /\ In (JS.lit "Field " ++ Validator.quoted "tags" ++ JS.lit " is empty")
         (Types.warnings (Validator.validateTemplate t false))
   /\ Spec.classify (Validator.validateTemplate t false) = Spec.ValidWithWarnings)
  /\ (Types.valid (Validator.validateTemplate t true) = false
      /\ In (JS.lit "Field " ++ Validator.quoted "tags" ++ JS.lit " is empty")
            (Types.errors (Validator.validateTemplate t true))
      /\ Spec.classify (Validator.validateTemplate t true) = Spec.Invalid).
Proof.
  intros Hfm Htitle Hcat Htags Hdiff Hstruct.
  destruct (validateFrontmatter_empty_tags _ Hfm Htitle Hcat Htags Hdiff)
    as (He & more & Hw).
  unfold Spec.classify, Validator.validateTemplate, Validator.validateStructure.
  rewrite He, Hw, Hstruct.
  cbn [negb app Types.valid Types.errors Types.warnings In].
  repeat split; auto.
Qed.

(** C5, at a record with complete metadata and no tag. *)
Lemma validateTemplate_empty_tags_witness :
  Spec.classify (Validator.validateTemplate Examples.untagged false) = Spec.ValidWithWarnings
  /\ Spec.classify (Validator.validateTemplate Examples.untagged true) = Spec.Invalid.
Proof.
  destruct (validateTemplate_empty_tags Examples.untagged
              eq_refl eq_refl eq_refl eq_refl eq_refl eq_refl)
    as ((_ & _ & _ & H) & (_ & _ & H')).
  split; [exact H|exact H'].
Defined.

(* ------------------------------------------------------------------------ *)
(** ** The identifier of a record                                            *)
(* ------------------------------------------------------------------------ *)

(** C8.  [loadTemplate] removes the first occurrence of [.md] from the file
    name, which is not always the extension: for [guide.mdx.md] the
    identifier is [guidex.md], not [guide.mdx]. *)
Theorem loadTemplate_id_removes_first_md :
  (forall (yaml_load : JS.str -> JS.result JS.JsValue) (basename : JS.str -> JS.str)
          (filePath content : JS.str),
      Types.id (Loader.loadTemplate yaml_load basename filePath content)
      = JS.replaceFirst (JS.lit ".md") [] (basename filePath))
  /\ let t := Loader.loadTemplate Examples.yaml_throws Examples.basename_posix
                (JS.lit "templates/frameworks/guide.mdx.md") Examples.five_headings in
     Types.filename t = JS.lit "guide.mdx.md"
     /\ Types.id t = JS.lit "guidex.md"
     /\ Spec.strip_md_extension (Types.filename t) = JS.lit "guide.mdx"
     /\ Types.id t <> Spec.strip_md_extension (Types.filename t).
Proof.
  split; [reflexivity|].
  cbv zeta. repeat split; try reflexivity.
  vm_compute. discriminate.
Qed.

(* ------------------------------------------------------------------------ *)
(** ** Frontmatter parsing                                                   *)
(* ------------------------------------------------------------------------ *)

Section Parsing.
Import JS.

Lemma indexOf_none (c : char) (s : str) : ~ In c s -> indexOf c s = None.
Proof.
  induction s as [|x s IH]; intro H; [reflexivity|].
  simpl. destruct (char_eqb x c) eqn:E.
  - apply char_eqb_eq in E. subst x. exfalso. apply H. left. reflexivity.
  - rewrite IH; [reflexivity|]. intro Hin. apply H. right. exact Hin.
Qed.

Lemma indexOf_first (c : char) (left right : str) :
  ~ In c left -> indexOf c (left ++ c :: right) = Some (List.length left).
Proof.
  induction left as [|x left IH]; intro H; cbn [app].
  - simpl. rewrite char_eqb_refl. reflexivity.
  - simpl. destruct (char_eqb x c) eqn:E.
    + apply char_eqb_eq in E. subst x. exfalso. apply H. left. reflexivity.
    + rewrite IH; [reflexivity|]. intro Hin. apply H. right. exact Hin.
Qed.

Lemma indexOf_some_inv (c : char) (s : str) (i : nat) :
  indexOf c s = Some i ->
  s = firstn i s ++ c :: skipn (i + 1) s /\ ~ In c (firstn i s).
Proof.
  revert i. induction s as [|x s IH]; intros i H; [discriminate|].
  simpl in H. destruct (char_eqb x c) eqn:E.
  - injection H as <-. apply char_eqb_eq in E. subst x.
    split; [reflexivity|intros []].
  - destruct (indexOf c s) as [j|] eqn:Ej; [|discriminate].
    injection H as <-. destruct (IH j eq_refl) as [Hs Hn].
    cbn [firstn skipn Nat.add app]. split.
    + f_equal. exact Hs.
    + intros [Hx|Hin]; [|exact (Hn Hin)].
      subst x. rewrite char_eqb_refl in E. discriminate.
Qed.

Lemma indexOf_none_inv (c : char) (s : str) : indexOf c s = None -> ~ In c s.
Proof.
  induction s as [|x s IH]; intros H Hin; [destruct Hin|].
  simpl in H. destruct (char_eqb x c) eqn:E; [discriminate|].
  destruct (indexOf c s); [discriminate|].
  destruct Hin as [->|Hin]; [|exact (IH eq_refl Hin)].
  rewrite char_eqb_refl in E. discriminate.
Qed.

(** A line with no colon is skipped. *)
Lemma parse_line_no_colon (data : list (str * JsValue)) (line : str) :
  ~ In COLON line -> ValidateYaml.parse_line data line = data.
Proof.
  intro H. unfold ValidateYaml.parse_line. rewrite (indexOf_none COLON line H).
  reflexivity.
Qed.

(** A line with a colon is split at its first colon. *)
Lemma parse_line_colon (data : list (str * JsValue)) (left right : str) :
  ~ In COLON left ->
  ValidateYaml.parse_line data (left ++ COLON :: right)
  = ValidateYaml.set_property (trim left) (ValidateYaml.parse_value (trim right)) data.
Proof.
  intro H. unfold ValidateYaml.parse_line.
  rewrite (indexOf_first COLON left right H).
  rewrite firstn_app, firstn_all, Nat.sub_diag, firstn_O, app_nil_r.
  replace (List.length left + 1) with (List.length left + 1 + 0) by lia.
  rewrite skipn_app.
  replace (List.length left + 1 + 0 - List.length left) with 1 by lia.
  rewrite skipn_all2 by lia. reflexivity.
Qed.

Lemma declares_unique (line k k' : str) (v v' : JsValue) :
  Spec.declares line k v -> Spec.declares line k' v' -> k = k' /\ v = v'.
Proof.
  intros (l & r & -> & Hl & -> & ->) (l' & r' & E & Hl' & -> & ->).
  pose proof (indexOf_first COLON l r Hl) as H1.
  rewrite E in H1. rewrite (indexOf_first COLON l' r' Hl') in H1.
  injection H1 as Hlen.
  assert (Hll : l = l').
  { apply (f_equal (firstn (List.length l))) in E.
    rewrite firstn_app, firstn_all, Nat.sub_diag, firstn_O, app_nil_r in E.
    rewrite <- Hlen in E.
    rewrite firstn_app, firstn_all, Nat.sub_diag, firstn_O, app_nil_r in E. exact E. }
  subst l'. apply app_inv_head in E. injection E as <-. split; reflexivity.
Qed.

(** Each line either declares one key, which is assigned, or declares
    nothing and is skipped. *)
Lemma parse_line_cases (data : list (str * JsValue)) (line : str) :
  (exists k v, Spec.declares line k v
               /\ ValidateYaml.parse_line data line = ValidateYaml.set_property k v data)
  \/ ((forall k v, ~ Spec.declares line k v)
      /\ ValidateYaml.parse_line data line = data).
Proof.
  destruct (indexOf COLON line) as [i|] eqn:E.
  - left. destruct (indexOf_some_inv COLON line i E) as [Hs Hn].
    exists (trim (firstn i line)),
           (ValidateYaml.parse_value (trim (skipn (i + 1) line))).
    split.
    + exists (firstn i line), (skipn (i + 1) line). repeat split; assumption.
    + unfold ValidateYaml.parse_line. rewrite E. reflexivity.
  - right. pose proof (indexOf_none_inv COLON line E) as Hn. split.
    + intros k v (l & r & -> & _). apply Hn. apply in_or_app. right. left. reflexivity.
    + apply parse_line_no_colon. exact Hn.
Qed.

Lemma lookup_assign (k key : str) (value : JsValue) (data : list (str * JsValue)) :
  lookup k (ValidateYaml.assign key value data)
  = if str_eqb key k then Some value else lookup k data.
Proof.
  induction data as [|[k0 v0] data IH]; simpl.
  - destruct (str_eqb key k); reflexivity.
  - destruct (str_eqb k0 key) eqn:E; simpl.
    + apply str_eqb_eq in E. subst k0. destruct (str_eqb key k); reflexivity.
    + destruct (str_eqb k0 k) eqn:E0.
      * apply str_eqb_eq in E0. subst k0.
        destruct (str_eqb key k) eqn:E1; [|reflexivity].
        apply str_eqb_eq in E1. subst key. rewrite str_eqb_refl in E. discriminate.
      * exact IH.
Qed.

Lemma lookup_set_property (k key : str) (value : JsValue) (data : list (str * JsValue)) :
  k <> lit "__proto__" ->
  lookup k (ValidateYaml.set_property key value data)
  = if str_eqb key k then Some value else lookup k data.
Proof.
  intro Hk. unfold ValidateYaml.set_property.
  destruct (str_eqb key (lit "__proto__")) eqn:E.
  - apply str_eqb_eq in E. subst key.
    destruct (str_eqb (lit "__proto__") k) eqn:E'; [|reflexivity].
    apply str_eqb_eq in E'. congruence.
  - apply lookup_assign.
Qed.

Lemma lookup_proto_set_property (key : str) (value : JsValue) (data : list (str * JsValue)) :
  lookup (lit "__proto__") data = None ->
  lookup (lit "__proto__") (ValidateYaml.set_property key value data) = None.
Proof.
  intro H. unfold ValidateYaml.set_property.
  destruct (str_eqb key (lit "__proto__")) eqn:E; [exact H|].
  rewrite lookup_assign, E. exact H.
Qed.

Lemma parsed_has_no_proto (ls : list str) :
  forall data, lookup (lit "__proto__") data = None ->
               lookup (lit "__proto__") (fold_left ValidateYaml.parse_line ls data) = None.
Proof.
  induction ls as [|l ls IH]; intros data H; [exact H|].
  cbn [fold_left]. apply IH.
  destruct (parse_line_cases data l) as [(k & v & _ & ->)|[_ ->]]; [|exact H].
  apply lookup_proto_set_property. exact H.
Qed.

(** The record holds, for each key, the value of the last line declaring
    it. *)
Lemma parsed_last_declaration (k : str) (v : JsValue) (ls : list str) :
  k <> lit "__proto__" ->
  lookup k (fold_left ValidateYaml.parse_line ls []) = Some v
  <-> Spec.last_declaration ls k v.
Proof.
  intro Hk. revert v. induction ls as [|l ls IH] using rev_ind; intro v.
  - simpl. split; [discriminate|].
    intros (before & line & after & E & _). destruct before; discriminate.
  - rewrite fold_left_app. cbn [fold_left].
    assert (Hlast : forall before line after,
               ls ++ [l] = before ++ line :: after ->
               (after = [] /\ before = ls /\ line = l)
               \/ (exists after', after = after' ++ [l] /\ ls = before ++ line :: after')).
    { intros before line after E.
      destruct after as [|a after] using rev_ind.
      - left. apply app_inj_tail in E. destruct E as [<- <-]. repeat split.
      - right.
        change (before ++ line :: after ++ [a]) with (before ++ (line :: after) ++ [a]) in E.
        rewrite app_assoc in E. apply app_inj_tail in E. destruct E as [E <-].
        exists after. split; [reflexivity|exact E]. }
    destruct (parse_line_cases (fold_left ValidateYaml.parse_line ls []) l)
      as [(k' & v' & Hd & ->)|[Hnd ->]].
    + rewrite (lookup_set_property k k' v' _ Hk).
      destruct (str_eqb k' k) eqn:E.
      * apply str_eqb_eq in E. subst k'. split.
        -- intro H. injection H as <-.
           exists ls, l, []. split; [reflexivity|]. split; [exact Hd|constructor].
        -- intros (before & line & after & Hsplit & Hline & Hafter).
           destruct (Hlast _ _ _ Hsplit) as [(-> & -> & ->)|(after' & -> & _)].
           ++ destruct (declares_unique _ _ _ _ _ Hd Hline) as [_ ->]. reflexivity.
           ++ apply Forall_app in Hafter. destruct Hafter as [_ Hl].
              inversion Hl as [|? ? Hl' _]; subst. exfalso. exact (Hl' v' Hd).
      * apply str_eqb_neq in E. rewrite IH. split.
        -- intros (before & line & after & -> & Hline & Hafter).
           exists before, line, (after ++ [l]). split.
           ++ rewrite <- app_assoc. reflexivity.
           ++ split; [exact Hline|]. apply Forall_app. split; [exact Hafter|].
              constructor; [|constructor]. intros v'' Hd'.
              destruct (declares_unique _ _ _ _ _ Hd Hd') as [Hkk _]. exact (E Hkk).
        -- intros (before & line & after & Hsplit & Hline & Hafter).
           destruct (Hlast _ _ _ Hsplit) as [(-> & -> & ->)|(after' & -> & ->)].
           ++ destruct (declares_unique _ _ _ _ _ Hd Hline) as [Hkk _].
              exfalso. exact (E Hkk).
           ++ apply Forall_app in Hafter. destruct Hafter as [Hafter _].
              exists before, line, after'. split; [reflexivity|]. split; assumption.
    + rewrite IH. split.
      * intros (before & line & after & -> & Hline & Hafter).
        exists before, line, (after ++ [l]). split.
        -- rewrite <- app_assoc. reflexivity.
        -- split; [exact Hline|]. apply Forall_app. split; [exact Hafter|].
           constructor; [|constructor]. intros v''. apply Hnd.
      * intros (before & line & after & Hsplit & Hline & Hafter).
        destruct (Hlast _ _ _ Hsplit) as [(-> & -> & ->)|(after' & -> & ->)].
        -- exfalso. exact (Hnd _ _ Hline).
        -- apply Forall_app in Hafter. destruct Hafter as [Hafter _].
           exists before, line, after'. split; [reflexivity|]. split; assumption.
Qed.

Lemma strip_quotes_spec (s : str) (c : char) :
  In c (strip_quotes s) <-> In c s /\ c <> SQUOTE /\ c <> DQUOTE.
Proof.
  unfold strip_quotes. rewrite filter_In. unfold is_quote.
  rewrite negb_true_iff, orb_false_iff.
  split; intros [H [H1 H2]]; (split; [exact H|]).
  - split; intro E; subst c; rewrite char_eqb_refl in *; discriminate.
  - split.
    + destruct (char_eqb c SQUOTE) eqn:E; [|reflexivity].
      apply char_eqb_eq in E. contradiction.
    + destruct (char_eqb c DQUOTE) eqn:E; [|reflexivity].
      apply char_eqb_eq in E. contradiction.
Qed.

Lemma parse_value_scalar (value : str) :
  startsWith [LBRACKET] value = false ->
  ValidateYaml.parse_value value = JStr (strip_quotes value).
Proof. intro H. unfold ValidateYaml.parse_value. rewrite H. reflexivity. Qed.

Lemma parse_value_list (inner : str) (last : char) :
  ValidateYaml.parse_value (LBRACKET :: inner ++ [last])
  = JArr (map (fun item => JStr (strip_quotes (trim item))) (split COMMA inner)).
Proof.
  unfold ValidateYaml.parse_value, slice_1_m1.
  cbn [startsWith tl]. rewrite char_eqb_refl. cbn [andb].
  rewrite removelast_last. reflexivity.
Qed.

End Parsing.

(** C2 (as amended).  [parseFrontmatter] returns what [yaml.load] of js-yaml
    returns.  When [yaml.load] throws, the loader's [parseFrontmatter]
    returns [null], and the one of the validate-yaml script parses line by
    line: a line with no colon is skipped; a line with a colon is split at
    its first colon into a trimmed key and a trimmed value, stored with every
    quote character removed or, when it starts with a bracket, as the list
    of its comma-separated items, each trimmed and without quote characters;
    the record holds for each key the value of the last line declaring it,
    and never the key [__proto__].  Both functions are total: no exception
    escapes them. *)
Theorem parseFrontmatter_behaviour
    (yaml_load : JS.str -> JS.result JS.JsValue) (yamlString : JS.str) :
  (forall v, yaml_load yamlString = JS.Ok v ->
             Loader.parseFrontmatter yaml_load yamlString = v
             /\ ValidateYaml.parseFrontmatter yaml_load yamlString = v)
  /\ (forall e, yaml_load yamlString = JS.Throw e ->
        Loader.parseFrontmatter yaml_load yamlString = JS.JNull
        /\ exists data,
             ValidateYaml.parseFrontmatter yaml_load yamlString = JS.JObj data
             /\ JS.lookup (JS.lit "__proto__") data = None
             /\ forall k v, k <> JS.lit "__proto__" ->
                  (JS.lookup k data = Some v
                   <-> Spec.last_declaration (Spec.lines yamlString) k v))
  /\ (forall data line,
        ~ In JS.COLON line -> ValidateYaml.parse_line data line = data)
  /\ (forall data left right,
        ~ In JS.COLON left ->
        ValidateYaml.parse_line data (left ++ JS.COLON :: right)
        = ValidateYaml.set_property (JS.trim left)
            (ValidateYaml.parse_value (JS.trim right)) data)
  /\ (forall value,
        JS.startsWith [JS.LBRACKET] value = false ->
        ValidateYaml.parse_value value = JS.JStr (JS.strip_quotes value))
  /\ (forall inner last,
        ValidateYaml.parse_value (JS.LBRACKET :: inner ++ [last])
        = JS.JArr (map (fun item => JS.JStr (JS.strip_quotes (JS.trim item)))
                       (JS.split JS.COMMA inner)))
  /\ (forall s c, In c (JS.strip_quotes s)
                  <-> In c s /\ c <> JS.SQUOTE /\ c <> JS.DQUOTE).
Proof.
  split; [|split; [|split; [|split; [|split; [|split]]]]].
  - intros v H. unfold Loader.parseFrontmatter, ValidateYaml.parseFrontmatter.
    rewrite H. split; reflexivity.
  - intros e H. unfold Loader.parseFrontmatter, ValidateYaml.parseFrontmatter.
    rewrite H. split; [reflexivity|].
    exists (fold_left ValidateYaml.parse_line (JS.split JS.LF yamlString) []).
    split; [reflexivity|]. split.
    + apply parsed_has_no_proto. reflexivity.
    + intros k v Hk. apply parsed_last_declaration. exact Hk.
  - apply parse_line_no_colon.
  - apply parse_line_colon.
  - apply parse_value_scalar.
  - apply parse_value_list.
  - apply strip_quotes_spec.
Qed.

(** C2, counterexample to the unamended statement: on a frontmatter body
    that js-yaml rejects (a quoted scalar that is never closed) the loader's
    [parseFrontmatter] returns [null], not the record read line by line,
    which is what the script's fallback returns; and when js-yaml accepts the
    body the result is its value ([false], a boolean), not the text of the
    line. *)
Lemma parseFrontmatter_is_not_line_based :
  let body := JS.lit "title: 'Example" in
  let document := Examples.doc ["---"; "title: 'Example"; "---"; "## Role / Identity"]%string in
  Loader.extractFrontmatter document = Some body
  /\ Loader.parseFrontmatter Examples.yaml_throws body = JS.JNull
  /\ Types.frontmatter
       (Loader.loadTemplate Examples.yaml_throws Examples.basename_posix
          (JS.lit "templates/example.md") document) = JS.JNull
  /\ ValidateYaml.parseFrontmatter Examples.yaml_throws body
     = JS.JObj [(JS.lit "title", JS.JStr (JS.lit "Example"))]
  /\ Loader.parseFrontmatter
       (fun _ => JS.Ok (JS.JObj [(JS.lit "deprecated", JS.JBool false)]))
       (JS.lit "deprecated: false")
     = JS.JObj [(JS.lit "deprecated", JS.JBool false)]
  /\ ValidateYaml.basic_parse (JS.lit "deprecated: false")
     = JS.JObj [(JS.lit "deprecated", JS.JStr (JS.lit "false"))].
Proof. cbv zeta. repeat split; reflexivity. Qed.

(* ------------------------------------------------------------------------ *)
(** ** More on frontmatter extraction                                        *)
(* ------------------------------------------------------------------------ *)

Section ExtractionShape.
Import JS.

Lemma closing_here_iff (s : str) :
  Loader.closing_here s = true <-> Spec.closing_delimiter s.
Proof.
  split.
  - apply closing_here_sound.
  - intros (ws & rest & -> & Hws). apply closing_here_complete. exact Hws.
Qed.

(** The lazy group stops at the first place where the closing delimiter
    matches. *)
Lemma lazy_body_first (s body : str) :
  Loader.lazy_body s = Some body ->
  exists tail,
    s = body ++ tail /\ Loader.closing_here tail = true
    /\ forall pre suf, body = pre ++ suf -> suf <> [] ->
                       Loader.closing_here (suf ++ tail) = false.
Proof.
  revert body. induction s as [|c s IH]; intros body H.
  - simpl in H. discriminate.
  - cbn [Loader.lazy_body] in H.
    destruct (Loader.closing_here (c :: s)) eqn:E.
    + injection H as <-. exists (c :: s). split; [reflexivity|]. split; [exact E|].
      intros pre suf Hb Hne. destruct pre; [|discriminate].
      simpl in Hb. subst suf. contradiction.
    + destruct (Loader.lazy_body s) as [b|] eqn:Eb; [|discriminate].
      injection H as <-. destruct (IH b eq_refl) as (tail & -> & Ht & Hmin).
      exists tail. split; [reflexivity|]. split; [exact Ht|].
      intros pre suf Hb Hne. destruct pre as [|x pre].
      * simpl in Hb. subst suf. exact E.
      * injection Hb as _ Hb. exact (Hmin pre suf Hb Hne).
Qed.

Lemma first_some_app (A B : Type) (f : A -> option B) (l1 l2 : list A) :
  Loader.first_some f (l1 ++ l2)
  = match Loader.first_some f l1 with
    | Some y => Some y
    | None => Loader.first_some f l2
    end.
Proof.
  induction l1 as [|x l1 IH]; cbn [app Loader.first_some]; [reflexivity|].
  destruct (f x); [reflexivity|exact IH].
Qed.

Lemma first_some_none (A B : Type) (f : A -> option B) (l : list A) (x : A) :
  Loader.first_some f l = None -> In x l -> f x = None.
Proof.
  induction l as [|x' l IH]; cbn [Loader.first_some]; [intros _ []|].
  destruct (f x') eqn:E; [discriminate|].
  intros H [<-|Hin]; [exact E|exact (IH H Hin)].
Qed.

(** The lazy group fails only when no closing delimiter follows anywhere. *)
Lemma lazy_body_none (s : str) :
  Loader.lazy_body s = None ->
  forall before after, s = before ++ after -> Loader.closing_here after = false.
Proof.
  induction s as [|c s IH]; intros H before after E.
  - destruct before; [|discriminate]. cbn in E. subst after. reflexivity.
  - cbn [Loader.lazy_body] in H.
    destruct (Loader.closing_here (c :: s)) eqn:Ec; [discriminate|].
    destruct (Loader.lazy_body s) eqn:El; [discriminate|].
    destruct before as [|b before]; cbn [app] in E.
    + subst after. exact Ec.
    + injection E as _ E. exact (IH eq_refl before after E).
Qed.

(** The opening [\s*\n] is greedy: the matcher settles for a run of white
    space only when every longer one leaves a rest on which what follows
    fails. *)
Lemma first_some_greedy (B : Type) (f : str -> option B) (r : str) (y : B) :
  Loader.first_some f (Loader.after_spaces_newline r) = Some y ->
  exists ws x,
    r = ws ++ LF :: x /\ Spec.all_spaces ws /\ f x = Some y
    /\ forall ws' x', r = ws' ++ LF :: x' -> Spec.all_spaces ws' ->
                      List.length ws < List.length ws' -> f x' = None.
Proof.
  induction r as [|c r IH]; [discriminate|].
  cbn [Loader.after_spaces_newline]. rewrite first_some_app.
  destruct (Loader.first_some f (if is_space c then Loader.after_spaces_newline r else []))
    as [y0|] eqn:E1.
  - intro H. injection H as ->.
    destruct (is_space c) eqn:Hc; [|discriminate E1].
    destruct (IH E1) as (ws & x & -> & Hws & Hx & Hmax).
    exists (c :: ws), x. split; [reflexivity|]. split; [constructor; assumption|].
    split; [exact Hx|].
    intros ws' x' E Hws' Hlen. destruct ws' as [|c' ws']; [cbn in Hlen; lia|].
    cbn [app] in E. injection E as _ E. inversion Hws'; subst.
    apply (Hmax ws' x' E); [assumption|cbn in Hlen; lia].
  - destruct (char_eqb c LF) eqn:Hc; [|discriminate].
    cbn [Loader.first_some]. destruct (f r) as [y1|] eqn:Hr; [|discriminate].
    intro H. injection H as ->. apply char_eqb_eq in Hc. subst c.
    exists [], r. split; [reflexivity|]. split; [constructor|]. split; [exact Hr|].
    intros ws' x' E Hws' Hlen. destruct ws' as [|c' ws']; [cbn in Hlen; lia|].
    cbn [app] in E. injection E as <- E. inversion Hws' as [|? ? Hc' Hrest]; subst.
    rewrite Hc' in E1.
    apply (first_some_none _ _ f _ x' E1).
    apply after_spaces_newline_complete. exact Hrest.
Qed.

End ExtractionShape.

(** X1.  [extractFrontmatter] returns a body exactly for the documents of the
    shape of its regular expression (three dashes, white space, a line break,
    the body, a line break, three dashes, white space, a line break), and the
    body it returns is one for which the document has that shape. *)
Theorem extractFrontmatter_matches_exactly_the_shape (content : JS.str) :
  (Loader.extractFrontmatter content <> None
   <-> exists body, Spec.frontmatter_shape content body)
  /\ (forall body, Loader.extractFrontmatter content = Some body ->
                   Spec.frontmatter_shape content body).
Proof.
  split; [split|].
  - intro H. destruct (Loader.extractFrontmatter content) as [body|] eqn:E;
      [|contradiction].
    exists body. apply extractFrontmatter_sound. exact E.
  - intros [body H]. exact (extractFrontmatter_complete content body H).
  - intros body. apply extractFrontmatter_sound.
Qed.

(** X2.  Which match [extractFrontmatter] returns.  The opening takes the
    longest run of white space, ending in a line break, after which a
    closing delimiter still follows somewhere; the body starts there and
    ends at the first closing delimiter after that point, so no closing
    delimiter starts inside the body.  When white space follows the opening
    line, the body can therefore start after it and hold a line of three
    dashes. *)
Theorem extractFrontmatter_longest_opening_shortest_body (content body : JS.str) :
  Loader.extractFrontmatter content = Some body ->
  exists ws1 tail,
    content = JS.lit "---" ++ ws1 ++ [JS.LF] ++ body ++ tail
    /\ Spec.all_spaces ws1
    /\ Spec.closing_delimiter tail
    /\ (forall pre suf, body = pre ++ suf -> suf <> [] ->
                        ~ Spec.closing_delimiter (suf ++ tail))
    /\ (forall ws1' rest',
          content = JS.lit "---" ++ ws1' ++ [JS.LF] ++ rest' ->
          Spec.all_spaces ws1' ->
          List.length ws1 < List.length ws1' ->
          forall before after, rest' = before ++ after ->
                               ~ Spec.closing_delimiter after).
Proof.
  unfold Loader.extractFrontmatter.
  destruct content as [|c0 [|c1 [|c2 r]]]; try discriminate.
  destruct (JS.char_eqb c0 JS.DASH && JS.char_eqb c1 JS.DASH && JS.char_eqb c2 JS.DASH)
    eqn:E; [|discriminate].
  repeat (apply andb_true_iff in E; destruct E as [E ?]).
  repeat match goal with E : JS.char_eqb _ _ = true |- _ => apply char_eqb_eq in E end.
  subst. intro H.
  destruct (first_some_greedy _ _ _ _ H) as (ws1 & x & -> & Hws1 & Hx & Hmax).
  destruct (lazy_body_first _ _ Hx) as (tail & -> & Ht & Hmin).
  exists ws1, tail. split; [reflexivity|]. split; [exact Hws1|].
  split; [apply closing_here_iff; exact Ht|]. split.
  - intros pre suf Hb Hne Hc. apply closing_here_iff in Hc.
    rewrite (Hmin pre suf Hb Hne) in Hc. discriminate.
  - intros ws1' rest' Hcontent Hws1' Hlen before after Hrest Hc.
    apply closing_here_iff in Hc.
    change (JS.lit "---") with [JS.DASH; JS.DASH; JS.DASH] in Hcontent.
    cbn [app] in Hcontent. injection Hcontent as Hcontent.
    pose proof (Hmax ws1' rest' Hcontent Hws1' Hlen) as Hnone.
    rewrite (lazy_body_none rest' Hnone before after Hrest) in Hc. discriminate.
Qed.

(** X2, at a document with an empty line after the opening line: the body
    starts after the empty line and holds the second line of dashes. *)
Lemma extractFrontmatter_longest_opening_shortest_body_witness :
  exists ws1 tail,
    JS.lit "---" ++ [JS.LF; JS.LF] ++ Examples.doc ["---"; "x"; "---"; "rest"]%string
    = JS.lit "---" ++ ws1 ++ [JS.LF] ++ Examples.doc ["---"; "x"]%string ++ tail
    /\ Spec.all_spaces ws1
    /\ Spec.closing_delimiter tail
    /\ (forall pre suf, Examples.doc ["---"; "x"]%string = pre ++ suf -> suf <> [] ->
                        ~ Spec.closing_delimiter (suf ++ tail))
    /\ (forall ws1' rest',
          JS.lit "---" ++ [JS.LF; JS.LF] ++ Examples.doc ["---"; "x"; "---"; "rest"]%string
          = JS.lit "---" ++ ws1' ++ [JS.LF] ++ rest' ->
          Spec.all_spaces ws1' ->
          List.length ws1 < List.length ws1' ->
          forall before after, rest' = before ++ after ->
                               ~ Spec.closing_delimiter after).
Proof.
  apply extractFrontmatter_longest_opening_shortest_body. reflexivity.
Defined.

(* ------------------------------------------------------------------------ *)
(** ** More on the structure check                                           *)
(* ------------------------------------------------------------------------ *)

Section StructureCheckMore.
Import JS.

Lemma hash_only_matches_hash (b : char) : ci_eqb 35%N b = true -> b = 35%N.
Proof.
  unfold ci_eqb, canonicalize. intro H. apply char_eqb_eq in H.
  destruct (N.leb_spec0 97 b); destruct (N.leb_spec0 b 122); simpl in H; lia.
Qed.

Lemma test_marker (q : Loader.pattern) (s : str) :
  Loader.test (Loader.Lit "##" :: Loader.Spaces1 :: q) s = true ->
  exists c rest, s = 35%N :: 35%N :: c :: rest /\ is_space c = true.
Proof.
  intro H. cbn [Loader.test] in H.
  destruct (Loader.eat (lit "##") s) as [s1|] eqn:E; [|discriminate].
  change (lit "##") with [35%N; 35%N] in E.
  destruct (eat_cons_inv _ _ _ _ E) as (b1 & s' & -> & H1 & E').
  destruct (eat_cons_inv _ _ _ _ E') as (b2 & s'' & -> & H2 & E'').
  simpl in E''. assert (s'' = s1) by (destruct s''; congruence). subst s''.
  apply hash_only_matches_hash in H1, H2. subst b1 b2.
  destruct s1 as [|c r0]; [discriminate|].
  apply andb_true_iff in H. destruct H as [Hc _].
  exists c, r0. split; [reflexivity|exact Hc].
Qed.

(** Text accepted by a heading expression stays accepted when more text
    follows. *)
Lemma test_extend (p : Loader.pattern) (s more : str) :
  Loader.test p s = true -> Loader.test p (s ++ more) = true.
Proof.
  intro H. destruct (test_sound p s H) as (body & rest & -> & Hb).
  rewrite <- app_assoc. apply test_complete. exact Hb.
Qed.

Lemma dropWhile_app_stop (A : Type) (f : A -> bool) (l more : list A) :
  dropWhile f l <> [] -> dropWhile f (l ++ more) = dropWhile f l ++ more.
Proof.
  induction l as [|x l IH]; simpl; intro H; [contradiction|].
  destruct (f x); [exact (IH H)|reflexivity].
Qed.

Lemma dropWhile_app_all (A : Type) (f : A -> bool) (l more : list A) :
  dropWhile f l = [] -> dropWhile f (l ++ more) = dropWhile f more.
Proof.
  induction l as [|x l IH]; simpl; intro H; [reflexivity|].
  destruct (f x); [exact (IH H)|discriminate].
Qed.

Lemma trimEnd_tail (s : str) : exists tail, s = trimEnd s ++ tail.
Proof.
  assert (H : forall l : str, exists tail, rev l = rev (dropWhile is_space l) ++ tail).
  { induction l as [|c l IH]; simpl; [exists []; reflexivity|].
    destruct (is_space c).
    - destruct IH as [tail IH]. exists (tail ++ [c]).
      rewrite app_assoc, <- IH. reflexivity.
    - exists []. rewrite app_nil_r. reflexivity. }
  destruct (H (rev s)) as [tail Ht]. rewrite rev_involutive in Ht.
  exists tail. exact Ht.
Qed.

Lemma trimEnd_prefix (s more : str) :
  trimEnd s <> [] -> exists extra, trimEnd (s ++ more) = trimEnd s ++ extra.
Proof.
  intro H. unfold trimEnd at 1. rewrite rev_app_distr.
  destruct (dropWhile is_space (rev more)) as [|x xs] eqn:E.
  - rewrite (dropWhile_app_all _ _ _ _ E). exists []. rewrite app_nil_r. reflexivity.
  - rewrite dropWhile_app_stop by (rewrite E; discriminate).
    rewrite E, rev_app_distr, rev_involutive.
    destruct (trimEnd_tail s) as [tail Hs].
    exists (tail ++ rev (x :: xs)). rewrite app_assoc, <- Hs. reflexivity.
Qed.

Lemma trim_prefix (line more : str) :
  trim line <> [] -> exists extra, trim (line ++ more) = trim line ++ extra.
Proof.
  unfold trim, trimStart. intro H.
  assert (Hs : dropWhile is_space line <> []).
  { intro E. rewrite E in H. apply H. reflexivity. }
  rewrite (dropWhile_app_stop _ _ _ _ Hs).
  apply trimEnd_prefix. exact H.
Qed.

Lemma forEach_found_spec (found : list bool) :
  forall (index : nat) (acc : list str),
    index + List.length found <= List.length CheckSections.REQUIRED_SECTIONS ->
    CheckSections.forEach_found found index acc
    = acc ++ map lit
               (map fst
                  (filter (fun nb => negb (snd nb))
                          (combine (skipn index CheckSections.REQUIRED_SECTIONS) found))).
Proof.
  induction found as [|b found IH]; intros index acc Hlen.
  - simpl. rewrite combine_nil, app_nil_r. reflexivity.
  - cbn [CheckSections.forEach_found]. cbn [List.length] in Hlen.
    rewrite IH by lia.
    assert (Hs : skipn index CheckSections.REQUIRED_SECTIONS
                 = nth index CheckSections.REQUIRED_SECTIONS "undefined"%string
                   :: skipn (S index) CheckSections.REQUIRED_SECTIONS).
    { clear - Hlen. revert index Hlen.
      generalize CheckSections.REQUIRED_SECTIONS. intro l.
      induction l as [|x l IHl]; intros index Hlen; simpl in Hlen; [lia|].
      destruct index as [|index]; [reflexivity|].
      cbn [skipn nth]. apply IHl. lia. }
    rewrite Hs. cbn [combine filter snd].
    destruct b; cbn [negb map fst]; [reflexivity|].
    rewrite <- app_assoc. reflexivity.
Qed.

Lemma filter_combine_map (A B : Type) (f : B -> bool) (names : list A) :
  forall ps : list B,
    map fst (filter (fun nb => negb (snd nb)) (combine names (map f ps)))
    = map fst (filter (fun np => negb (f (snd np))) (combine names ps)).
Proof.
  induction names as [|n names IH]; intros [|p ps]; simpl; try reflexivity.
  destruct (f p); simpl; rewrite IH; reflexivity.
Qed.

Lemma no_missing_iff_all_found (A B : Type) (f : B -> bool) (names : list A) :
  forall ps : list B,
    List.length names = List.length ps ->
    filter (fun np => negb (f (snd np))) (combine names ps) = []
    <-> forallb f ps = true.
Proof.
  induction names as [|n names IH]; intros [|p ps] Hlen; try discriminate.
  - simpl. split; reflexivity.
  - injection Hlen as Hlen. simpl. destruct (f p); simpl.
    + apply IH. exact Hlen.
    + split; discriminate.
Qed.

Lemma heading_marker_nonempty (p : Loader.pattern) (line : str) :
  In p Loader.REQUIRED_SECTIONS -> Spec.is_heading p line = true -> trim line <> [].
Proof.
  intros Hp H. unfold Spec.is_heading in H.
  repeat (destruct Hp as [<-|Hp];
          [destruct (test_marker _ _ H) as (c & rest & -> & _); discriminate|]).
  destruct Hp.
Qed.

End StructureCheckMore.

(** X3.  [hasValidStructure] holds exactly for the documents that have, for
    each of the five heading expressions, a line which starts, once trimmed,
    with a spelling of that heading (any letter case, any white space where
    the expression allows it). *)
Theorem hasValidStructure_iff_every_heading_has_a_line (content : JS.str) :
  Loader.hasValidStructure content = true
  <-> forall p, In p Loader.REQUIRED_SECTIONS ->
                exists line, In line (Spec.lines content) /\ Spec.heading_variant p line.
Proof.
  rewrite hasValidStructure_spec, forallb_forall. split.
  - intros H p Hp. specialize (H p Hp). apply existsb_exists in H.
    destruct H as (line & Hin & Hl). exists line. split; [exact Hin|].
    apply is_heading_iff. exact Hl.
  - intros H p Hp. destruct (H p Hp) as (line & Hin & Hl).
    apply existsb_exists. exists line. split; [exact Hin|].
    apply is_heading_iff. exact Hl.
Qed.

(** X4.  The section-check script and the loader agree on every document:
    the script's [valid] is [hasValidStructure], and its [missingSections]
    are, in the order of the list of required sections, the names of exactly
    the headings for which no line of the document matches. *)
Theorem check_sections_agrees_with_loader (content : JS.str) :
  CheckSections.valid (CheckSections.validateTemplate content)
  = Loader.hasValidStructure content
  /\ CheckSections.missingSections (CheckSections.validateTemplate content)
     = map JS.lit
         (map fst
            (filter (fun np => negb (existsb (Spec.is_heading (snd np))
                                             (Spec.lines content)))
                    (combine CheckSections.REQUIRED_SECTIONS
                             CheckSections.SECTION_PATTERNS)))
  /\ (CheckSections.missingSections (CheckSections.validateTemplate content) = []
      <-> Loader.hasValidStructure content = true).
Proof.
  set (f := fun p => existsb (Spec.is_heading p) (Spec.lines content)).
  assert (Hm : CheckSections.missingSections (CheckSections.validateTemplate content)
               = map JS.lit
                   (map fst
                      (filter (fun np => negb (f (snd np)))
                              (combine CheckSections.REQUIRED_SECTIONS
                                       CheckSections.SECTION_PATTERNS)))).
  { unfold CheckSections.validateTemplate. cbn [CheckSections.missingSections].
    rewrite foundSections_spec. fold f.
    rewrite (forEach_found_spec (map f CheckSections.SECTION_PATTERNS) 0 [])
      by (rewrite length_map; simpl; lia).
    cbn [app skipn]. rewrite (filter_combine_map _ _ f). reflexivity. }
  assert (Hiff : CheckSections.missingSections (CheckSections.validateTemplate content) = []
                 <-> Loader.hasValidStructure content = true).
  { rewrite Hm, hasValidStructure_spec. fold f.
    change Loader.REQUIRED_SECTIONS with CheckSections.SECTION_PATTERNS.
    split.
    - intro H. apply map_eq_nil in H. apply map_eq_nil in H.
      apply (no_missing_iff_all_found _ _ f CheckSections.REQUIRED_SECTIONS
               CheckSections.SECTION_PATTERNS eq_refl). exact H.
    - intro H.
      apply (no_missing_iff_all_found _ _ f CheckSections.REQUIRED_SECTIONS
               CheckSections.SECTION_PATTERNS eq_refl) in H.
      rewrite H. reflexivity. }
  split; [|split; [exact Hm|exact Hiff]].
  assert (Hv : CheckSections.valid (CheckSections.validateTemplate content)
               = match CheckSections.missingSections
                         (CheckSections.validateTemplate content) with
                 | [] => true
                 | _ :: _ => false
                 end) by reflexivity.
  rewrite Hv.
  destruct (CheckSections.missingSections (CheckSections.validateTemplate content)) eqn:E.
  - symmetry. apply Hiff. reflexivity.
  - destruct (Loader.hasValidStructure content); [|reflexivity].
    destruct Hiff as [_ Hiff]. specialize (Hiff eq_refl). discriminate.
Qed.

(** X5.  Joining two documents with a line break ors their heading flags:
    the flags of the joined text are, heading by heading, the disjunction of
    the flags of the two parts.  So text put before or after a structurally
    valid document never makes it invalid. *)
Theorem foundSections_of_joined_documents (patterns : list Loader.pattern) (a b : JS.str) :
  Loader.foundSections patterns (a ++ [JS.LF] ++ b)
  = map (fun xy => fst xy || snd xy)
        (combine (Loader.foundSections patterns a) (Loader.foundSections patterns b))
  /\ (Loader.hasValidStructure a = true \/ Loader.hasValidStructure b = true ->
      Loader.hasValidStructure (a ++ [JS.LF] ++ b) = true).
Proof.
  assert (Hl : Spec.lines (a ++ [JS.LF] ++ b) = Spec.lines a ++ Spec.lines b).
  { unfold Spec.lines. cbn [app]. apply split_app_sep. }
  split.
  - rewrite !foundSections_spec, Hl.
    induction patterns as [|p ps IH]; cbn [map combine]; [reflexivity|].
    rewrite IH, existsb_app. reflexivity.
  - rewrite !hasValidStructure_spec, Hl, !forallb_forall.
    intros [H|H] p Hp; rewrite existsb_app, (H p Hp);
      [reflexivity|apply orb_true_r].
Qed.

(** X6.  A line counts as a required heading only if, once trimmed, it starts
    with exactly two hash signs followed by a white-space character: headings
    of another level and headings with no space after the marker never
    count. *)
Theorem heading_lines_start_with_two_hashes_and_a_space
    (p : Loader.pattern) (line : JS.str) :
  In p Loader.REQUIRED_SECTIONS ->
  Spec.is_heading p line = true ->
  exists c rest,
    JS.trim line = 35%N :: 35%N :: c :: rest /\ JS.is_space c = true.
Proof.
  intros Hp H. unfold Spec.is_heading in H.
  repeat (destruct Hp as [<-|Hp]; [exact (test_marker _ _ H)|]).
  destruct Hp.
Qed.

(** X6, at an indented heading in capitals. *)
Lemma heading_lines_start_with_two_hashes_and_a_space_witness :
  exists c rest,
    JS.trim (JS.lit "   ## PROJECT LAYOUT") = 35%N :: 35%N :: c :: rest
    /\ JS.is_space c = true.
Proof.
  apply (heading_lines_start_with_two_hashes_and_a_space Examples.project_layout).
  - right. right. left. reflexivity.
  - reflexivity.
Defined.

(** X7.  What follows a heading on its line does not matter: a line that
    counts as a required heading still counts when any text is appended to
    it. *)
Theorem heading_line_with_text_appended (p : Loader.pattern) (line more : JS.str) :
  In p Loader.REQUIRED_SECTIONS ->
  Spec.is_heading p line = true ->
  Spec.is_heading p (line ++ more) = true.
Proof.
  intros Hp H.
  pose proof (heading_marker_nonempty p line Hp H) as Hne.
  unfold Spec.is_heading in *.
  destruct (trim_prefix line more Hne) as [extra ->].
  apply test_extend. exact H.
Qed.

(** X7, at a heading followed by a remark. *)
Lemma heading_line_with_text_appended_witness :
  Spec.is_heading Examples.coding_standards
    (JS.lit "## Coding Standards" ++ JS.lit " (draft)  ") = true.
Proof.
  apply heading_line_with_text_appended.
  - right. right. right. left. reflexivity.
  - reflexivity.
Defined.

(* ------------------------------------------------------------------------ *)
(** ** More on the validator                                                 *)
(* ------------------------------------------------------------------------ *)

Section ValidatorMore.
Import JS.

Ltac field_cases fm name choices :=
  let H := fresh "H" in
  destruct (literals_include choices (get fm name)) eqn:H;
  [ rewrite (literals_include_truthy choices (get fm name) eq_refl H)
  | destruct (truthy (get fm name)) ].

Ltac tags_cases fm :=
  destruct (get fm "tags") as [| |[|]|n|[|c s]|[|x xs]|fields];
  cbn [truthy isArray];
  try match goal with |- context [Z.eqb ?n 0] => destruct (Z.eqb n 0) end.

(** The errors of [validateFrontmatter] are empty exactly when the four
    required fields are right. *)
Lemma validateFrontmatter_errors_nil (fm : JsValue) :
  truthy fm = true ->
  (Types.errors (Validator.validateFrontmatter fm) = []
   <-> Spec.required_fields_ok fm = true).
Proof.
  intro Hfm. unfold Validator.validateFrontmatter, Spec.required_fields_ok.
  rewrite Hfm. cbn [negb].
  destruct (truthy (get fm "title"));
    field_cases fm "category"%string Validator.VALID_CATEGORIES;
    field_cases fm "difficulty"%string Validator.VALID_DIFFICULTIES;
    tags_cases fm;
    cbn [negb andb truthy isArray Validator.push_if app Types.errors];
    split; intro Hgoal;
    first [reflexivity | discriminate Hgoal | (destruct (_ ++ _); discriminate Hgoal)].
Qed.

(** Its warnings are empty exactly when no field deserves one. *)
Lemma validateFrontmatter_warnings_nil (fm : JsValue) :
  truthy fm = true ->
  (Types.warnings (Validator.validateFrontmatter fm) = []
   <-> Spec.no_warning_fields fm = true).
Proof.
  intro Hfm. unfold Validator.validateFrontmatter, Spec.no_warning_fields.
  rewrite Hfm. cbn [negb].
  destruct (truthy (get fm "requires")); destruct (isArray (get fm "requires"));
    destruct (truthy (get fm "combinableWith"));
    destruct (isArray (get fm "combinableWith"));
    tags_cases fm;
    cbn [negb andb orb truthy isArray Validator.push_if app Types.warnings];
    split; intro H; first [reflexivity | discriminate H].
Qed.

Lemma validateFrontmatter_valid_flag (fm : JsValue) :
  Types.valid (Validator.validateFrontmatter fm) = true
  <-> Types.errors (Validator.validateFrontmatter fm) = [].
Proof.
  unfold Validator.validateFrontmatter.
  destruct (truthy fm); cbn [negb]; [|split; reflexivity].
  tags_cases fm; cbn [negb truthy isArray Types.valid Types.errors];
    match goal with
    | |- context [match ?l with [] => true | _ :: _ => false end] => destruct l
    end; split; intro H; first [reflexivity | discriminate H].
Qed.

Lemma validateFrontmatter_absent (fm : JsValue) :
  truthy fm = false ->
  Validator.validateFrontmatter fm
  = {| Types.valid := true;
       Types.errors := [];
       Types.warnings := [lit "No frontmatter found (will be added in Phase 4)"] |}.
Proof. intro H. unfold Validator.validateFrontmatter. rewrite H. reflexivity. Qed.

Lemma bool_iff_eq (a b : bool) : (a = true <-> b = true) -> a = b.
Proof. destruct a, b; intros [H1 H2]; auto; symmetry; auto. Qed.

End ValidatorMore.

(** X8.  [validateFrontmatter] accepts (valid, no error) exactly the absent
    metadata and the metadata whose title is present, whose category and
    difficulty are among the allowed values and whose tags are an array;
    warnings never make it invalid. *)
Theorem validateFrontmatter_valid_exactly (fm : JS.JsValue) :
  Types.valid (Validator.validateFrontmatter fm)
  = negb (JS.truthy fm) || Spec.required_fields_ok fm.
Proof.
  destruct (JS.truthy fm) eqn:Hfm; cbn [negb orb].
  - apply bool_iff_eq.
    rewrite validateFrontmatter_valid_flag.
    apply validateFrontmatter_errors_nil. exact Hfm.
  - rewrite (validateFrontmatter_absent fm Hfm). reflexivity.
Qed.

(** X9.  [validateTemplate] in normal mode is valid exactly when
    [validateFrontmatter] accepts the metadata and the record is structurally
    valid; in strict mode exactly when, moreover, the metadata is present and
    deserves no warning (tags not empty, optional lists being lists).  In
    particular a record without metadata is never valid in strict mode. *)
Theorem validateTemplate_valid_exactly (t : Types.Template) :
  Types.valid (Validator.validateTemplate t false)
  = (negb (JS.truthy (Types.frontmatter t))
     || Spec.required_fields_ok (Types.frontmatter t))
    && Types.hasValidStructure t
  /\ Types.valid (Validator.validateTemplate t true)
     = JS.truthy (Types.frontmatter t)
       && Spec.required_fields_ok (Types.frontmatter t)
       && Spec.no_warning_fields (Types.frontmatter t)
       && Types.hasValidStructure t.
Proof.
  rewrite <- validateFrontmatter_valid_exactly.
  pose proof (validateFrontmatter_valid_flag (Types.frontmatter t)) as Hflag.
  destruct (JS.truthy (Types.frontmatter t)) eqn:Hfm.
  - pose proof (validateFrontmatter_errors_nil _ Hfm) as He.
    pose proof (validateFrontmatter_warnings_nil _ Hfm) as Hw.
    unfold Validator.validateTemplate, Validator.validateStructure.
    destruct (Types.valid (Validator.validateFrontmatter (Types.frontmatter t)));
      destruct (Spec.required_fields_ok (Types.frontmatter t));
      destruct (Spec.no_warning_fields (Types.frontmatter t));
      destruct (Types.hasValidStructure t);
      destruct (Types.errors (Validator.validateFrontmatter (Types.frontmatter t)));
      destruct (Types.warnings (Validator.validateFrontmatter (Types.frontmatter t)));
      cbn [negb andb app Types.valid];
      try (split; reflexivity);
      exfalso;
      repeat match goal with
             | H : _ <-> _ |- _ => destruct H
             end;
      repeat match goal with
             | H : ?a = ?a -> _ |- _ => specialize (H eq_refl)
             end;
      congruence.
  - rewrite (validateFrontmatter_absent _ Hfm).
    unfold Validator.validateTemplate, Validator.validateStructure.
    rewrite (validateFrontmatter_absent _ Hfm).
    destruct (Types.hasValidStructure t); split; reflexivity.
Qed.

(** X10.  A file with no frontmatter block, with an empty one, or with one
    that js-yaml rejects is validated like a file without metadata: in normal
    mode its only frontmatter finding is the warning that no frontmatter was
    found, and it is valid exactly when its structure is; in strict mode it
    is always invalid. *)
Theorem validateTemplate_without_usable_frontmatter
    (yaml_load : JS.str -> JS.result JS.JsValue) (basename : JS.str -> JS.str)
    (filePath content : JS.str) :
  (Loader.extractFrontmatter content = None
   \/ Loader.extractFrontmatter content = Some []
   \/ exists body e, Loader.extractFrontmatter content = Some body
                     /\ yaml_load body = JS.Throw e) ->
  let t := Loader.loadTemplate yaml_load basename filePath content in
  JS.truthy (Types.frontmatter t) = false
  /\ Validator.validateTemplate t false
     = {| Types.valid := Loader.hasValidStructure content;
          Types.errors :=
            if Loader.hasValidStructure content then []
            else [JS.lit "Missing one or more required sections"];
          Types.warnings :=
            JS.lit "No frontmatter found (will be added in Phase 4)"
            :: (if Loader.hasValidStructure content then []
                else [JS.lit "Required sections: Role/Identity, Context & Tech Stack, Project Layout, Coding Standards, Workflow & Commands"]) |}
  /\ Types.valid (Validator.validateTemplate t true) = false
  /\ In (JS.lit "No frontmatter found (will be added in Phase 4)")
        (Types.errors (Validator.validateTemplate t true)).
Proof.
  intros H t.
  assert (Hfm : JS.truthy (Types.frontmatter t) = false).
  { subst t. unfold Loader.loadTemplate. cbn [Types.frontmatter].
    destruct H as [->|[->|(body & e & -> & Hy)]]; try reflexivity.
    destruct body as [|c body]; [reflexivity|].
    unfold Loader.parseFrontmatter. rewrite Hy. reflexivity. }
  split; [exact Hfm|].
  unfold Validator.validateTemplate, Validator.validateStructure.
  rewrite (validateFrontmatter_absent _ Hfm).
  subst t. unfold Loader.loadTemplate. cbn [Types.hasValidStructure].
  destruct (Loader.hasValidStructure content); repeat split; try reflexivity;
    first [left; reflexivity | right; left; reflexivity].
Qed.

(** X10, at a file whose frontmatter block is an unclosed quoted scalar. *)
Lemma validateTemplate_without_usable_frontmatter_witness :
  Spec.classify
    (Validator.validateTemplate
       (Loader.loadTemplate Examples.yaml_throws Examples.basename_posix
          (JS.lit "templates/example.md")
          (Examples.doc ["---"; "title: 'Example"; "---"; "## Role / Identity"]%string))
       true)
  = Spec.Invalid.
Proof.
  destruct (validateTemplate_without_usable_frontmatter
              Examples.yaml_throws Examples.basename_posix
              (JS.lit "templates/example.md")
              (Examples.doc ["---"; "title: 'Example"; "---"; "## Role / Identity"]%string))
    as (_ & _ & _ & Hin).
  - right. right. exists (JS.lit "title: 'Example"), JS.YAMLException.
    split; reflexivity.
  - unfold Spec.classify.
    destruct (Types.errors _) as [|e es]; [destruct Hin|reflexivity].
Defined.


(* ------------------------------------------------------------------------ *)
(** ** More on filtering                                                     *)
(* ------------------------------------------------------------------------ *)

Section FilteringMore.
Import JS.

Lemma filter_filter_comm (A : Type) (f g : A -> bool) (l : list A) :
  filter g (filter f l) = filter f (filter g l).
Proof.
  induction l as [|x l IH]; simpl; [reflexivity|].
  destruct (f x) eqn:Ef, (g x) eqn:Eg; simpl; rewrite ?Ef, ?Eg, IH; reflexivity.
Qed.

Lemma filter_idempotent (A : Type) (f : A -> bool) (l : list A) :
  filter f (filter f l) = filter f l.
Proof.
  induction l as [|x l IH]; simpl; [reflexivity|].
  destruct (f x) eqn:Ef; simpl; rewrite ?Ef, IH; reflexivity.
Qed.

Lemma tags_are_lists_filter (f : Types.Template -> bool) (ts : list Types.Template) :
  Spec.tags_are_lists ts -> Spec.tags_are_lists (filter f ts).
Proof.
  unfold Spec.tags_are_lists. rewrite !Forall_forall.
  intros H t Ht. apply filter_In in Ht. destruct Ht as [Ht _]. exact (H t Ht).
Qed.

Lemma filterTemplates_on_lists (ts : list Types.Template) (f : Loader.Filters) :
  Spec.tags_are_lists ts ->
  Loader.filterTemplates ts f = Ok (filter (Spec.selects f) ts).
Proof.
  intro Hshape. unfold Loader.filterTemplates. apply filter_with_total.
  eapply Forall_impl; [|exact Hshape].
  intros t Ht. apply keeps_selects. exact Ht.
Qed.

(** The callback throws nothing but a [TypeError]. *)
Lemma keeps_throws_TypeError (f : Loader.Filters) (t : Types.Template) (e : Exn) :
  Loader.keeps f t = Throw e -> e = TypeError.
Proof.
  unfold Loader.keeps.
  destruct (truthy (Types.frontmatter t)); cbn [negb]; [|discriminate].
  destruct (match Loader.supplied (Loader.category f) with
            | Some c => negb (is_string (get (Types.frontmatter t) "category") c)
            | None => false
            end); [discriminate|].
  destruct (Loader.supplied (Loader.tag f)) as [g|].
  - unfold Loader.includes.
    destruct (get (Types.frontmatter t) "tags"); cbn [bind];
      try (intro H; injection H as <-; reflexivity);
      match goal with
      | |- context [if negb ?b then _ else _] => destruct b
      end; cbn [negb];
      try discriminate;
      destruct (match Loader.supplied (Loader.difficulty f) with
                | Some d => negb (is_string (get (Types.frontmatter t) "difficulty") d)
                | None => false
                end); discriminate.
  - cbn [bind].
    destruct (match Loader.supplied (Loader.difficulty f) with
              | Some d => negb (is_string (get (Types.frontmatter t) "difficulty") d)
              | None => false
              end); discriminate.
Qed.

Lemma filter_with_throws (A : Type) (f : A -> result bool) (e : Exn) (l : list A) (x : A) :
  (forall y e', f y = Throw e' -> e' = e) ->
  In x l -> f x = Throw e -> Loader.filter_with f l = Throw e.
Proof.
  intros Honly Hin Hx. induction l as [|y l IH]; [destruct Hin|].
  simpl. destruct (f y) as [b|e'] eqn:Ey.
  - cbn [bind]. destruct Hin as [->|Hin]; [congruence|].
    rewrite (IH Hin). reflexivity.
  - cbn [bind]. rewrite (Honly y e' Ey). reflexivity.
Qed.

Lemma startsWith_iff (p s : str) :
  startsWith p s = true <-> exists rest, s = p ++ rest.
Proof.
  revert s. induction p as [|x p IH]; intros s; simpl.
  - split; [intros _; exists s; reflexivity|reflexivity].
  - destruct s as [|y s]; [split; [discriminate|intros [rest H]; discriminate]|].
    rewrite andb_true_iff, char_eqb_eq, IH. split.
    + intros [-> [rest ->]]. exists rest. reflexivity.
    + intros [rest H]. injection H as -> ->. split; [reflexivity|exists rest; reflexivity].
Qed.

Lemma str_includes_iff (hay needle : str) :
  str_includes hay needle = true <-> Spec.substring needle hay.
Proof.
  unfold Spec.substring. induction hay as [|c hay IH]; cbn [str_includes].
  - rewrite orb_false_r, startsWith_iff. split.
    + intros [rest H]. exists [], rest. exact H.
    + intros (before & after & H). destruct before; [|discriminate].
      exists after. exact H.
  - rewrite orb_true_iff, startsWith_iff, IH. split.
    + intros [[rest H]|(before & after & H)].
      * exists [], rest. exact H.
      * exists (c :: before), after. rewrite H. reflexivity.
    + intros (before & after & H). destruct before as [|x before].
      * left. exists after. exact H.
      * right. injection H as _ H. exists before, after. exact H.
Qed.

End FilteringMore.

(** X12.  On records whose tags are lists, filtering composes: filtering a
    result again by the same criteria changes nothing, filtering by one set
    of criteria and then by another gives the same list in either order, and
    that list holds exactly the records that satisfy both sets. *)
Theorem filterTemplates_composes
    (templates : list Types.Template) (f g : Loader.Filters) :
  Spec.tags_are_lists templates ->
  exists rf rg rfg,
    Loader.filterTemplates templates f = JS.Ok rf
    /\ Loader.filterTemplates templates g = JS.Ok rg
    /\ Loader.filterTemplates rf f = JS.Ok rf
    /\ Loader.filterTemplates rf g = JS.Ok rfg
    /\ Loader.filterTemplates rg f = JS.Ok rfg
    /\ forall t, In t rfg <-> In t templates /\ Spec.meets f t /\ Spec.meets g t.
Proof.
  intro Hshape.
  exists (filter (Spec.selects f) templates), (filter (Spec.selects g) templates),
         (filter (Spec.selects g) (filter (Spec.selects f) templates)).
  split; [|split; [|split; [|split; [|split]]]].
  - apply filterTemplates_on_lists. exact Hshape.
  - apply filterTemplates_on_lists. exact Hshape.
  - rewrite filterTemplates_on_lists by (apply tags_are_lists_filter; exact Hshape).
    rewrite filter_idempotent. reflexivity.
  - apply filterTemplates_on_lists. apply tags_are_lists_filter. exact Hshape.
  - rewrite filterTemplates_on_lists by (apply tags_are_lists_filter; exact Hshape).
    rewrite filter_filter_comm. reflexivity.
  - intro t. rewrite !filter_In, !selects_iff_meets. tauto.
Qed.

(** X12, at the category and tag filters over a catalog of three records. *)
Lemma filterTemplates_composes_witness :
  exists rf rg rfg,
    Loader.filterTemplates
      [Examples.react; Examples.no_frontmatter; Examples.untagged]
      (Examples.by_category "framework") = JS.Ok rf
    /\ Loader.filterTemplates
         [Examples.react; Examples.no_frontmatter; Examples.untagged]
         (Examples.by_category_and_tag "framework" "react") = JS.Ok rg
    /\ Loader.filterTemplates rf (Examples.by_category "framework") = JS.Ok rf
    /\ Loader.filterTemplates rf (Examples.by_category_and_tag "framework" "react")
       = JS.Ok rfg
    /\ Loader.filterTemplates rg (Examples.by_category "framework") = JS.Ok rfg
    /\ forall t, In t rfg
                 <-> In t [Examples.react; Examples.no_frontmatter; Examples.untagged]
                     /\ Spec.meets (Examples.by_category "framework") t
                     /\ Spec.meets (Examples.by_category_and_tag "framework" "react") t.
Proof.
  apply filterTemplates_composes.
  repeat constructor; intro E; try reflexivity; discriminate E.
Defined.

(** X13.  A tag criterion makes [filterTemplates] throw a [TypeError] as
    soon as the catalog holds a record with metadata whose [tags] are neither
    a list nor a string (for example missing) and that the category criterion,
    if any, does not reject: no list is returned at all. *)
Theorem filterTemplates_throws_on_missing_tags
    (templates : list Types.Template) (filters : Loader.Filters)
    (t : Types.Template) (g : JS.str) :
  In t templates ->
  Loader.supplied (Loader.tag filters) = Some g ->
  Spec.has_metadata t ->
  (forall c, Loader.supplied (Loader.category filters) = Some c ->
             JS.get (Types.frontmatter t) "category" = JS.JStr c) ->
  (forall items, JS.get (Types.frontmatter t) "tags" <> JS.JArr items) ->
  (forall s, JS.get (Types.frontmatter t) "tags" <> JS.JStr s) ->
  Loader.filterTemplates templates filters = JS.Throw JS.TypeError.
Proof.
  intros Hin Hg Hm Hc Harr Hstr.
  unfold Loader.filterTemplates.
  apply (filter_with_throws _ (Loader.keeps filters) JS.TypeError templates t).
  - intros y e. apply keeps_throws_TypeError.
  - exact Hin.
  - unfold Loader.keeps. unfold Spec.has_metadata in Hm. rewrite Hm. cbn [negb].
    destruct (Loader.supplied (Loader.category filters)) as [c|].
    + rewrite (Hc c eq_refl). cbn [JS.is_string]. rewrite str_eqb_refl. cbn [negb].
      rewrite Hg. unfold Loader.includes.
      destruct (JS.get (Types.frontmatter t) "tags") as [| | | |s|items|];
        try reflexivity; [exfalso; exact (Hstr s eq_refl)|exfalso; exact (Harr items eq_refl)].
    + rewrite Hg. unfold Loader.includes.
      destruct (JS.get (Types.frontmatter t) "tags") as [| | | |s|items|];
        try reflexivity; [exfalso; exact (Hstr s eq_refl)|exfalso; exact (Harr items eq_refl)].
Qed.

(** X13, at a catalog whose second record has a title and nothing else. *)
Lemma filterTemplates_throws_on_missing_tags_witness :
  Loader.filterTemplates
    [Examples.react;
     Examples.template "bare" (JS.JObj [(JS.lit "title", JS.JStr (JS.lit "Bare"))])
                       Examples.five_headings]
    {| Loader.category := None; Loader.tag := Some (JS.lit "react");
       Loader.difficulty := None |}
  = JS.Throw JS.TypeError.
Proof.
  apply (filterTemplates_throws_on_missing_tags _ _
           (Examples.template "bare" (JS.JObj [(JS.lit "title", JS.JStr (JS.lit "Bare"))])
                              Examples.five_headings)
           (JS.lit "react")).
  - right. left. reflexivity.
  - reflexivity.
  - reflexivity.
  - intros c E. discriminate E.
  - intros items E. discriminate E.
  - intros s E. discriminate E.
Defined.

(** X14.  When the [tags] of a record are a single string instead of a list,
    a tag criterion is matched by substring: with only a tag criterion
    supplied, the record is kept exactly when the criterion occurs somewhere
    in that string. *)
Theorem filterTemplates_scalar_tags_match_by_substring
    (t : Types.Template) (filters : Loader.Filters) (g s : JS.str) :
  Spec.has_metadata t ->
  JS.get (Types.frontmatter t) "tags" = JS.JStr s ->
  Loader.supplied (Loader.category filters) = None ->
  Loader.supplied (Loader.tag filters) = Some g ->
  Loader.supplied (Loader.difficulty filters) = None ->
  (Spec.substring g s -> Loader.filterTemplates [t] filters = JS.Ok [t])
  /\ (~ Spec.substring g s -> Loader.filterTemplates [t] filters = JS.Ok []).
Proof.
  intros Hm Ht Hc Hg Hd.
  assert (H : Loader.filterTemplates [t] filters
              = JS.Ok (if JS.str_includes s g then [t] else [])).
  { unfold Loader.filterTemplates, Loader.filter_with, Loader.keeps.
    unfold Spec.has_metadata in Hm. rewrite Hm, Hc, Hg, Hd, Ht.
    cbn [negb Loader.includes JS.bind].
    destruct (JS.str_includes s g); reflexivity. }
  rewrite H. split; intro Hs.
  - apply str_includes_iff in Hs. rewrite Hs. reflexivity.
  - destruct (JS.str_includes s g) eqn:E; [|reflexivity].
    apply str_includes_iff in E. contradiction.
Qed.

(** X14, at a record tagged with the single string [frontend] and the
    criterion [front]. *)
Lemma filterTemplates_scalar_tags_match_by_substring_witness :
  let t := Examples.template "scalar"
             (JS.JObj [(JS.lit "tags", JS.JStr (JS.lit "frontend"))])
             Examples.five_headings in
  Loader.filterTemplates [t]
    {| Loader.category := None; Loader.tag := Some (JS.lit "front");
       Loader.difficulty := None |}
  = JS.Ok [t].
Proof.
  cbv zeta.
  apply (filterTemplates_scalar_tags_match_by_substring _ _
           (JS.lit "front") (JS.lit "frontend")); try reflexivity.
  exists [], (JS.lit "end"). reflexivity.
Defined.

(* ------------------------------------------------------------------------ *)
(** ** More on the identifier of a record                                    *)
(* ------------------------------------------------------------------------ *)

Section IdentifierMore.
Import JS.

Lemma replaceFirst_absent (pat rep s : str) :
  str_includes s pat = false -> replaceFirst pat rep s = s.
Proof.
  induction s as [|c s IH]; cbn [str_includes replaceFirst]; intro H.
  - apply orb_false_iff in H. destruct H as [H _]. rewrite H. reflexivity.
  - apply orb_false_iff in H. destruct H as [H1 H2]. rewrite H1, (IH H2). reflexivity.
Qed.

Lemma replaceFirst_md_stem (stem : str) :
  ~ In Spec.DOT stem -> replaceFirst (lit ".md") [] (stem ++ lit ".md") = stem.
Proof.
  induction stem as [|c stem IH]; intro H; [reflexivity|].
  cbn [app replaceFirst].
  assert (Hc : char_eqb 46%N c = false).
  { destruct (char_eqb 46%N c) eqn:E; [|reflexivity].
    apply char_eqb_eq in E. exfalso. apply H. left. symmetry. exact E. }
  change (lit ".md") with [46%N; 109%N; 100%N] at 1.
  cbn [startsWith]. rewrite Hc. cbn [andb].
  rewrite IH; [reflexivity|]. intro Hin. apply H. right. exact Hin.
Qed.

Lemma strip_md_extension_stem (stem : str) :
  Spec.strip_md_extension (stem ++ lit ".md") = stem.
Proof.
  unfold Spec.strip_md_extension.
  replace (List.length (stem ++ lit ".md") - 3) with (List.length stem + 0)
    by (rewrite length_app; simpl; lia).
  rewrite skipn_app, firstn_app.
  replace (List.length stem + 0 - List.length stem) with 0 by lia.
  rewrite skipn_all2 by lia.
  rewrite firstn_all2 by lia.
  cbn [skipn firstn app]. rewrite str_eqb_refl, app_nil_r. reflexivity.
Qed.

End IdentifierMore.

(** X15.  For a file whose name is a stem without any full stop followed by
    [.md] (the naming convention of the templates), the identifier set by
    [loadTemplate] is the stem: the extension is stripped, and appending
    [.md] to the identifier gives the file name back. *)
Theorem loadTemplate_id_of_conventional_name
    (yaml_load : JS.str -> JS.result JS.JsValue) (basename : JS.str -> JS.str)
    (filePath content stem : JS.str) :
  basename filePath = stem ++ JS.lit ".md" ->
  ~ In Spec.DOT stem ->
  let t := Loader.loadTemplate yaml_load basename filePath content in
  Types.id t = stem
  /\ Types.id t ++ JS.lit ".md" = Types.filename t
  /\ Types.id t = Spec.strip_md_extension (Types.filename t).
Proof.
  intros Hname Hdot t. subst t. unfold Loader.loadTemplate.
  cbn [Types.id Types.filename]. rewrite Hname, (replaceFirst_md_stem stem Hdot).
  split; [reflexivity|]. split; [reflexivity|].
  symmetry. apply strip_md_extension_stem.
Qed.

(** X15, at [templates/frameworks/react-tailwind.md]. *)
Lemma loadTemplate_id_of_conventional_name_witness :
  Types.id (Loader.loadTemplate Examples.yaml_throws Examples.basename_posix
              (JS.lit "templates/frameworks/react-tailwind.md") Examples.five_headings)
  = JS.lit "react-tailwind".
Proof.
  apply (loadTemplate_id_of_conventional_name
           Examples.yaml_throws Examples.basename_posix
           (JS.lit "templates/frameworks/react-tailwind.md") Examples.five_headings
           (JS.lit "react-tailwind")).
  - reflexivity.
  - vm_compute. intros H.
    repeat (destruct H as [H|H]; [discriminate H|]). destruct H.
Defined.

(** X16.  A file whose name does not contain [.md] at all (a file passed to
    the validate command under another extension) keeps its whole name as
    identifier. *)
Theorem loadTemplate_id_without_md
    (yaml_load : JS.str -> JS.result JS.JsValue) (basename : JS.str -> JS.str)
    (filePath content : JS.str) :
  ~ Spec.substring (JS.lit ".md") (basename filePath) ->
  Types.id (Loader.loadTemplate yaml_load basename filePath content)
  = basename filePath.
Proof.
  intro H. unfold Loader.loadTemplate. cbn [Types.id].
  apply replaceFirst_absent.
  destruct (JS.str_includes (basename filePath) (JS.lit ".md")) eqn:E; [|reflexivity].
  apply str_includes_iff in E. contradiction.
Qed.

(** X16, at [docs/notes.txt]. *)
Lemma loadTemplate_id_without_md_witness :
  Types.id (Loader.loadTemplate Examples.yaml_throws Examples.basename_posix
              (JS.lit "docs/notes.txt") Examples.five_headings)
  = JS.lit "notes.txt".
Proof.
  apply (loadTemplate_id_without_md Examples.yaml_throws Examples.basename_posix
           (JS.lit "docs/notes.txt") Examples.five_headings).
  intro H. apply str_includes_iff in H. vm_compute in H. discriminate H.
Defined.

(* ------------------------------------------------------------------------ *)
(** ** More on the fallback parser                                           *)
(* ------------------------------------------------------------------------ *)

Section FallbackParserMore.
Import JS.

Lemma declares_or_not (k line : str) :
  (exists v, Spec.declares line k v) \/ (forall v, ~ Spec.declares line k v).
Proof.
  destruct (parse_line_cases [] line) as [(k' & v' & Hd & _)|[Hnone _]].
  - destruct (str_eqb k' k) eqn:E.
    + apply str_eqb_eq in E. subst k'. left. exists v'. exact Hd.
    + apply str_eqb_neq in E. right. intros v Hv.
      destruct (declares_unique _ _ _ _ _ Hd Hv) as [Hk _]. exact (E Hk).
  - right. intros v. apply Hnone.
Qed.

Lemma last_declaration_or_none (k : str) (ls : list str) :
  (exists v, Spec.last_declaration ls k v)
  \/ Forall (fun l => forall v, ~ Spec.declares l k v) ls.
Proof.
  induction ls as [|l ls IH]; [right; constructor|].
  destruct IH as [(v & before & line & after & -> & Hd & Ha)|Hnone].
  - left. exists v, (l :: before), line, after. repeat split; assumption.
  - destruct (declares_or_not k l) as [[v Hv]|Hl].
    + left. exists v, [], l, ls. repeat split; assumption.
    + right. constructor; assumption.
Qed.

Lemma strip_quotes_quote_free (s : str) : Spec.quote_free (strip_quotes s).
Proof.
  split; intro H; apply strip_quotes_spec in H; destruct H as (_ & H1 & H2);
    [apply H1|apply H2]; reflexivity.
Qed.

Lemma strip_quotes_id (s : str) : Spec.quote_free s -> strip_quotes s = s.
Proof.
  intros [H1 H2]. unfold strip_quotes. induction s as [|c s IH]; [reflexivity|].
  assert (Hq : is_quote c = false).
  { unfold is_quote.
    destruct (char_eqb c SQUOTE) eqn:E1.
    { apply char_eqb_eq in E1. exfalso. apply H1. left. exact E1. }
    destruct (char_eqb c DQUOTE) eqn:E2; [|reflexivity].
    apply char_eqb_eq in E2. exfalso. apply H2. left. exact E2. }
  cbn [filter]. rewrite Hq. cbn [negb].
  rewrite IH; [reflexivity| |]; intro Hin; [apply H1|apply H2]; right; exact Hin.
Qed.

Lemma parse_value_fallback (value : str) :
  Spec.fallback_value (ValidateYaml.parse_value value).
Proof.
  unfold ValidateYaml.parse_value, Spec.fallback_value.
  destruct (startsWith [LBRACKET] value).
  - right. destruct (split COMMA (slice_1_m1 value)) as [|p ps] eqn:E.
    { exfalso. revert E. apply split_not_nil. }
    exists (strip_quotes (trim p)), (map (fun s => strip_quotes (trim s)) ps).
    split.
    + cbn [map]. rewrite map_map. reflexivity.
    + constructor; [apply strip_quotes_quote_free|].
      apply Forall_forall. intros s Hs. apply in_map_iff in Hs.
      destruct Hs as (x & <- & _). apply strip_quotes_quote_free.
  - left. exists (strip_quotes value). split; [reflexivity|apply strip_quotes_quote_free].
Qed.

Lemma assign_values (P : JsValue -> Prop) (key : str) (value : JsValue)
    (data : list (str * JsValue)) :
  P value -> Forall (fun kv => P (snd kv)) data ->
  Forall (fun kv => P (snd kv)) (ValidateYaml.assign key value data).
Proof.
  intros Hv. induction 1 as [|[k v] data Hk Hdata IH]; simpl.
  - constructor; [exact Hv|constructor].
  - destruct (str_eqb k key); constructor; assumption.
Qed.

Lemma parsed_values (ls : list str) :
  forall data,
    Forall (fun kv => Spec.fallback_value (snd kv)) data ->
    Forall (fun kv => Spec.fallback_value (snd kv))
           (fold_left ValidateYaml.parse_line ls data).
Proof.
  induction ls as [|l ls IH]; intros data H; [exact H|].
  cbn [fold_left]. apply IH.
  unfold ValidateYaml.parse_line.
  destruct (indexOf COLON l) as [i|]; [|exact H].
  unfold ValidateYaml.set_property.
  destruct (str_eqb _ _); [exact H|].
  apply assign_values; [apply parse_value_fallback|exact H].
Qed.

Lemma lookup_In (k : str) (v : JsValue) (data : list (str * JsValue)) :
  lookup k data = Some v -> exists k', In (k', v) data.
Proof.
  induction data as [|[k0 v0] data IH]; simpl; [discriminate|].
  destruct (str_eqb k0 k).
  - intro H. injection H as ->. exists k0. left. reflexivity.
  - intro H. destruct (IH H) as [k' Hin]. exists k'. right. exact Hin.
Qed.

Lemma trimEnd_solid (s : str) (c : char) :
  is_space c = false -> trimEnd (s ++ [c]) = s ++ [c].
Proof.
  intro H. unfold trimEnd. rewrite rev_app_distr. cbn [rev app dropWhile].
  rewrite H. cbn [rev]. rewrite rev_involutive. reflexivity.
Qed.

Lemma trim_in_quotes (s : str) : trim (Spec.in_quotes s) = Spec.in_quotes s.
Proof.
  unfold trim, trimStart, Spec.in_quotes. cbn [dropWhile].
  change (is_space DQUOTE) with false. cbv iota.
  change (DQUOTE :: s ++ [DQUOTE]) with ((DQUOTE :: s) ++ [DQUOTE]).
  apply trimEnd_solid. reflexivity.
Qed.

Lemma trim_space_in_quotes (s : str) :
  trim (32%N :: Spec.in_quotes s) = Spec.in_quotes s.
Proof.
  unfold trim, trimStart. cbn [dropWhile].
  change (is_space 32%N) with true. cbv iota.
  apply trim_in_quotes.
Qed.

Lemma strip_in_quotes (s : str) :
  Spec.quote_free s -> strip_quotes (Spec.in_quotes s) = s.
Proof.
  intro H. unfold Spec.in_quotes, strip_quotes.
  cbn [filter]. change (negb (is_quote DQUOTE)) with false. cbv iota.
  rewrite filter_app. cbn [filter].
  change (negb (is_quote DQUOTE)) with false. cbv iota.
  rewrite app_nil_r. apply strip_quotes_id. exact H.
Qed.

Lemma in_quotes_comma_free (s : str) : ~ In COMMA s -> ~ In COMMA (Spec.in_quotes s).
Proof.
  intros H [E|Hin]; [discriminate E|].
  apply in_app_or in Hin. destruct Hin as [Hin|[E|[]]]; [exact (H Hin)|discriminate E].
Qed.

Lemma split_join_comma_space (p : str) (ps : list str) :
  Forall (fun s => ~ In COMMA s) (p :: ps) ->
  split COMMA (join (lit ", ") (p :: ps)) = p :: map (cons 32%N) ps.
Proof.
  revert p. induction ps as [|q ps IH]; intros p H.
  - inversion H; subst. cbn [join map]. apply split_line. assumption.
  - inversion H as [|? ? Hp Hrest]; subst.
    change (join (lit ", ") (p :: q :: ps))
      with (p ++ COMMA :: (32%N :: join (lit ", ") (q :: ps))).
    rewrite split_app_sep, (split_line COMMA p Hp).
    match goal with
    | |- [p] ++ split ?sep (?c :: ?r) = _ =>
        destruct (split_cons_other sep c r eq_refl) as (l & ls & Hl & Hc)
    end.
    etransitivity; [exact (f_equal (app [p]) Hc)|].
    rewrite (IH q Hrest) in Hl. injection Hl as <- <-. reflexivity.
Qed.

End FallbackParserMore.

(** X17.  A key is missing from the record of the fallback parser exactly
    when no line declares it, and present exactly when some line does (the
    key [__proto__] apart, which is never stored). *)
Theorem basic_parse_key_present_iff_declared (yamlString k : JS.str) :
  k <> JS.lit "__proto__" ->
  exists data,
    ValidateYaml.basic_parse yamlString = JS.JObj data
    /\ (JS.lookup k data = None
        <-> Forall (fun l => forall v, ~ Spec.declares l k v) (Spec.lines yamlString))
    /\ (JS.lookup k data <> None
        <-> exists line v, In line (Spec.lines yamlString) /\ Spec.declares line k v).
Proof.
  intro Hk.
  exists (fold_left ValidateYaml.parse_line (Spec.lines yamlString) []).
  split; [reflexivity|].
  assert (Hnone : JS.lookup k (fold_left ValidateYaml.parse_line (Spec.lines yamlString) [])
                  = None
                  <-> Forall (fun l => forall v, ~ Spec.declares l k v)
                             (Spec.lines yamlString)).
  { split.
    - intro H.
      destruct (last_declaration_or_none k (Spec.lines yamlString)) as [[v Hv]|Hn];
        [|exact Hn].
      apply (parsed_last_declaration k v _ Hk) in Hv. congruence.
    - intro Hn.
      destruct (JS.lookup k (fold_left ValidateYaml.parse_line (Spec.lines yamlString) []))
        as [v|] eqn:E; [|reflexivity].
      apply (parsed_last_declaration k v _ Hk) in E.
      destruct E as (before & line & after & Hs & Hd & _).
      rewrite Hs in Hn. apply Forall_app in Hn. destruct Hn as [_ Hn].
      inversion Hn as [|? ? Hl _]; subst. exfalso. exact (Hl v Hd). }
  split; [exact Hnone|]. split.
  - intro H.
    destruct (JS.lookup k (fold_left ValidateYaml.parse_line (Spec.lines yamlString) []))
      as [v|] eqn:E; [|contradiction].
    apply (parsed_last_declaration k v _ Hk) in E.
    destruct E as (before & line & after & Hs & Hd & _).
    exists line, v. split; [|exact Hd].
    rewrite Hs. apply in_or_app. right. left. reflexivity.
  - intros (line & v & Hin & Hd) E. apply Hnone in E.
    rewrite Forall_forall in E. exact (E line Hin v Hd).
Qed.

(** X17, at a body of two lines and the key [category]. *)
Lemma basic_parse_key_present_iff_declared_witness :
  exists data,
    ValidateYaml.basic_parse (Examples.doc ["title: Example"; "tags: [a, b]"]%string)
    = JS.JObj data
    /\ (JS.lookup (JS.lit "category") data = None
        <-> Forall (fun l => forall v, ~ Spec.declares l (JS.lit "category") v)
                   (Spec.lines (Examples.doc ["title: Example"; "tags: [a, b]"]%string)))
    /\ (JS.lookup (JS.lit "category") data <> None
        <-> exists line v,
              In line (Spec.lines (Examples.doc ["title: Example"; "tags: [a, b]"]%string))
              /\ Spec.declares line (JS.lit "category") v).
Proof.
  apply basic_parse_key_present_iff_declared. vm_compute. discriminate.
Defined.

(** X18.  Every value the fallback parser stores is a string without quote
    characters or a non-empty list of such strings: never a boolean, a
    number or an empty list.  So [tags: []] is read as a list holding one
    empty string, and the script's [validateFrontmatter] never issues the
    warning about empty tags on a record of the fallback parser. *)
Theorem basic_parse_values (yamlString filePath : JS.str) :
  exists data findings,
    ValidateYaml.basic_parse yamlString = JS.JObj data
    /\ (forall k v, JS.lookup k data = Some v -> Spec.fallback_value v)
    /\ JS.get (ValidateYaml.basic_parse yamlString) "tags" <> JS.JArr []
    /\ ValidateYaml.validateFrontmatter filePath (ValidateYaml.basic_parse yamlString)
       = JS.Ok findings
    /\ ~ In (JS.lit "Field " ++ Validator.quoted "tags" ++ JS.lit " is empty")
            (ValidateYaml.warnings findings).
Proof.
  set (data := fold_left ValidateYaml.parse_line (JS.split JS.LF yamlString) []).
  assert (Hvals : forall k v, JS.lookup k data = Some v -> Spec.fallback_value v).
  { intros k v H. destruct (lookup_In k v data H) as [k' Hin].
    pose proof (parsed_values (JS.split JS.LF yamlString) [] (Forall_nil _)) as HF.
    rewrite Forall_forall in HF. exact (HF (k', v) Hin). }
  assert (Htags : JS.get (JS.JObj data) "tags" <> JS.JArr []).
  { cbn [JS.get]. destruct (JS.lookup (JS.lit "tags") data) as [v|] eqn:E; [|discriminate].
    intros ->. destruct (Hvals _ _ E) as [(s & Hs & _)|(first & rest & Hs & _)];
      discriminate Hs. }
  change (ValidateYaml.basic_parse yamlString) with (JS.JObj data).
  assert (Hfind : exists findings,
             ValidateYaml.validateFrontmatter filePath (JS.JObj data) = JS.Ok findings
             /\ ~ In (JS.lit "Field " ++ Validator.quoted "tags" ++ JS.lit " is empty")
                     (ValidateYaml.warnings findings)).
  { unfold ValidateYaml.validateFrontmatter.
    destruct (JS.get (JS.JObj data) "tags") as [| |[|]|n|[|c s]|[|x xs]|fields] eqn:Et;
      try (exfalso; apply Htags; reflexivity);
      try (cbn [JS.truthy]; destruct (Z.eqb n 0));
      (eexists; split; [reflexivity|]);
      cbn [negb JS.truthy JS.isArray ValidateYaml.warnings];
      unfold Validator.push_if;
      destruct (JS.truthy (JS.get (JS.JObj data) "requires")
                && negb (JS.isArray (JS.get (JS.JObj data) "requires")));
      destruct (JS.truthy (JS.get (JS.JObj data) "combinableWith")
                && negb (JS.isArray (JS.get (JS.JObj data) "combinableWith")));
      cbn [app]; intro Hin;
      repeat (destruct Hin as [Hin|Hin]; [vm_compute in Hin; discriminate Hin|]);
      exact Hin. }
  destruct Hfind as (findings & Hf & Hw).
  exists data, findings. repeat split; assumption.
Qed.

(** X19.  Values written the way the templates write them are read back
    unchanged by the fallback parser: a string between double quotes gives
    that string, and a bracketed list of double-quoted items separated by a
    comma and a space gives the list of the items, provided the strings hold
    no quote character and the items no comma. *)
Theorem parse_value_round_trip :
  (forall s, Spec.quote_free s ->
             ValidateYaml.parse_value (Spec.in_quotes s) = JS.JStr s)
  /\ (forall item items,
        Forall (fun s => Spec.quote_free s /\ ~ In JS.COMMA s) (item :: items) ->
        ValidateYaml.parse_value (Spec.bracketed (item :: items))
        = JS.JArr (map JS.JStr (item :: items))).
Proof.
  split.
  - intros s Hs. rewrite parse_value_scalar by reflexivity.
    rewrite strip_in_quotes by exact Hs. reflexivity.
  - intros item items H. unfold Spec.bracketed.
    change (JS.lit "]") with [93%N].
    rewrite parse_value_list.
    change (map Spec.in_quotes (item :: items))
      with (Spec.in_quotes item :: map Spec.in_quotes items).
    rewrite split_join_comma_space.
    + inversion H as [|? ? [Hq _] Hrest]; subst.
      cbn [map]. rewrite trim_in_quotes, (strip_in_quotes item Hq).
      f_equal. f_equal. rewrite !map_map.
      clear - Hrest. induction Hrest as [|x l [Hx _] _ IH]; [reflexivity|].
      cbn [map]. rewrite trim_space_in_quotes, (strip_in_quotes x Hx), IH. reflexivity.
    + change (Spec.in_quotes item :: map Spec.in_quotes items)
        with (map Spec.in_quotes (item :: items)).
      apply Forall_forall. intros x Hx. apply in_map_iff in Hx.
      destruct Hx as (y & <- & Hy). rewrite Forall_forall in H.
      apply in_quotes_comma_free. apply (H y Hy).
Qed.

(* ------------------------------------------------------------------------ *)
(** ** The validate command                                                  *)
(* ------------------------------------------------------------------------ *)

Section ValidateCommandFacts.
Import JS.

Variable FsError : Type.
Variable glob : Node.Settled FsError (list str).
Variable readFile : str -> Node.Settled FsError str.
Variable yaml_load : str -> result JsValue.
Variable basename : str -> str.
Variables blue_bold green red yellow gray : str -> str.
Variable inspect : ValidateCommand.Caught FsError -> str.

#[local] Set Warnings "-notation-for-abbreviation".
Local Notation report := (ValidateCommand.report green red yellow).
Local Notation loop :=
  (ValidateCommand.loop FsError readFile yaml_load basename green red yellow inspect).
Local Notation validateCommand :=
  (ValidateCommand.validateCommand FsError glob readFile yaml_load basename
     blue_bold green red yellow gray inspect).
Local Notation load_log := (ValidateCommand.load_log FsError yaml_load inspect).
Local Notation verdict := (Spec.verdict yaml_load basename).
Local Notation validates := (Spec.validates FsError readFile yaml_load basename).
Local Notation Fulfilled := (@Node.Fulfilled FsError _).
Local Notation Rejected := (@Node.Rejected FsError _).

Lemma report_counts (st : ValidateCommand.LoopState) (file : str)
    (r : Types.ValidationResult) :
  ValidateCommand.hasErrors (report st file r)
  = ValidateCommand.hasErrors st || negb (Types.valid r)
  /\ ValidateCommand.validCount (report st file r)
     = ValidateCommand.validCount st + (if Types.valid r then 1 else 0)
  /\ ValidateCommand.warningCount (report st file r)
     = ValidateCommand.warningCount st + (if Spec.has_warnings r then 1 else 0)
  /\ ValidateCommand.logged (report st file r) = ValidateCommand.logged st.
Proof.
  unfold ValidateCommand.report, Spec.has_warnings.
  destruct (Types.valid r); destruct (Types.errors r); destruct (Types.warnings r);
    cbn [ValidateCommand.hasErrors ValidateCommand.validCount
         ValidateCommand.warningCount ValidateCommand.logged negb];
    rewrite ?orb_false_r, ?orb_true_r, ?Nat.add_0_r; repeat split; reflexivity.
Qed.

(** One turn of the loop on a file the command can read and validate. *)
Lemma loop_step (strict : bool) (contents : str -> str) (file : str) (rest : list str)
    (st : ValidateCommand.LoopState) :
  validates contents file ->
  loop strict st (file :: rest)
  = loop strict
      (report {| ValidateCommand.hasErrors := ValidateCommand.hasErrors st;
                 ValidateCommand.validCount := ValidateCommand.validCount st;
                 ValidateCommand.warningCount := ValidateCommand.warningCount st;
                 ValidateCommand.printed := ValidateCommand.printed st;
                 ValidateCommand.logged :=
                   ValidateCommand.logged st ++ load_log (contents file) |}
              file (verdict strict file (contents file)))
      rest.
Proof.
  intros [Hread Hthrow]. cbn [ValidateCommand.loop]. rewrite Hread.
  unfold ValidateCommand.validateTemplate. rewrite Hthrow. reflexivity.
Qed.

(** When every file can be read and validated the loop runs to its end, and
    its variables count what they are named after. *)
Lemma loop_validates (strict : bool) (contents : str -> str) (files : list str) :
  Forall (validates contents) files ->
  forall st, exists st',
    loop strict st files = (st', None)
    /\ ValidateCommand.hasErrors st'
       = ValidateCommand.hasErrors st
         || negb (forallb (fun f => Types.valid (verdict strict f (contents f))) files)
    /\ ValidateCommand.validCount st'
       = ValidateCommand.validCount st
         + List.length (filter (fun f => Types.valid (verdict strict f (contents f))) files)
    /\ ValidateCommand.warningCount st'
       = ValidateCommand.warningCount st
         + List.length
             (filter (fun f => Spec.has_warnings (verdict strict f (contents f))) files)
    /\ ValidateCommand.logged st'
       = ValidateCommand.logged st ++ flat_map (fun f => load_log (contents f)) files.
Proof.
  induction 1 as [|file files Hfile _ IH]; intro st.
  - exists st. cbn. rewrite orb_false_r, !Nat.add_0_r, app_nil_r.
    repeat split; reflexivity.
  - rewrite (loop_step strict contents file files st Hfile).
    match goal with |- context [loop strict ?s files] =>
      destruct (IH s) as (st' & Hloop & He & Hv & Hw & Hl);
      destruct (report_counts
                  {| ValidateCommand.hasErrors := ValidateCommand.hasErrors st;
                     ValidateCommand.validCount := ValidateCommand.validCount st;
                     ValidateCommand.warningCount := ValidateCommand.warningCount st;
                     ValidateCommand.printed := ValidateCommand.printed st;
                     ValidateCommand.logged :=
                       ValidateCommand.logged st ++ load_log (contents file) |}
                  file (verdict strict file (contents file)))
        as (He1 & Hv1 & Hw1 & Hl1)
    end.
    cbn [ValidateCommand.hasErrors ValidateCommand.validCount
         ValidateCommand.warningCount ValidateCommand.logged] in He1, Hv1, Hw1, Hl1.
    exists st'. split; [exact Hloop|].
    rewrite He, Hv, Hw, Hl, He1, Hv1, Hw1, Hl1. cbn [forallb filter flat_map].
    rewrite <- app_assoc.
    destruct (Types.valid (verdict strict file (contents file)));
      destruct (Spec.has_warnings (verdict strict file (contents file)));
      cbn [negb andb List.length];
      rewrite ?orb_false_r, ?orb_true_r; repeat split; try reflexivity; lia.
Qed.

(** The loop stops at the first file that ends it, with what was printed and
    logged for the files before it. *)
Lemma loop_stops (strict : bool) (contents : str -> str) (pre post : list str)
    (bad : str) (extra : list str) (e : ValidateCommand.Caught FsError) :
  Forall (validates contents) pre ->
  (forall st,
      loop strict st (bad :: post)
      = ({| ValidateCommand.hasErrors := ValidateCommand.hasErrors st;
            ValidateCommand.validCount := ValidateCommand.validCount st;
            ValidateCommand.warningCount := ValidateCommand.warningCount st;
            ValidateCommand.printed := ValidateCommand.printed st;
            ValidateCommand.logged := ValidateCommand.logged st ++ extra |}, Some e)) ->
  forall st, exists st',
    loop strict st (pre ++ bad :: post) = (st', Some e)
    /\ ValidateCommand.logged st'
       = ValidateCommand.logged st
         ++ flat_map (fun f => load_log (contents f)) pre ++ extra.
Proof.
  intros Hpre Hbad. induction Hpre as [|f pre Hf _ IH]; intro st.
  - eexists. split; [apply Hbad|]. reflexivity.
  - cbn [app]. rewrite (loop_step strict contents f _ st Hf).
    match goal with |- context [loop strict ?s (pre ++ bad :: post)] =>
      destruct (IH s) as (st' & Hloop & Hl);
      destruct (report_counts
                  {| ValidateCommand.hasErrors := ValidateCommand.hasErrors st;
                     ValidateCommand.validCount := ValidateCommand.validCount st;
                     ValidateCommand.warningCount := ValidateCommand.warningCount st;
                     ValidateCommand.printed := ValidateCommand.printed st;
                     ValidateCommand.logged :=
                       ValidateCommand.logged st ++ load_log (contents f) |}
                  f (verdict strict f (contents f)))
        as (_ & _ & _ & Hl1)
    end.
    cbn [ValidateCommand.logged] in Hl1.
    exists st'. split; [exact Hloop|].
    rewrite Hl, Hl1. cbn [flat_map]. rewrite <- !app_assoc. reflexivity.
Qed.

(** What is printed before the loop stops does not depend on the files after
    the one that stops it. *)
Lemma loop_stops_same (strict : bool) (contents : str -> str) (pre post post' : list str)
    (bad : str) :
  Forall (validates contents) pre ->
  (forall st, exists st' e,
      loop strict st (bad :: post) = (st', Some e)
      /\ loop strict st (bad :: post') = (st', Some e)) ->
  forall st, exists st' e,
    loop strict st (pre ++ bad :: post) = (st', Some e)
    /\ loop strict st (pre ++ bad :: post') = (st', Some e).
Proof.
  intros Hpre Hbad. induction Hpre as [|f pre Hf _ IH]; intro st.
  - apply Hbad.
  - cbn [app]. rewrite !(loop_step strict contents f _ st Hf). apply IH.
Qed.

Lemma unreadable_stops (strict : bool) (bad : str) (post : list str) (e : FsError)
    (st : ValidateCommand.LoopState) :
  readFile bad = Rejected e ->
  loop strict st (bad :: post) = (st, Some (ValidateCommand.OfFs e)).
Proof. intro H. cbn [ValidateCommand.loop]. rewrite H. reflexivity. Qed.

Lemma throwing_stops (strict : bool) (bad content : str) (post : list str)
    (st : ValidateCommand.LoopState) :
  readFile bad = Fulfilled content ->
  ValidateCommand.message_throws
    (Types.frontmatter (Loader.loadTemplate yaml_load basename bad content)) = true ->
  loop strict st (bad :: post)
  = ({| ValidateCommand.hasErrors := ValidateCommand.hasErrors st;
        ValidateCommand.validCount := ValidateCommand.validCount st;
        ValidateCommand.warningCount := ValidateCommand.warningCount st;
        ValidateCommand.printed := ValidateCommand.printed st;
        ValidateCommand.logged := ValidateCommand.logged st ++ load_log content |},
     Some (ValidateCommand.OfJs TypeError)).
Proof.
  intros Hread Hthrow. cbn [ValidateCommand.loop]. rewrite Hread.
  unfold ValidateCommand.validateTemplate. rewrite Hthrow. reflexivity.
Qed.

Lemma state_eta (st : ValidateCommand.LoopState) :
  {| ValidateCommand.hasErrors := ValidateCommand.hasErrors st;
     ValidateCommand.validCount := ValidateCommand.validCount st;
     ValidateCommand.warningCount := ValidateCommand.warningCount st;
     ValidateCommand.printed := ValidateCommand.printed st;
     ValidateCommand.logged := ValidateCommand.logged st ++ [] |} = st.
Proof. destruct st. cbn. rewrite app_nil_r. reflexivity. Qed.

Lemma verdict_strict_invalid (file content : str) :
  Types.valid (verdict false file content) = false ->
  Types.valid (verdict true file content) = false.
Proof.
  unfold Spec.verdict. intro H.
  destruct (Types.valid (Validator.validateTemplate _ true)) eqn:E; [|reflexivity].
  apply validateTemplate_valid_flag in E.
  rewrite validateTemplate_strict_errors in E.
  apply app_eq_nil in E. destruct E as [E _].
  apply validateTemplate_valid_flag in E. congruence.
Qed.

(** In strict mode the loop ends the same way, with at least the errors of
    normal mode. *)
Lemma loop_strict (files : list str) :
  forall st st',
    (ValidateCommand.hasErrors st = true -> ValidateCommand.hasErrors st' = true) ->
    snd (loop false st files) = snd (loop true st' files)
    /\ (ValidateCommand.hasErrors (fst (loop false st files)) = true ->
        ValidateCommand.hasErrors (fst (loop true st' files)) = true).
Proof.
  induction files as [|file files IH]; intros st st' Hst.
  - split; [reflexivity|exact Hst].
  - cbn [ValidateCommand.loop].
    destruct (readFile file) as [content|e]; [|split; [reflexivity|exact Hst]].
    unfold ValidateCommand.validateTemplate.
    destruct (ValidateCommand.message_throws _); [split; [reflexivity|exact Hst]|].
    apply IH. intro H.
    match type of H with
    | ValidateCommand.hasErrors (report ?s _ ?r) = true =>
        destruct (report_counts s file r) as (He & _)
    end.
    match goal with
    | |- ValidateCommand.hasErrors (report ?s _ ?r) = true =>
        destruct (report_counts s file r) as (He' & _)
    end.
    rewrite He in H. rewrite He'.
    cbn [ValidateCommand.hasErrors] in *.
    apply orb_true_iff in H. apply orb_true_iff. destruct H as [H|H].
    + left. exact (Hst H).
    + right. apply negb_true_iff in H. apply negb_true_iff.
      apply verdict_strict_invalid. exact H.
Qed.

(** X20.  When the validate command has files to validate, can read them
    all and validating none of them throws, it exits with code 1 if
    [validateTemplate] finds one of them invalid and with code 0 otherwise.
    Its error stream holds the lines the loader writes for the files whose
    block js-yaml rejects, in the order of the files, and nothing else.  The
    number it reports as valid is the number of valid files, the number of
    files with warnings is the number of files with at least one warning,
    and in strict mode that number is zero. *)
Theorem validateCommand_exit_code_and_counts
    (files : list str) (strict : bool) (contents : str -> str)
    (first : str) (others : list str) :
  match files with _ :: _ => Fulfilled files | [] => glob end
  = Fulfilled (first :: others) ->
  Forall (validates contents) (first :: others) ->
  Node.exit (validateCommand files strict)
  = Node.Exited
      (if forallb (fun f => Types.valid (verdict strict f (contents f))) (first :: others)
       then 0 else 1)
  /\ Node.stderr (validateCommand files strict)
     = flat_map (fun f => load_log (contents f)) (first :: others)
  /\ exists st,
       loop strict ValidateCommand.initial (first :: others) = (st, None)
       /\ ValidateCommand.validCount st
          = List.length (filter (fun f => Types.valid (verdict strict f (contents f)))
                                (first :: others))
       /\ ValidateCommand.warningCount st
          = List.length
              (filter (fun f => Spec.has_warnings (verdict strict f (contents f)))
                      (first :: others))
       /\ (strict = true -> ValidateCommand.warningCount st = 0).
Proof.
  intros Hsel Hread.
  destruct (loop_validates strict contents (first :: others) Hread ValidateCommand.initial)
    as (st & Hloop & He & Hv & Hw & Hl).
  cbn [ValidateCommand.initial ValidateCommand.hasErrors ValidateCommand.validCount
       ValidateCommand.warningCount ValidateCommand.logged orb Nat.add app]
    in He, Hv, Hw, Hl.
  assert (Hrun : Node.exit (validateCommand files strict)
                 = Node.Exited (if ValidateCommand.hasErrors st then 1 else 0)
                 /\ Node.stderr (validateCommand files strict)
                    = ValidateCommand.logged st).
  { unfold ValidateCommand.validateCommand. rewrite Hsel, Hloop.
    destruct (ValidateCommand.hasErrors st); split; reflexivity. }
  destruct Hrun as [Hexit Herr]. split; [|split].
  - rewrite Hexit, He.
    destruct (forallb (fun f => Types.valid (verdict strict f (contents f)))
                      (first :: others)); reflexivity.
  - rewrite Herr. exact Hl.
  - exists st. split; [exact Hloop|]. split; [exact Hv|]. split; [exact Hw|].
    intros ->. rewrite Hw.
    assert (Hnone : forall l,
              filter (fun f => Spec.has_warnings (verdict true f (contents f))) l = []).
    { induction l as [|f l IHl]; [reflexivity|]. cbn [filter].
      unfold Spec.has_warnings at 1, Spec.verdict at 1.
      rewrite validateTemplate_strict_warnings. exact IHl. }
    rewrite Hnone. reflexivity.
Qed.

(** X21.  A file that cannot be read ends the whole run: the command exits
    with code 1, its error stream holds the lines the loader wrote for the
    files before it followed by the report of the error, and it prints what
    it prints when the unreadable file is the last one: the files after it
    are not validated at all. *)
Theorem validateCommand_stops_at_unreadable_file
    (strict : bool) (contents : str -> str) (pre post : list str) (bad : str)
    (e : FsError) :
  Forall (validates contents) pre ->
  readFile bad = Rejected e ->
  validateCommand (pre ++ bad :: post) strict = validateCommand (pre ++ [bad]) strict
  /\ Node.exit (validateCommand (pre ++ bad :: post) strict) = Node.Exited 1
  /\ Node.stderr (validateCommand (pre ++ bad :: post) strict)
     = flat_map (fun f => load_log (contents f)) pre
       ++ [red (lit "Error during validation:") ++ lit " "
           ++ inspect (ValidateCommand.OfFs e)].
Proof.
  intros Hpre Hbad.
  assert (Hstop : forall tail st,
            loop strict st (bad :: tail)
            = ({| ValidateCommand.hasErrors := ValidateCommand.hasErrors st;
                  ValidateCommand.validCount := ValidateCommand.validCount st;
                  ValidateCommand.warningCount := ValidateCommand.warningCount st;
                  ValidateCommand.printed := ValidateCommand.printed st;
                  ValidateCommand.logged := ValidateCommand.logged st ++ [] |},
               Some (ValidateCommand.OfFs e))).
  { intros tail st. rewrite state_eta. apply unreadable_stops. exact Hbad. }
  destruct (loop_stops strict contents pre post bad [] _ Hpre (Hstop post)
              ValidateCommand.initial) as (st & H1 & Hl).
  destruct (loop_stops_same strict contents pre post [] bad Hpre
              (fun s => ex_intro _ _ (ex_intro _ _ (conj (Hstop post s) (Hstop [] s))))
              ValidateCommand.initial) as (st2 & e2 & H3 & H4).
  rewrite H1 in H3. injection H3 as <- <-.
  assert (Hrun : forall tail,
            loop strict ValidateCommand.initial (pre ++ bad :: tail)
            = (st, Some (ValidateCommand.OfFs e)) ->
            validateCommand (pre ++ bad :: tail) strict
            = ValidateCommand.failed FsError blue_bold red inspect st
                (ValidateCommand.OfFs e)).
  { intros tail Hloop. unfold ValidateCommand.validateCommand.
    destruct (pre ++ bad :: tail) as [|x xs] eqn:E.
    - destruct pre; discriminate E.
    - rewrite Hloop. reflexivity. }
  rewrite (Hrun post H1), (Hrun [] H4).
  split; [reflexivity|]. split; [reflexivity|].
  cbn [ValidateCommand.failed Node.stderr]. rewrite Hl.
  cbn [ValidateCommand.initial ValidateCommand.logged app]. rewrite app_nil_r.
  reflexivity.
Qed.

(** X22.  Strict mode never turns a failing run of the validate command into
    a passing one: on the same files, if the command exits with code 1 in
    normal mode it exits with code 1 in strict mode. *)
Theorem validateCommand_strict_fails_when_normal_fails (files : list str) :
  Node.exit (validateCommand files false) = Node.Exited 1 ->
  Node.exit (validateCommand files true) = Node.Exited 1.
Proof.
  unfold ValidateCommand.validateCommand.
  destruct (match files with _ :: _ => Fulfilled files | [] => glob end)
    as [[|f fs]|e]; try (intro H; exact H).
  destruct (loop_strict (f :: fs) ValidateCommand.initial ValidateCommand.initial
                        (fun H => H)) as [Hsnd Hfst].
  destruct (loop false ValidateCommand.initial (f :: fs)) as [st [e1|]];
    destruct (loop true ValidateCommand.initial (f :: fs)) as [st' [e2|]];
    cbn [fst snd] in *; try discriminate Hsnd; try (intros _; reflexivity).
  destruct (ValidateCommand.hasErrors st) eqn:E.
  - rewrite (Hfst eq_refl). intros _. reflexivity.
  - cbn. intro H. discriminate H.
Qed.

(** X28.  Metadata whose category or difficulty is present, is not an
    allowed value and cannot be converted to a string (a mapping with a key
    [toString], for example) makes [validateTemplate] throw a TypeError
    while it writes its message: the command ends at that file through its
    catch clause, in normal mode and in strict mode alike, with exit code 1
    and the report of the TypeError at the end of its error stream; the
    files after it are not validated. *)
Theorem validateCommand_stops_at_metadata_without_a_text
    (strict : bool) (contents : str -> str) (pre post : list str) (bad : str) :
  Forall (validates contents) pre ->
  readFile bad = Fulfilled (contents bad) ->
  ValidateCommand.message_throws
    (Types.frontmatter (Loader.loadTemplate yaml_load basename bad (contents bad)))
  = true ->
  validateCommand (pre ++ bad :: post) strict = validateCommand (pre ++ [bad]) strict
  /\ Node.exit (validateCommand (pre ++ bad :: post) strict) = Node.Exited 1
  /\ Node.stderr (validateCommand (pre ++ bad :: post) strict)
     = flat_map (fun f => load_log (contents f)) (pre ++ [bad])
       ++ [red (lit "Error during validation:") ++ lit " "
           ++ inspect (ValidateCommand.OfJs TypeError)].
Proof.
  intros Hpre Hread Hthrow.
  pose proof (fun tail st => throwing_stops strict bad (contents bad) tail st Hread Hthrow)
    as Hstop.
  destruct (loop_stops strict contents pre post bad _ _ Hpre (Hstop post)
              ValidateCommand.initial) as (st & H1 & Hl).
  destruct (loop_stops_same strict contents pre post [] bad Hpre
              (fun s => ex_intro _ _ (ex_intro _ _ (conj (Hstop post s) (Hstop [] s))))
              ValidateCommand.initial) as (st2 & e2 & H3 & H4).
  rewrite H1 in H3. injection H3 as <- <-.
  assert (Hrun : forall tail,
            loop strict ValidateCommand.initial (pre ++ bad :: tail)
            = (st, Some (ValidateCommand.OfJs TypeError)) ->
            validateCommand (pre ++ bad :: tail) strict
            = ValidateCommand.failed FsError blue_bold red inspect st
                (ValidateCommand.OfJs TypeError)).
  { intros tail Hloop. unfold ValidateCommand.validateCommand.
    destruct (pre ++ bad :: tail) as [|x xs] eqn:E.
    - destruct pre; discriminate E.
    - rewrite Hloop. reflexivity. }
  rewrite (Hrun post H1), (Hrun [] H4).
  split; [reflexivity|]. split; [reflexivity|].
  cbn [ValidateCommand.failed Node.stderr]. rewrite Hl.
  cbn [ValidateCommand.initial ValidateCommand.logged app].
  rewrite flat_map_app. cbn [flat_map]. rewrite app_nil_r. reflexivity.
Qed.

End ValidateCommandFacts.

(** X20, at a file without a block and a file whose block js-yaml rejects,
    in strict mode. *)
Lemma validateCommand_exit_code_and_counts_witness :
  Node.exit (Examples.validate ["templates/a.md"; "templates/todo.md"]%string true)
  = Node.Exited 1
  /\ Node.stderr (Examples.validate ["templates/a.md"; "templates/todo.md"]%string true)
     = [JS.lit "Error parsing frontmatter: YAMLException"].
Proof.
  pose proof (validateCommand_exit_code_and_counts
           Examples.FsError (Node.Fulfilled [])
           Examples.readFileSync_comment Examples.yaml_throws Examples.basename_posix
           Examples.no_style Examples.no_style Examples.no_style Examples.no_style
           Examples.no_style Examples.inspect_caught
           [JS.lit "templates/a.md"; JS.lit "templates/todo.md"] true
           Examples.contents_comment
           (JS.lit "templates/a.md") [JS.lit "templates/todo.md"]
           eq_refl) as H.
  destruct H as (Hexit & Herr & _).
  - apply Forall_cons; [|apply Forall_cons; [|apply Forall_nil]]; split; reflexivity.
  - split; [exact Hexit|exact Herr].
Defined.

(** X21, at a file whose block js-yaml rejects, followed by a file that does
    not exist. *)
Lemma validateCommand_stops_at_unreadable_file_witness :
  Examples.validate ["templates/todo.md"; "missing.md"; "b.md"]%string false
  = Examples.validate ["templates/todo.md"; "missing.md"]%string false
  /\ Node.exit (Examples.validate ["templates/todo.md"; "missing.md"; "b.md"]%string false)
     = Node.Exited 1
  /\ Node.stderr
       (Examples.validate ["templates/todo.md"; "missing.md"; "b.md"]%string false)
     = [JS.lit "Error parsing frontmatter: YAMLException";
        JS.lit "Error during validation: ENOENT: missing.md"].
Proof.
  apply (validateCommand_stops_at_unreadable_file
           Examples.FsError (Node.Fulfilled [])
           Examples.readFileSync_comment Examples.yaml_throws Examples.basename_posix
           Examples.no_style Examples.no_style Examples.no_style Examples.no_style
           Examples.no_style Examples.inspect_caught
           false Examples.contents_comment
           [JS.lit "templates/todo.md"] [JS.lit "b.md"] (JS.lit "missing.md")
           (Examples.ENOENT (JS.lit "missing.md"))).
  - apply Forall_cons; [|apply Forall_nil]. split; reflexivity.
  - reflexivity.
Defined.

(** X22, at a file of notes without any heading. *)
Lemma validateCommand_strict_fails_when_normal_fails_witness :
  Node.exit (Examples.validate ["a.md"; "notes.md"]%string true) = Node.Exited 1.
Proof.
  apply (validateCommand_strict_fails_when_normal_fails
           Examples.FsError (Node.Fulfilled [])
           Examples.readFileSync_comment Examples.yaml_throws Examples.basename_posix
           Examples.no_style Examples.no_style Examples.no_style Examples.no_style
           Examples.no_style Examples.inspect_caught [JS.lit "a.md"; JS.lit "notes.md"]).
  vm_compute. reflexivity.
Defined.

(** X28, at metadata whose category is a mapping with a key [toString]. *)
Lemma validateCommand_stops_at_metadata_without_a_text_witness :
  Examples.validate_with Examples.yaml_odd_category
    ["templates/a.md"; "templates/todo.md"; "templates/b.md"]%string false
  = Examples.validate_with Examples.yaml_odd_category
      ["templates/a.md"; "templates/todo.md"]%string false
  /\ Node.exit
       (Examples.validate_with Examples.yaml_odd_category
          ["templates/a.md"; "templates/todo.md"; "templates/b.md"]%string false)
     = Node.Exited 1
  /\ Node.stderr
       (Examples.validate_with Examples.yaml_odd_category
          ["templates/a.md"; "templates/todo.md"; "templates/b.md"]%string false)
     = [JS.lit "Error during validation: TypeError"].
Proof.
  apply (validateCommand_stops_at_metadata_without_a_text
           Examples.FsError (Node.Fulfilled [])
           Examples.readFileSync_comment Examples.yaml_odd_category
           Examples.basename_posix
           Examples.no_style Examples.no_style Examples.no_style Examples.no_style
           Examples.no_style Examples.inspect_caught
           false Examples.contents_comment
           [JS.lit "templates/a.md"] [JS.lit "templates/b.md"]
           (JS.lit "templates/todo.md")).
  - apply Forall_cons; [|apply Forall_nil]. split; reflexivity.
  - reflexivity.
  - reflexivity.
Defined.

(* ------------------------------------------------------------------------ *)
(** ** The list command: groups and the tags line                            *)
(* ------------------------------------------------------------------------ *)

Section ListCommandFacts.
Import JS.






Lemma filter_with_kept (A : Type) (f : A -> result bool) (l : list A) :
  forall kept, Loader.filter_with f l = Ok kept ->
               forall x, In x kept -> f x = Ok true.
Proof.
  induction l as [|y l IH]; intros kept H x Hx.
  - cbn in H. injection H as <-. destruct Hx.
  - cbn [Loader.filter_with] in H.
    destruct (f y) as [b|] eqn:Ey; [|discriminate].
    cbn [bind] in H.
    destruct (Loader.filter_with f l) as [rest|]; [|discriminate].
    cbn [bind] in H. injection H as <-.
    destruct b.
    + destruct Hx as [<-|Hx]; [exact Ey|exact (IH rest eq_refl x Hx)].
    + exact (IH rest eq_refl x Hx).
Qed.

Lemma optional_get_metadata (v : JsValue) (k : string) :
  truthy v = true -> ListCommand.optional_get v k = get v k.
Proof. destruct v; cbn; try discriminate; reflexivity. Qed.

(** Every record [filterTemplates] keeps for a category carries it as key. *)
Lemma kept_category_key (f : Loader.Filters) (c : str) (t : Types.Template) :
  Loader.supplied (Loader.category f) = Some c ->
  Loader.keeps f t = Ok true ->
  ListCommand.category_key t = Ok c.
Proof.
  intros Hc Hk. apply keeps_true_iff in Hk. destruct Hk as (Hm & Hcat & _).
  specialize (Hcat c Hc). apply is_string_iff in Hcat.
  unfold ListCommand.category_key, ListCommand.category_of.
  rewrite (optional_get_metadata _ _ Hm), Hcat.
  unfold Loader.supplied in Hc.
  destruct (Loader.category f) as [[|x s]|]; try discriminate.
  injection Hc as <-. reflexivity.
Qed.

Lemma reduce_from_single (c : str) (l g : list Types.Template) :
  (forall t, In t l -> ListCommand.category_key t = Ok c) ->
  ListCommand.reduce_from [(c, g)] l = Ok [(c, g ++ l)].
Proof.
  revert g. induction l as [|t l IH]; intros g Hl.
  - cbn. rewrite app_nil_r. reflexivity.
  - cbn [ListCommand.reduce_from]. unfold ListCommand.group_step.
    rewrite (Hl t (or_introl eq_refl)). cbn [bind].
    cbn [ListCommand.group_of ListCommand.push_to]. rewrite str_eqb_refl. cbn [bind].
    rewrite (IH (g ++ [t]) (fun u Hu => Hl u (or_intror Hu))).
    rewrite <- app_assoc. reflexivity.
Qed.


(** X24.  With a category given, the records [filterTemplates] returns all
    fall into one group, named by that category and holding them in the
    order of the list; if the category is a name [Object.prototype] defines
    and a record carries it, the grouping throws a TypeError instead. *)
Theorem listing_one_category_has_one_group
    (templates : list Types.Template) (filters : Loader.Filters)
    (c : JS.str) (first : Types.Template) (others : list Types.Template) :
  Loader.supplied (Loader.category filters) = Some c ->
  Loader.filterTemplates templates filters = JS.Ok (first :: others) ->
  ListCommand.grouped (first :: others)
  = if ListCommand.inherited c then JS.Throw JS.TypeError
    else JS.Ok [(c, first :: others)].
Proof.
  intros Hc Hf.
  assert (Hkeys : forall t, In t (first :: others) -> ListCommand.category_key t = Ok c).
  { intros t Ht. apply (kept_category_key filters c t Hc).
    exact (filter_with_kept _ _ templates (first :: others) Hf t Ht). }
  unfold ListCommand.grouped. cbn [ListCommand.reduce_from].
  unfold ListCommand.group_step. rewrite (Hkeys first (or_introl eq_refl)).
  cbn [bind ListCommand.group_of].
  destruct (ListCommand.inherited c); [reflexivity|].
  cbn [bind app].
  exact (reduce_from_single c others [first] (fun t Ht => Hkeys t (or_intror Ht))).
Qed.


End ListCommandFacts.


Lemma listing_one_category_has_one_group_witness :
  ListCommand.grouped [Examples.react; Examples.untagged]
  = JS.Ok [(JS.lit "framework", [Examples.react; Examples.untagged])].
Proof.
  apply (listing_one_category_has_one_group
           [Examples.react; Examples.no_frontmatter; Examples.untagged]
           (Examples.by_category "framework") (JS.lit "framework")
           Examples.react [Examples.untagged]).
  - reflexivity.
  - reflexivity.
Defined.


(* ------------------------------------------------------------------------ *)
(** ** The frontmatter-check script: [main]                                  *)
(* ------------------------------------------------------------------------ *)

Section ScriptMainFacts.
Import JS.

Variable FsError : Type.
Variable readFileSync : str -> Node.Settled FsError str.
Variable yaml_load : str -> result JsValue.
Variable inspect : ValidateYaml.Failure FsError -> str.

#[local] Set Warnings "-notation-for-abbreviation".
Local Notation check := (ValidateYaml.check yaml_load).
Local Notation loop := (ValidateYaml.loop FsError readFileSync yaml_load).
Local Notation main glob :=
  (ValidateYaml.main FsError glob readFileSync yaml_load inspect).
Local Notation findings := (Spec.script_findings yaml_load).
Local Notation has_metadata := (Spec.script_has_metadata yaml_load).
Local Notation has_errors := (Spec.script_has_errors yaml_load).
Local Notation manageable := (Spec.manageable FsError readFileSync yaml_load).

Lemma check_throws (st : ValidateYaml.MainState) (file content : str) (e : Exn) :
  findings file content = Some (Throw e) -> check st file content = Throw e.
Proof.
  unfold Spec.script_findings, ValidateYaml.check.
  destruct (ValidateYaml.extractFrontmatter content) as [[|c block]|]; try discriminate.
  intro H. injection H as H. rewrite H. reflexivity.
Qed.

Lemma check_counts (st : ValidateYaml.MainState) (file content : str) :
  (forall e, findings file content <> Some (Throw e)) ->
  exists st',
    check st file content = Ok st'
    /\ ValidateYaml.hasErrors st' = ValidateYaml.hasErrors st || has_errors file content
    /\ ValidateYaml.filesWithFrontmatter st'
       = ValidateYaml.filesWithFrontmatter st
         + (if has_metadata file content then 1 else 0)
    /\ ValidateYaml.filesWithoutFrontmatter st'
       = ValidateYaml.filesWithoutFrontmatter st
         + (if has_metadata file content then 0 else 1).
Proof.
  unfold Spec.script_has_errors, Spec.script_has_metadata, Spec.script_findings,
    ValidateYaml.check.
  intro Hfine.
  destruct (ValidateYaml.extractFrontmatter content) as [[|c block]|].
  - eexists. split; [reflexivity|].
    cbn. rewrite orb_false_r, Nat.add_0_r. repeat split; reflexivity.
  - destruct (ValidateYaml.validateFrontmatter file
                (ValidateYaml.parseFrontmatter yaml_load (c :: block))) as [v|e].
    + cbn [bind]. eexists. split; [reflexivity|].
      destruct (ValidateYaml.errors v), (ValidateYaml.warnings v); cbn;
        rewrite ?orb_false_r, ?orb_true_r, ?Nat.add_0_r; repeat split; reflexivity.
    + exfalso. exact (Hfine e eq_refl).
  - eexists. split; [reflexivity|].
    cbn. rewrite orb_false_r, Nat.add_0_r. repeat split; reflexivity.
Qed.

Lemma skips_iff (file : str) :
  str_includes file (lit "_base-template.md") = negb (Spec.examined file).
Proof. unfold Spec.examined. rewrite negb_involutive. reflexivity. Qed.


(** The loop stops at the first file whose judging throws. *)
Lemma loop_throws (contents : str -> str) (pre post : list str) (bad : str) (e : Exn) :
  Forall (manageable contents) pre ->
  Spec.examined bad = true ->
  readFileSync bad = Node.Fulfilled (contents bad) ->
  findings bad (contents bad) = Some (Throw e) ->
  forall st, exists st',
    loop st (pre ++ bad :: post) = (st', Some (ValidateYaml.OfJs e))
    /\ loop st (pre ++ [bad]) = (st', Some (ValidateYaml.OfJs e)).
Proof.
  intros Hpre Hex Hread Hbad.
  induction Hpre as [|file files Hfile _ IH]; intro st.
  - exists st. cbn [app ValidateYaml.loop]. rewrite skips_iff, Hex. cbn [negb].
    rewrite Hread, (check_throws st bad (contents bad) e Hbad). split; reflexivity.
  - cbn [app ValidateYaml.loop]. unfold Spec.manageable in Hfile. rewrite skips_iff.
    destruct (Spec.examined file); cbn [negb].
    + destruct (Hfile eq_refl) as [Hr Hfine]. rewrite Hr.
      destruct (check_counts st file (contents file) Hfine) as (st1 & Hcheck & _).
      rewrite Hcheck. exact (IH st1).
    + apply IH.
Qed.


(** X27.  When the metadata block of an examined file parses to [undefined]
    or [null] (js-yaml on a block of comments), judging it throws and the
    script ends at that file through its catch handler: it exits with code
    1 and reports the exception, whatever the files after it hold. *)
Theorem main_stops_at_metadata_without_a_value
    (glob : Node.Settled FsError (list str)) (contents : str -> str)
    (pre post : list str) (bad : str) (block : str) :
  glob = Node.Fulfilled (pre ++ bad :: post) ->
  Forall (manageable contents) pre ->
  Spec.examined bad = true ->
  readFileSync bad = Node.Fulfilled (contents bad) ->
  ValidateYaml.extractFrontmatter (contents bad) = Some block ->
  block <> [] ->
  (ValidateYaml.parseFrontmatter yaml_load block = JUndefined
   \/ ValidateYaml.parseFrontmatter yaml_load block = JNull) ->
  main glob = main (Node.Fulfilled (pre ++ [bad]))
  /\ Node.exit (main glob) = Node.Exited 1
  /\ Node.stderr (main glob)
     = [lit "Error: " ++ inspect (ValidateYaml.OfJs TypeError)].
Proof.
  intros -> Hpre Hex Hread Hblock Hne Hnull.
  assert (Hbad : findings bad (contents bad) = Some (Throw TypeError)).
  { unfold Spec.script_findings. rewrite Hblock.
    destruct block as [|c block]; [contradiction Hne; reflexivity|].
    destruct Hnull as [-> | ->]; reflexivity. }
  destruct (loop_throws contents pre post bad TypeError Hpre Hex Hread Hbad
              ValidateYaml.initial) as (st & H1 & H2).
  assert (Hrun : forall tail,
            loop ValidateYaml.initial (pre ++ bad :: tail)
            = (st, Some (ValidateYaml.OfJs TypeError)) ->
            main (Node.Fulfilled (pre ++ bad :: tail))
            = ValidateYaml.failed FsError inspect (ValidateYaml.printed st)
                (ValidateYaml.OfJs TypeError)).
  { intros tail Hl. unfold ValidateYaml.main.
    destruct (pre ++ bad :: tail) as [|x xs] eqn:E.
    - destruct pre; discriminate E.
    - rewrite Hl. reflexivity. }
  rewrite (Hrun post H1), (Hrun [] H2). repeat split; reflexivity.
Qed.

End ScriptMainFacts.


Lemma main_stops_at_metadata_without_a_value_witness :
  Examples.script ["templates/a.md"; "templates/todo.md"; "templates/b.md"]%string
  = Examples.script ["templates/a.md"; "templates/todo.md"]%string
  /\ Node.exit
       (Examples.script ["templates/a.md"; "templates/todo.md"; "templates/b.md"]%string)
     = Node.Exited 1
  /\ Node.stderr
       (Examples.script ["templates/a.md"; "templates/todo.md"; "templates/b.md"]%string)
     = [JS.lit "Error: TypeError"].
Proof.
  apply (main_stops_at_metadata_without_a_value
           Examples.FsError Examples.readFileSync_comment Examples.yaml_undefined
           Examples.inspect_failure
           (Node.Fulfilled [JS.lit "templates/a.md"; JS.lit "templates/todo.md";
                            JS.lit "templates/b.md"])
           Examples.contents_comment
           [JS.lit "templates/a.md"] [JS.lit "templates/b.md"]
           (JS.lit "templates/todo.md") (JS.lit "# metadata to be written")).
  - reflexivity.
  - apply Forall_cons; [|apply Forall_nil].
    intros _. split; [reflexivity|]. intros e He. vm_compute in He. discriminate He.
  - reflexivity.
  - reflexivity.
  - vm_compute. reflexivity.
  - discriminate.
  - left. reflexivity.
Defined.
